(** * HWO habitability explorer: column detection, scoring and observability

    A shallow embedding of the algorithmic core of the repository:

    - [backend/app/api/hwo_scoring.py]: [ColumnDetector], [HWOScoringEngine],
      the [/upload] and [/validate-columns] endpoints;
    - [backend/app/utils/observability.py]: the observability geometry;
    - [data_science/algorithms/cdhs.py] and [sephi.py]: the two habitability
      composites.

    Conventions of the embedding.

    - Python [float] values are idealised as rationals ([Q]). Rounding error
      is outside the model, and the statements about scores are meant to be
      those that rounding does not disturb: bounds, margins, and equalities
      at values that the doubles compute exactly. The range of the
      doubles is kept where the interpreter raises on it: a conversion or a
      power beyond [OVERFLOW] raises [OverflowError], and a quotient or a
      power below [UNDERFLOW] is the zero on which [math.log10] and a
      division raise. The infinity that the source itself writes,
      [float("inf")] in [required_telescope_diameter_m], is modelled by
      [xfloat].
    - Python [str] values are sequences of code points below 256 (Latin-1),
      carried by Rocq's [string].
    - Interpreter builtins whose values are not rational (the power operator,
      [math.log10]) or whose definition is not part of the repository
      ([float(str)], [int(str)], [str(number)]) are fields of the class
      [PyBuiltins]; statements are made for every instance.
    - A raised exception is a [Raise] result; nothing is assumed about code
      that raised. *)

From Stdlib Require Import ZArith QArith Qabs Qround Lqa Lia List String Ascii Bool DecimalString.
From stdpp Require Import base option gmap strings.

Open Scope string_scope.

(** ** Python strings over Latin-1 *)

Module PyStr.

(** [c.lower()] for one code point below 256. *)
Definition lower_char (c : ascii) : ascii :=
  let n := N_of_ascii c in
  if ((65 <=? n) && (n <=? 90)
      || (192 <=? n) && (n <=? 222) && negb (n =? 215))%N
  then ascii_of_N (n + 32) else c.

(** [c.upper()] where the result is again one code point below 256. The
    three Latin-1 letters whose upper case is not (code points 181, 223 and
    255) are left as they are: their upper case is no ASCII letter either. *)
Definition upper_char (c : ascii) : ascii :=
  let n := N_of_ascii c in
  if ((97 <=? n) && (n <=? 122)
      || (224 <=? n) && (n <=? 254) && negb (n =? 247))%N
  then ascii_of_N (n - 32) else c.

(** [c.isspace()]. *)
Definition is_space (c : ascii) : bool :=
  let n := N_of_ascii c in
  ((9 <=? n) && (n <=? 13) || (28 <=? n) && (n <=? 32)
   || (n =? 133) || (n =? 160))%N.

Fixpoint lower (s : string) : string :=
  match s with
  | EmptyString => EmptyString
  | String c r => String (lower_char c) (lower r)
  end.

Fixpoint lstrip (s : string) : string :=
  match s with
  | EmptyString => EmptyString
  | String c r => if is_space c then lstrip r else s
  end.

Fixpoint rstrip (s : string) : string :=
  match s with
  | EmptyString => EmptyString
  | String c r =>
      match rstrip r with
      | EmptyString => if is_space c then EmptyString else String c EmptyString
      | r' => String c r'
      end
  end.

(** [s.strip()]. *)
Definition strip (s : string) : string := rstrip (lstrip s).

(** [s.replace(old, new)] for one-character [old] and [new]. *)
Fixpoint replace_char (old new : ascii) (s : string) : string :=
  match s with
  | EmptyString => EmptyString
  | String c r =>
      String (if Ascii.eqb c old then new else c) (replace_char old new r)
  end.

Fixpoint remove_from (pat : string) (skip : nat) (s : string) : string :=
  match s with
  | EmptyString => EmptyString
  | String c r =>
      match skip with
      | S k => remove_from pat k r
      | O =>
          if String.prefix pat s
          then remove_from pat (String.length pat - 1) r
          else String c (remove_from pat 0 r)
      end
  end.

(** [s.replace(pat, '')] for a non-empty [pat]: the occurrences are found
    left to right and do not overlap. *)
Definition remove_all (pat s : string) : string := remove_from pat 0 s.

(** [pat in s]. *)
Fixpoint contains (pat s : string) : bool :=
  String.prefix pat s
  || match s with
     | EmptyString => false
     | String _ r => contains pat r
     end.

Definition mem_char (c : ascii) (l : list ascii) : bool :=
  existsb (Ascii.eqb c) l.

Fixpoint distinct (l : list ascii) : list ascii :=
  match l with
  | [] => []
  | c :: r => if mem_char c r then distinct r else c :: distinct r
  end.

(** [len(set(a) & set(b))]. *)
Definition common_chars (a b : string) : nat :=
  let lb := list_ascii_of_string b in
  List.length (List.filter (fun c => mem_char c lb)
                           (distinct (list_ascii_of_string a))).

(** Truth value of a string: non-empty. *)
Definition truthy (s : string) : bool :=
  match s with EmptyString => false | _ => true end.

End PyStr.

(** Comparisons of Python floats, on rationals. *)
Definition Qltb (x y : Q) : bool := negb (Qle_bool y x).
Definition Qleb (x y : Q) : bool := Qle_bool x y.

(** [max(a, b)] and [min(a, b)] as the interpreter computes them: the first
    argument is kept unless the second is strictly better. *)
Definition py_max (a b : Q) : Q := if Qltb a b then b else a.
Definition py_min (a b : Q) : Q := if Qltb b a then b else a.

(** ** ColumnDetector *)

Module ColumnDetector.

(** The class attribute [COLUMN_MAPPINGS], in declaration order. *)
Definition COLUMN_MAPPINGS : list (string * list string) :=
  [ ("name",
      ["name"; "planet_name"; "pl_name"; "target_name"; "object_name";
       "identifier"; "designation"; "common_name"; "planet"; "target";
       "object"; "source_name"; "catalogue_name"; "exoplanet_name"]);
    ("distance",
      ["distance"; "dist"; "sy_dist"; "distance_pc"; "dist_pc";
       "parallax_distance"; "stellar_distance"; "star_distance";
       "system_distance"; "parsecs"; "pc"; "d"; "dist_parsec"]);
    ("star_type",
      ["star_type"; "stellar_type"; "st_spectype"; "spectral_type";
       "spec_type"; "stellar_class"; "star_class"; "classification";
       "sptype"; "spectype"; "st_type"; "host_star_type"; "host_type"]);
    ("planet_radius",
      ["planet_radius"; "pl_rade"; "radius"; "pl_radius"; "r_planet";
       "planet_r"; "radius_earth"; "earth_radius"; "r_earth"; "re";
       "planet_size"; "size"; "pl_rad"; "radius_e"]);
    ("orbital_period",
      ["orbital_period"; "period"; "pl_orbper"; "orbit_period";
       "period_days"; "orbital_period_days"; "pl_period"; "p";
       "orbit_p"; "period_d"; "days"; "pl_orbperdur1"]);
    ("stellar_mass",
      ["stellar_mass"; "star_mass"; "st_mass"; "host_mass";
       "host_star_mass"; "m_star"; "mass_star"; "stellar_m";
       "st_m"; "ms"; "mass_stellar"; "host_m"]);
    ("planet_mass",
      ["planet_mass"; "pl_masse"; "mass"; "pl_mass"; "m_planet";
       "planet_m"; "mass_earth"; "earth_mass"; "m_earth"; "me";
       "pl_m"; "mass_e"; "planet_masse"]);
    ("temperature",
      ["temperature"; "temp"; "pl_eqt"; "equilibrium_temperature";
       "eq_temp"; "teq"; "t_eq"; "planet_temp"; "pl_temp";
       "effective_temperature"; "t_eff"; "temp_eq"; "kelvin"]);
    ("discovery_year",
      ["discovery_year"; "disc_year"; "year"; "discovery_date";
       "found_year"; "detected_year"; "publication_year";
       "announce_year"; "year_discovered"; "yr"]);
    ("detection_method",
      ["detection_method"; "discovery_method"; "method"; "discoverymethod";
       "detection_technique"; "discovery_technique"; "technique";
       "method_detection"; "detect_method"; "disc_method"]);
    ("data_quality",
      ["data_quality"; "quality"; "data_flag"; "flag"; "reliability";
       "confidence"; "quality_flag"; "grade"; "rating"; "status";
       "validation_status"; "verified"]) ].

(** The prefix and suffix pairs of [_fuzzy_match]. *)
Definition patterns : list (string * string) :=
  [ ("pl_", "planet_"); ("st_", "star_"); ("st_", "stellar_");
    ("sy_", "system_"); ("_pc", "_parsec"); ("_e", "_earth");
    ("_j", "_jupiter"); ("_d", "_days"); ("_yr", "_year") ].

Definition clean (pattern : string * string) (s : string) : string :=
  PyStr.remove_all (snd pattern) (PyStr.remove_all (fst pattern) s).

Definition _fuzzy_match (str1 str2 : string) : bool :=
  existsb (fun pattern => String.eqb (clean pattern str1) (clean pattern str2))
          patterns.

(** [h.lower().strip().replace(' ', '_').replace('-', '_')]. *)
Definition normalize (h : string) : string :=
  PyStr.replace_char "-" "_"
    (PyStr.replace_char " " "_" (PyStr.strip (PyStr.lower h))).

(** [len(set(p.lower()) & set(header_lower)) / max(len(p), len(header_lower))].
    No synonym of [COLUMN_MAPPINGS] is empty, so the divisor is positive. *)
Definition overlap_score (possible_name header_lower : string) : Q :=
  inject_Z (Z.of_nat (PyStr.common_chars (PyStr.lower possible_name) header_lower))
  / inject_Z (Z.of_nat (Nat.max (String.length possible_name)
                                (String.length header_lower))).

Definition is_substring_pair (possible_name header_lower : string) : bool :=
  PyStr.contains (PyStr.lower possible_name) header_lower
  || PyStr.contains header_lower (PyStr.lower possible_name).

(** The running pair [(best_match, best_score)] of one field. *)
Definition best := (option string * Q)%type.

(** The loop "Check for partial matches" for one header. *)
Definition substring_pass (possible_names : list string)
    (csv_col header_lower : string) (b : best) : best :=
  fold_left
    (fun (b : best) possible_name =>
       if is_substring_pair possible_name header_lower
       then
         let score := overlap_score possible_name header_lower in
         if Qltb (snd b) score && Qltb (6 # 10) score
         then (Some csv_col, score) else b
       else b)
    possible_names b.

(** The loop "Fuzzy matching for common abbreviations" for one header. *)
Definition fuzzy_pass (possible_names : list string)
    (csv_col header_lower : string) (b : best) : best :=
  fold_left
    (fun (b : best) possible_name =>
       if _fuzzy_match header_lower (PyStr.lower possible_name)
       then
         let score := 8 # 10 in
         if Qltb (snd b) score then (Some csv_col, score) else b
       else b)
    possible_names b.

Definition is_exact (possible_names : list string) (header_lower : string) : bool :=
  existsb (String.eqb header_lower) (List.map PyStr.lower possible_names).

(** The loop over [zip(headers, headers_lower)] for one field. The first
    component is the header on which the loop left through [break]. *)
Fixpoint scan_headers (possible_names : list string) (headers : list string)
    (b : best) : option string * best :=
  match headers with
  | [] => (None, b)
  | csv_col :: rest =>
      let header_lower := normalize csv_col in
      if is_exact possible_names header_lower
      then (Some csv_col, b)
      else
        scan_headers possible_names rest
          (fuzzy_pass possible_names csv_col header_lower
             (substring_pass possible_names csv_col header_lower b))
  end.

(** [detected_mapping] and [confidence_scores]. *)
Definition detection := (gmap string string * gmap string Q)%type.

Definition bool_of_best_match (m : option string) : bool :=
  match m with Some s => PyStr.truthy s | None => false end.

(** One iteration of the loop over [COLUMN_MAPPINGS.items()]. *)
Definition field_step (headers : list string) (acc : detection)
    (entry : string * list string) : detection :=
  let '(our_field, possible_names) := entry in
  let '(hit, (best_match, best_score)) :=
    scan_headers possible_names headers (None, 0%Q) in
  let acc :=
    match hit with
    | Some csv_col => (<[our_field := csv_col]> acc.1, <[our_field := 1%Q]> acc.2)
    | None => acc
    end in
  match best_match with
  | Some col =>
      if PyStr.truthy col && negb (bool_decide (is_Some (acc.1 !! our_field)))
      then (<[our_field := col]> acc.1, <[our_field := best_score]> acc.2)
      else acc
  | None => acc
  end.

(** [detect_columns] reading the synonym table [table]. *)
Definition detect_columns_with (table : list (string * list string))
    (headers : list string) : detection :=
  fold_left (field_step headers) table (∅, ∅).

Definition detect_columns (headers : list string) : detection :=
  detect_columns_with COLUMN_MAPPINGS headers.

(** The three rules, for one header against the synonyms of one field:
    equality with a synonym; a synonym containing the header or contained
    in it, with an overlap score above 0.6; equality after the removal of a
    pattern pair. *)
Definition exact_rule (possible_names : list string) (header : string) : bool :=
  is_exact possible_names (normalize header).

Definition substring_rule (possible_names : list string) (header : string) : bool :=
  existsb
    (fun possible_name =>
       is_substring_pair possible_name (normalize header)
       && Qltb (6 # 10) (overlap_score possible_name (normalize header)))
    possible_names.

Definition fuzzy_rule (possible_names : list string) (header : string) : bool :=
  existsb
    (fun possible_name =>
       _fuzzy_match (normalize header) (PyStr.lower possible_name))
    possible_names.

Definition header_matches (possible_names : list string) (header : string) : bool :=
  exact_rule possible_names header
  || substring_rule possible_names header
  || fuzzy_rule possible_names header.

(** No header matches a synonym of a field of [table] under any rule. *)
Definition no_header_matches (table : list (string * list string))
    (headers : list string) : bool :=
  forallb
    (fun entry : string * list string =>
       forallb (fun header => negb (header_matches entry.2 header)) headers)
    table.

Definition required_fields : list string :=
  ["name"; "distance"; "star_type"; "planet_radius"; "orbital_period";
   "stellar_mass"].

Definition optional_fields : list string :=
  ["planet_mass"; "temperature"; "discovery_year"; "detection_method";
   "data_quality"].

(** [field not in detected_mapping]. *)
Definition unmapped (m : gmap string string) (field : string) : bool :=
  negb (bool_decide (is_Some (m !! field))).

(** [COLUMN_MAPPINGS.get(field, [])]. *)
Fixpoint synonyms_of (table : list (string * list string)) (field : string)
    : list string :=
  match table with
  | [] => []
  | (f, names) :: rest =>
      if String.eqb f field then names else synonyms_of rest field
  end.

(** The test of [_generate_suggestions] for one header; the header is
    lowercased and its spaces and hyphens replaced, but it is not stripped. *)
Definition suggests (possible_names : list string) (header : string) : bool :=
  let header_lower :=
    PyStr.replace_char "-" "_" (PyStr.replace_char " " "_" (PyStr.lower header)) in
  existsb
    (fun possible_name =>
       PyStr.contains (PyStr.lower possible_name) header_lower
       || PyStr.contains header_lower (PyStr.lower possible_name)
       || _fuzzy_match header_lower (PyStr.lower possible_name))
    possible_names.

Definition _generate_suggestions (missing_fields unmapped_headers : list string)
    : gmap string (list string) :=
  fold_left
    (fun (suggestions : gmap string (list string)) field =>
       let field_suggestions :=
         List.filter (suggests (synonyms_of COLUMN_MAPPINGS field))
                     unmapped_headers in
       match field_suggestions with
       | [] => suggestions
       | _ => <[field := firstn 3 field_suggestions]> suggestions
       end)
    missing_fields ∅.

(** The dictionary returned by [get_mapping_suggestions]. *)
Record MappingSuggestions := {
  ms_detected_mapping : gmap string string;
  ms_confidence_scores : gmap string Q;
  ms_missing_required : list string;
  ms_missing_optional : list string;
  ms_unmapped_headers : list string;
  ms_mapping_quality : Q;
  ms_suggestions : gmap string (list string)
}.

Definition get_mapping_suggestions (headers : list string) : MappingSuggestions :=
  let '(detected_mapping, confidence_scores) := detect_columns headers in
  let missing_required := List.filter (unmapped detected_mapping) required_fields in
  let missing_optional := List.filter (unmapped detected_mapping) optional_fields in
  let values := (map_to_list detected_mapping).*2 in
  let unmapped_headers :=
    List.filter (fun h => negb (existsb (String.eqb h) values)) headers in
  {| ms_detected_mapping := detected_mapping;
     ms_confidence_scores := confidence_scores;
     ms_missing_required := missing_required;
     ms_missing_optional := missing_optional;
     ms_unmapped_headers := unmapped_headers;
     ms_mapping_quality :=
       inject_Z (Z.of_nat (size detected_mapping))
       / inject_Z (Z.of_nat (List.length COLUMN_MAPPINGS));
     ms_suggestions :=
       _generate_suggestions (missing_required ++ missing_optional)
                             unmapped_headers |}.

(** [ColumnMappingResponse]. *)
Record ColumnMappingResponse := {
  detected_mapping : gmap string string;
  confidence_scores : gmap string Q;
  missing_required : list string;
  missing_optional : list string;
  unmapped_headers : list string;
  mapping_quality : Q;
  suggestions : gmap string (list string);
  validation_status : string;
  can_proceed : bool
}.

(** The endpoint [validate_csv_columns] on [request.headers]. Nothing in
    its body raises, so the handler of the [try] is not taken. *)
Definition validate_csv_columns (headers : list string) : ColumnMappingResponse :=
  let suggestions := get_mapping_suggestions headers in
  let missing_required := ms_missing_required suggestions in
  let can_proceed := Nat.eqb (List.length missing_required) 0 in
  let validation_status :=
    if can_proceed then "valid" else "missing_required_fields" in
  let validation_status :=
    if Qltb (ms_mapping_quality suggestions) (5 # 10)
    then "low_confidence" else validation_status in
  {| detected_mapping := ms_detected_mapping suggestions;
     confidence_scores := ms_confidence_scores suggestions;
     missing_required := missing_required;
     missing_optional := ms_missing_optional suggestions;
     unmapped_headers := ms_unmapped_headers suggestions;
     mapping_quality := ms_mapping_quality suggestions;
     suggestions := ms_suggestions suggestions;
     validation_status := validation_status;
     can_proceed := can_proceed |}.

(** *** Detection as a call on the class state

    [detect_columns] is a static method; the only thing it reads outside
    its argument is the class attribute [COLUMN_MAPPINGS]. A call is a
    state transformer on that attribute. *)
Definition Call (A : Type) : Type :=
  list (string * list string) -> A * list (string * list string).

Definition detect_columns_call (headers : list string) : Call detection :=
  fun table => (detect_columns_with table headers, table).

Definition call_then {A B : Type} (c : Call A) (k : A -> Call B) : Call B :=
  fun table => let '(a, table') := c table in k a table'.

Definition call_ret {A : Type} (a : A) : Call A := fun table => (a, table).

(** Two calls in a row, with both results. *)
Definition detect_twice (headers : list string) : Call (detection * detection) :=
  call_then (detect_columns_call headers) (fun r1 =>
  call_then (detect_columns_call headers) (fun r2 =>
  call_ret (r1, r2))).

(** What the iteration of one field leaves for that field: the header of
    the [break] at confidence 1.0, else the best partial match if there is
    one and it is a non-empty string, else nothing. *)
Definition field_outcome (possible_names headers : list string)
    : option (string * Q) :=
  match scan_headers possible_names headers (None, 0%Q) with
  | (Some csv_col, _) => Some (csv_col, 1%Q)
  | (None, (Some col, score)) =>
      if PyStr.truthy col then Some (col, score) else None
  | (None, (None, _)) => None
  end.

(** [n] calls in a row, with all results, first call first. *)
Fixpoint detect_repeat (n : nat) (headers : list string) : Call (list detection) :=
  match n with
  | O => call_ret []
  | S k =>
      call_then (detect_columns_call headers) (fun r =>
      call_then (detect_repeat k headers) (fun rs =>
      call_ret (r :: rs)))
  end.

(** *** Predicates on detection results *)

(** A running best match that came from one of the headers by a partial
    rule, with a score above 0.6 and at most 1. *)
Definition best_sound (names headers : list string) (b : best) : Prop :=
  match b.1 with
  | None => True
  | Some col =>
      col ∈ headers
      /\ substring_rule names col || fuzzy_rule names col = true
      /\ (6 # 10 < b.2 /\ b.2 <= 1)%Q
  end.

(** What holds of every entry of a dictionary of suggestions. *)
Definition suggestions_ok (missing_fields unmapped_headers : list string)
    (suggestions : gmap string (list string)) : Prop :=
  forall field l,
    suggestions !! field = Some l ->
    field ∈ missing_fields
    /\ 1 <= List.length l <= 3
    /\ forall h, h ∈ l ->
         h ∈ unmapped_headers
         /\ suggests (synonyms_of COLUMN_MAPPINGS field) h = true.

End ColumnDetector.

(** ** Interpreter builtins and exceptions *)

(** The builtins the repository calls and does not define. [float_of_str]
    and [int_of_str] are [float(s)] and [int(s)] on a string, [None] for
    [ValueError]; [str_of_float] and [str_of_int] are [str(x)]; [py_pow x y]
    is [x ** y] for a base [x >= 0] and a non-integer exponent; [log10] is
    [math.log10] on a positive argument. *)
Class PyBuiltins := {
  float_of_str : string -> option Q;
  int_of_str : string -> option Z;
  str_of_float : Q -> string;
  str_of_int : Z -> string;
  py_pow : Q -> Q -> Q;
  log10 : Q -> Q
}.

(** The exception classes that occur. *)
Inductive exn : Type :=
| ValueError (what : string)
| TypeError (what : string)
| KeyError (what : string)
| ZeroDivisionError
| OverflowError (what : string).

(** A computation that returns or raises. *)
Inductive result (E A : Type) : Type :=
| Ok (a : A)
| Raise (e : E).
Arguments Ok {E A} a.
Arguments Raise {E A} e.

Definition bind {E A B : Type} (m : result E A) (k : A -> result E B) : result E B :=
  match m with
  | Ok a => k a
  | Raise e => Raise e
  end.

Notation "'do' x <- m ; k" := (bind m (fun x => k))
  (at level 10, x name, m at level 100, k at level 200).

(** A value of a cell of a parsed table, of a JSON object or of a
    dictionary built from them. An empty cell (NaN) is not a value: it is
    the absence of one; [VNone] is [None] (a JSON [null]). *)
Inductive value : Type :=
| VNone
| VBool (b : bool)
| VInt (z : Z)
| VFloat (q : Q)
| VStr (s : string).

(** Numbers are rationals here, but two facts about the doubles of the code
    are kept, because the interpreter raises on them. A result whose
    magnitude reaches [OVERFLOW], half a unit in the last place beyond the
    largest double, is not a finite double; and a result whose magnitude is
    at most [UNDERFLOW], half the smallest positive double, is zero. A
    number of a file or of a JSON text that is beyond the range is read as
    the infinity of its sign: [VFloat q] with such a [q] stands for it. *)
Definition OVERFLOW : Q := 2 ^ 1024 - 2 ^ 970.
Definition UNDERFLOW : Q := 1 / 2 ^ 1075.
Definition overflows (x : Q) : bool := Qleb OVERFLOW (Qabs x).
Definition underflows (x : Q) : bool := Qleb (Qabs x) UNDERFLOW.

Section Coercions.
Context `{PyBuiltins}.

(** [float(v)]; an integer beyond the doubles raises. *)
Definition py_float (v : value) : result exn Q :=
  match v with
  | VNone => Raise (TypeError "float() argument must be a string or a real number")
  | VBool b => Ok (if b then 1 else 0)%Q
  | VInt z =>
      if overflows (inject_Z z)
      then Raise (OverflowError "int too large to convert to float")
      else Ok (inject_Z z)
  | VFloat q => Ok q
  | VStr s =>
      match float_of_str s with
      | Some q => Ok q
      | None => Raise (ValueError ("could not convert string to float: " ++ s))
      end
  end.

(** [int(v)]; a float is truncated towards zero, and an infinite one
    raises. *)
Definition py_int (v : value) : result exn Z :=
  match v with
  | VNone => Raise (TypeError "int() argument must be a string or a real number")
  | VBool b => Ok (if b then 1 else 0)%Z
  | VInt z => Ok z
  | VFloat q =>
      if overflows q
      then Raise (OverflowError "cannot convert float infinity to integer")
      else Ok (Qnum q ÷ Zpos (Qden q))%Z
  | VStr s =>
      match int_of_str s with
      | Some z => Ok z
      | None => Raise (ValueError ("invalid literal for int() with base 10: " ++ s))
      end
  end.

(** [str(v)]. *)
Definition py_str (v : value) : string :=
  match v with
  | VNone => "None"
  | VBool b => if b then "True" else "False"
  | VInt z => str_of_int z
  | VFloat q => str_of_float q
  | VStr s => s
  end.

(** Truth value of [v]. *)
Definition py_truthy (v : value) : bool :=
  match v with
  | VNone => false
  | VBool b => b
  | VInt z => negb (Z.eqb z 0)
  | VFloat q => negb (Qeq_bool q 0)
  | VStr s => PyStr.truthy s
  end.

End Coercions.

(** [round(x, 1)]: to one decimal, ties to the even digit. *)
Definition round_half_even (x : Q) : Z :=
  let f := Qfloor x in
  let r := (x - inject_Z f)%Q in
  if Qltb r (1 # 2) then f
  else if Qltb (1 # 2) r then (f + 1)%Z
  else if Z.even f then f else (f + 1)%Z.

Definition round1 (x : Q) : Q := (inject_Z (round_half_even (x * 10)) / 10)%Q.

(** ** HWOScoringEngine *)

Module Scoring.

Local Open Scope Q_scope.

(** [ExoplanetTarget]. The fields that [_calculate_characterization_score]
    and [_calculate_confidence] test against [None] are options; a target
    that went through validation has the six required ones present. *)
Record ExoplanetTarget := {
  name : string;
  distance : option Q;
  star_type : option string;
  planet_radius : option Q;
  orbital_period : option Q;
  stellar_mass : option Q;
  planet_mass : option Q;
  temperature : option Q;
  discovery_year : option Z;
  detection_method : option string;
  data_quality : option string
}.

(** A target accepted by the validation of [ExoplanetTarget]. *)
Definition validated (t : ExoplanetTarget) : bool :=
  bool_decide (is_Some (distance t)) && bool_decide (is_Some (star_type t))
  && bool_decide (is_Some (planet_radius t))
  && bool_decide (is_Some (orbital_period t))
  && bool_decide (is_Some (stellar_mass t)).

(** [ScoringResult]. *)
Record ScoringResult := {
  target_name : string;
  characterization_score : Q;
  habitability_score : Q;
  habitability_class : string;
  ai_confidence : Q;
  observation_priority : string;
  detailed_scores : gmap string Q;
  ml_predictions : gmap string value;
  original_data : option (gmap string value)
}.

(** [HTTPException(status_code, detail)]. *)
Record HTTPException := {
  status_code : Z;
  detail : string
}.

(** The engine: the flag set by [_load_models] and the three unpickled
    collaborators, each a function that returns or raises. *)
Record HWOScoringEngine := {
  models_loaded : bool;
  regressor : option (list Q -> result exn Q);
  classifier : option (list Q -> result exn (Z * Q));
  scaler : option (list Q -> result exn (list Q))
}.

Definition string_truthy (s : option string) : bool :=
  match s with Some s => PyStr.truthy s | None => false end.

(** [s[0].upper()] of a non-empty string. *)
Definition main_type (s : string) : option ascii :=
  match s with
  | EmptyString => None
  | String c _ => Some (PyStr.upper_char c)
  end.

(** [mapping.get(key, default)] on a dictionary literal keyed by letters. *)
Fixpoint get_letter (mapping : list (ascii * Q)) (key : ascii) (default : Q) : Q :=
  match mapping with
  | [] => default
  | (k, v) :: rest => if Ascii.eqb k key then v else get_letter rest key default
  end.

Definition _encode_star_type (star_type : option string) : Q :=
  match star_type with
  | Some s =>
      match main_type s with
      | Some c =>
          get_letter [("O"%char, 1 # 10); ("B"%char, 2 # 10); ("A"%char, 3 # 10);
                      ("F"%char, 5 # 10); ("G"%char, 8 # 10); ("K"%char, 9 # 10);
                      ("M"%char, 1)] c (5 # 10)
      | None => 5 # 10
      end
  | None => 5 # 10
  end.

Definition _encode_detection_method (method : option string) : Q :=
  if string_truthy method then
    let method_lower := PyStr.lower (default EmptyString method) in
    if PyStr.contains "transit" method_lower then 1
    else if PyStr.contains "radial" method_lower
            || PyStr.contains "velocity" method_lower then 8 # 10
    else if PyStr.contains "imaging" method_lower then 6 # 10
    else if PyStr.contains "microlensing" method_lower then 4 # 10
    else 5 # 10
  else 5 # 10.

Definition _encode_data_quality (quality : option string) : Q :=
  if string_truthy quality then
    let quality_lower := PyStr.lower (default EmptyString quality) in
    if PyStr.contains "excellent" quality_lower then 1
    else if PyStr.contains "good" quality_lower then 8 # 10
    else if PyStr.contains "fair" quality_lower then 6 # 10
    else if PyStr.contains "limited" quality_lower
            || PyStr.contains "poor" quality_lower then 4 # 10
    else 6 # 10
  else 6 # 10.

(** The pair [(score, weight_sum)] and the two [+=] of one factor. *)
Definition tally := (Q * Q)%type.

Definition add_factor (a : tally) (factor_score weight : Q) : tally :=
  (a.1 + factor_score * weight, a.2 + weight).

Definition distance_factor (a : tally) (t : ExoplanetTarget) : tally :=
  match distance t with
  | Some distance =>
      if Qleb distance 50
      then add_factor a
             (if Qltb 5 distance then py_max 0 (1 - (distance - 5) / 45) else 1)
             (3 # 10)
      else a
  | None => a
  end.

Definition star_type_factor (a : tally) (t : ExoplanetTarget) : tally :=
  if string_truthy (star_type t) then
    match main_type (default EmptyString (star_type t)) with
    | Some c =>
        add_factor a
          (get_letter [("G"%char, 1); ("K"%char, 9 # 10); ("F"%char, 7 # 10);
                       ("M"%char, 6 # 10); ("A"%char, 3 # 10)] c (5 # 10))
          (25 # 100)
    | None => a
    end
  else a.

Definition planet_size_factor (a : tally) (t : ExoplanetTarget) : tally :=
  match planet_radius t with
  | Some planet_radius =>
      let planet_radius_earth := planet_radius * (112 # 10) in
      add_factor a
        (if Qleb (5 # 10) planet_radius_earth && Qleb planet_radius_earth 2
         then 1 - Qabs (planet_radius_earth - 1) / 1
         else py_max 0 ((3 # 10) - Qabs (planet_radius_earth - 1) / 3))
        (2 # 10)
  | None => a
  end.

Definition data_quality_factor (a : tally) (t : ExoplanetTarget) : tally :=
  if string_truthy (data_quality t)
  then add_factor a (_encode_data_quality (data_quality t)) (15 # 100)
  else a.

Definition stellar_mass_factor (a : tally) (t : ExoplanetTarget) : tally :=
  match stellar_mass t with
  | Some stellar_mass =>
      add_factor a (py_max 0 (1 - Qabs (stellar_mass - 1) / 1)) (1 # 10)
  | None => a
  end.

(** [score] and [weight_sum] after the five factors. *)
Definition characterization_tally (t : ExoplanetTarget) : tally :=
  let a : tally := (0, 0) in
  let a := distance_factor a t in
  let a := star_type_factor a t in
  let a := planet_size_factor a t in
  let a := data_quality_factor a t in
  stellar_mass_factor a t.

Definition _calculate_characterization_score (t : ExoplanetTarget) : Q :=
  let a := characterization_tally t in
  if Qltb 0 a.2 then (a.1 / a.2) * 100 else 50.

(** None of the five factors is taken: each guarded input is absent or
    empty, or the distance is beyond 50 pc. *)
Definition no_weighted_input (t : ExoplanetTarget) : bool :=
  match distance t with Some d => negb (Qleb d 50) | None => true end
  && negb (string_truthy (star_type t))
  && negb (bool_decide (is_Some (planet_radius t)))
  && negb (string_truthy (data_quality t))
  && negb (bool_decide (is_Some (stellar_mass t))).

(** The [if]/[elif]/[else] of [score_target] on the score. *)
Definition priority_of (characterization_score : Q) : string :=
  if Qleb 75 characterization_score then "High"
  else if Qleb 50 characterization_score then "Medium"
  else "Low".

(** [_calculate_confidence]. *)
Definition present {A : Type} (field : option A) : Z :=
  match field with Some _ => 1 | None => 0 end.

Section WithBuiltins.
Context `{PyBuiltins}.

Definition _calculate_confidence (t : ExoplanetTarget)
    (ml_predictions : gmap string value) : Q :=
  let completeness :=
    inject_Z (present (distance t) + present (star_type t)
              + present (planet_radius t) + present (orbital_period t)
              + present (stellar_mass t) + present (data_quality t))
    / 6 in
  let model_certainty :=
    match ml_predictions !! "habitability_probability" with
    | Some v =>
        match py_float v with
        | Ok p => p
        | Raise _ => 8 # 10
        end
    | None => 8 # 10
    end in
  let confidence := (completeness * (6 # 10) + model_certainty * (4 # 10)) * 100 in
  py_min (py_max confidence 0) 100.

(** [x ** y] with a non-integer [y]: a negative base gives a complex
    number, which no later step of [_prepare_features] accepts as a
    feature; it is reported here as the failure of the function. *)
Definition real_pow (x y : Q) : result exn Q :=
  if Qltb x 0 then Raise (TypeError "complex") else Ok (py_pow x y).

Definition need (field : option Q) : result exn Q :=
  match field with
  | Some x => Ok x
  | None => Raise (TypeError "float() argument must be a string or a real number")
  end.

Definition features_of (t : ExoplanetTarget) : result exn (list Q) :=
  do planet_radius <- need (planet_radius t);
  let planet_radius_earth := planet_radius * (112 # 10) in
  do orbital_period <- need (orbital_period t);
  do stellar_mass <- need (stellar_mass t);
  do semi_major_axis <-
    real_pow ((orbital_period / (36525 # 100)) ^ 2 * stellar_mass) (1 / 3);
  do estimated_mass <-
    match planet_mass t with
    | None =>
        if Qleb planet_radius_earth (15 # 10)
        then real_pow planet_radius_earth (37 # 10)
        else real_pow planet_radius_earth (18 # 10)
    | Some m => Ok m
    end;
  do stellar_luminosity <- real_pow stellar_mass (35 # 10);
  do estimated_temp <-
    match temperature t with
    | None =>
        if Qeq_bool (semi_major_axis ^ 2) 0 then Raise ZeroDivisionError
        else
          do x <- real_pow (stellar_luminosity / semi_major_axis ^ 2) (25 # 100);
          Ok (278 * x)
    | Some temp => Ok temp
    end;
  let planet_density :=
    if Qltb 0 planet_radius_earth
    then estimated_mass / planet_radius_earth ^ 3 else 1 in
  do root <- real_pow stellar_luminosity (5 # 10);
  let inner_hz := (95 # 100) * root in
  let outer_hz := (137 # 100) * root in
  let habitable_zone_distance := (inner_hz + outer_hz) / 2 in
  let hz_distance_ratio :=
    if Qltb 0 habitable_zone_distance
    then semi_major_axis / habitable_zone_distance else 1 in
  do distance <- need (distance t);
  Ok [ distance; planet_radius_earth; estimated_mass; orbital_period;
       semi_major_axis; estimated_temp; stellar_mass; stellar_luminosity;
       planet_density; inner_hz; outer_hz; habitable_zone_distance;
       hz_distance_ratio; _encode_star_type (star_type t);
       inject_Z (match discovery_year t with
                 | Some y => if Z.eqb y 0 then 2020 else y
                 | None => 2020
                 end);
       _encode_detection_method (detection_method t);
       _encode_data_quality (data_quality t);
       1 ].

(** [_prepare_features]: whatever is raised inside becomes a
    [ValueError]. The vector has 18 entries, so the padding branch is
    not taken; [nan_to_num] is the identity on rationals. *)
Definition _prepare_features (t : ExoplanetTarget) : result exn (list Q) :=
  match features_of t with
  | Ok features => Ok features
  | Raise _ => Raise (ValueError "Failed to prepare features")
  end.

(** The three locals set before the model branch. *)
Definition predictions := (gmap string value * Q * string)%type.

(** The body of the [if False:] branch of [score_target]. *)
Definition model_branch (eng : HWOScoringEngine) (t : ExoplanetTarget)
    (p : predictions) : result exn predictions :=
  do features <- _prepare_features t;
  do features_scaled <-
    match scaler eng with
    | Some transform => transform features
    | None => Ok features
    end;
  let p : predictions :=
    match regressor eng with
    | Some predict =>
        match predict features_scaled with
        | Ok hab_score_val =>
            (<["habitability_regression" := VFloat hab_score_val]> p.1.1,
             py_max 0 (py_min 100 (hab_score_val * 100)), p.2)
        | Raise _ => p
        end
    | None => p
    end in
  let p : predictions :=
    match classifier eng with
    | Some predict =>
        match predict features_scaled with
        | Ok (class_val, max_proba) =>
            (<["habitability_probability" := VFloat max_proba]>
               (<["habitability_classification" := VInt class_val]> p.1.1),
             p.1.2,
             if Z.eqb class_val 1 then "Potentially Habitable" else "Not Habitable")
        | Raise _ => p
        end
    | None => p
    end in
  Ok p.

Definition exn_text (e : exn) : string :=
  match e with
  | ValueError what | TypeError what | KeyError what | OverflowError what => what
  | ZeroDivisionError => "float division by zero"
  end.

(** The body of the [try] of [score_target]. *)
Definition score_body (eng : HWOScoringEngine) (t : ExoplanetTarget)
    : result exn ScoringResult :=
  let characterization_score := _calculate_characterization_score t in
  let p : predictions := (∅, 50, "Unknown") in
  do p <- (if false then model_branch eng t p else Ok p);
  let '(ml_predictions, habitability_score, habitability_class) := p in
  let ai_confidence := _calculate_confidence t ml_predictions in
  let priority := priority_of characterization_score in
  do distance <- need (distance t);
  let distance_factor := py_min 100 (py_max 0 (100 - distance)) in
  let star_type_factor := _encode_star_type (star_type t) * 100 in
  do planet_radius <- need (planet_radius t);
  let planet_size_factor :=
    py_min 100 (100 / (Qabs (planet_radius * (112 # 10) - 1) + 1)) in
  let data_quality_factor := _encode_data_quality (data_quality t) * 100 in
  Ok {| target_name := name t;
        characterization_score := round1 characterization_score;
        habitability_score := round1 habitability_score;
        habitability_class := habitability_class;
        ai_confidence := round1 ai_confidence;
        observation_priority := priority;
        detailed_scores :=
          <["data_quality_factor" := data_quality_factor]>
            (<["planet_size_factor" := planet_size_factor]>
               (<["star_type_factor" := star_type_factor]>
                  (<["distance_factor" := distance_factor]> ∅)));
        ml_predictions := ml_predictions;
        original_data := None |}.

(** [score_target]: 503 without models, 500 for anything raised in the
    body. *)
Definition score_target (eng : HWOScoringEngine) (t : ExoplanetTarget)
    : result HTTPException ScoringResult :=
  if negb (models_loaded eng)
  then Raise {| status_code := 503; detail := "ML models not available" |}
  else
    match score_body eng t with
    | Ok r => Ok r
    | Raise e =>
        Raise {| status_code := 500;
                 detail := "Scoring failed: " ++ exn_text e |}
    end.

End WithBuiltins.

(** The invariant of the accumulation: the weighted score never exceeds
    the weight collected so far. *)
Definition tally_ok (a : tally) : Prop := 0 <= a.1 /\ a.1 <= a.2 /\ 0 <= a.2.

(** What one factor does to the tally: nothing, or a weighted score. *)
Definition step_ok (f : tally -> ExoplanetTarget -> tally) : Prop :=
  forall a t, tally_ok a ->
    f a t = a \/ (tally_ok (f a t) /\ 0 < (f a t).2).

(** *** Quantities used to state the properties of the score *)

(** The number of the six fields of [_calculate_confidence] that are set. *)
Definition fields_present (t : ExoplanetTarget) : Z :=
  (present (distance t) + present (star_type t) + present (planet_radius t)
   + present (orbital_period t) + present (stellar_mass t)
   + present (data_quality t))%Z.

(** The target with another distance. *)
Definition set_distance (t : ExoplanetTarget) (d : option Q) : ExoplanetTarget :=
  {| name := name t; distance := d; star_type := star_type t;
     planet_radius := planet_radius t; orbital_period := orbital_period t;
     stellar_mass := stellar_mass t; planet_mass := planet_mass t;
     temperature := temperature t; discovery_year := discovery_year t;
     detection_method := detection_method t; data_quality := data_quality t |}.

(** The four factors after the distance. *)
Definition later_factors (a : tally) (t : ExoplanetTarget) : tally :=
  stellar_mass_factor
    (data_quality_factor (planet_size_factor (star_type_factor a t) t) t) t.

(** A factor adds a fixed score and weight to whatever tally it is given. *)
Definition shifts (f : tally -> tally) (c w : Q) : Prop :=
  forall a, (f a).1 == a.1 + c /\ (f a).2 == a.2 + w.

(** The score of the distance factor within 50 pc. *)
Definition distance_score (d : Q) : Q :=
  if Qltb 5 d then py_max 0 (1 - (d - 5) / 45) else 1.

End Scoring.

(** ** The [/upload] endpoint *)

Module Upload.

Import Scoring.
Local Open Scope list_scope.

(** A parsed table: the header row and, per line, the non-empty cells by
    column. A column missing from a row is an empty cell ([pd.notna] is
    false on it). Rows are numbered from 0 by [iterrows]. *)
Record DataFrame := {
  columns : list string;
  rows : list (gmap string value)
}.

(** [df.empty]. *)
Definition empty (df : DataFrame) : bool :=
  match columns df, rows df with
  | [], _ | _, [] => true
  | _, _ => false
  end.

(** An entry of [conversion_errors]: ["Row {index+1}: {e}"] or the marker
    ["... and more errors"]. *)
Inductive conversion_error : Type :=
| RowError (row_number : nat) (e : exn)
| MoreErrors.

(** The [processing_summary] of the response. *)
Record ProcessingSummary := {
  total_targets : nat;
  successful_scores : nat;
  failed_scores : nat;
  errors : list (string * string);
  summary_detected_mapping : gmap string string;
  summary_confidence_scores : gmap string Q;
  conversion_errors : list conversion_error;
  rows_processed : nat;
  valid_targets : nat
}.

Record BatchScoringResponse := {
  results : list ScoringResult;
  processing_summary : ProcessingSummary
}.

(** The ways the endpoint fails once the file is parsed. The first three
    are answers with status 400; [NoValidTargets errs] has the detail "No
    valid targets could be processed. Errors: " followed by the entries
    [errs] joined by "; ". [ProcessingFailed e] is the answer with status
    500 of the outer handler, "Upload processing failed: " followed by the
    text of [e]. *)
Inductive upload_failure : Type :=
| EmptyFile
| MissingRequiredColumns (missing : list string)
| NoValidTargets (errs : list conversion_error)
| ProcessingFailed (e : exn).

(** [except (ValueError, TypeError, KeyError)] of the row loop. *)
Definition caught (e : exn) : bool :=
  match e with
  | ValueError _ | TypeError _ | KeyError _ => true
  | ZeroDivisionError | OverflowError _ => false
  end.

Section WithBuiltins.
Context `{PyBuiltins}.

(** The dictionary [target_data] of one row. *)
Definition target_data_of (df : DataFrame) (detected_mapping : gmap string string)
    (row : gmap string value) : gmap string value :=
  omap (fun csv_column : string =>
          if bool_decide (csv_column ∈ columns df) then row !! csv_column else None)
       detected_mapping.

(** The dictionary [original_row_data] of one row. *)
Definition original_row_data_of (df : DataFrame) (row : gmap string value)
    : gmap string value :=
  filter (fun kv : string * value => kv.1 ∈ columns df) row.

Definition optional_number {A : Type} (convert : value -> result exn A)
    (cell : option value) : result exn (option A) :=
  match cell with
  | Some v => if py_truthy v then do x <- convert v; Ok (Some x) else Ok None
  | None => Ok None
  end.

(** The construction of [ExoplanetTarget] in the [try] of the row loop;
    the keyword arguments are evaluated in the order they are written. *)
Definition convert_row (df : DataFrame) (detected_mapping : gmap string string)
    (index : nat) (row : gmap string value) : result exn ExoplanetTarget :=
  let target_data := target_data_of df detected_mapping row in
  let name :=
    py_str (default (VStr ("Target-" +:+ str_of_int (Z.of_nat index + 1)))
                    (target_data !! "name")) in
  do distance <- py_float (default (VInt 0) (target_data !! "distance"));
  let star_type := py_str (default (VStr "Unknown") (target_data !! "star_type")) in
  do planet_radius <- py_float (default (VInt 0) (target_data !! "planet_radius"));
  do orbital_period <- py_float (default (VInt 0) (target_data !! "orbital_period"));
  do stellar_mass <- py_float (default (VInt 1) (target_data !! "stellar_mass"));
  do planet_mass <- optional_number py_float (target_data !! "planet_mass");
  do temperature <- optional_number py_float (target_data !! "temperature");
  do discovery_year <- optional_number py_int (target_data !! "discovery_year");
  let detection_method := py_str <$> (target_data !! "detection_method") in
  let data_quality := py_str (default (VStr "Good") (target_data !! "data_quality")) in
  Ok {| name := name;
        distance := Some distance;
        star_type := Some star_type;
        planet_radius := Some planet_radius;
        orbital_period := Some orbital_period;
        stellar_mass := Some stellar_mass;
        planet_mass := planet_mass;
        temperature := temperature;
        discovery_year := discovery_year;
        detection_method := detection_method;
        data_quality := Some data_quality |}.

(** The state of the row loop: [targets], [original_rows],
    [conversion_errors], and the exception that left the loop, if one was
    raised that the loop does not catch. *)
Record conversion := {
  targets : list ExoplanetTarget;
  original_rows : list (gmap string value);
  conv_errors : list conversion_error;
  aborted : option exn
}.

(** The loop [for index, row in df.iterrows()], from row [index] on. *)
Fixpoint convert_rows (df : DataFrame) (detected_mapping : gmap string string)
    (index : nat) (todo : list (gmap string value)) (st : conversion)
    : conversion :=
  match todo with
  | [] => st
  | row :: rest =>
      match convert_row df detected_mapping index row with
      | Ok target =>
          convert_rows df detected_mapping (S index) rest
            {| targets := targets st ++ [target];
               original_rows := original_rows st ++ [original_row_data_of df row];
               conv_errors := conv_errors st;
               aborted := aborted st |}
      | Raise e =>
          if caught e then
            let errs := conv_errors st ++ [RowError (index + 1) e] in
            if Nat.ltb 10 (List.length errs)
            then
              {| targets := targets st;
                 original_rows := original_rows st;
                 conv_errors := errs ++ [MoreErrors];
                 aborted := aborted st |}
            else
              convert_rows df detected_mapping (S index) rest
                {| targets := targets st;
                   original_rows := original_rows st;
                   conv_errors := errs;
                   aborted := aborted st |}
          else
            {| targets := targets st;
               original_rows := original_rows st;
               conv_errors := conv_errors st;
               aborted := Some e |}
      end
  end.

(** The row loop of the endpoint on the whole table. *)
Definition conversion_of (df : DataFrame) : conversion :=
  convert_rows df (ColumnDetector.detect_columns (columns df)).1 0 (rows df)
    {| targets := []; original_rows := []; conv_errors := []; aborted := None |}.

(** [missing_required] of the endpoint. *)
Definition missing_required_of (df : DataFrame) : list string :=
  List.filter
    (ColumnDetector.unmapped (ColumnDetector.detect_columns (columns df)).1)
    ColumnDetector.required_fields.

(** The number of rows, from row [index] on, whose conversion raises. *)
Fixpoint count_failures (df : DataFrame) (detected_mapping : gmap string string)
    (index : nat) (todo : list (gmap string value)) : nat :=
  match todo with
  | [] => 0
  | row :: rest =>
      match convert_row df detected_mapping index row with
      | Ok _ => count_failures df detected_mapping (S index) rest
      | Raise _ => S (count_failures df detected_mapping (S index) rest)
      end
  end.

(** The number of rows of the table that fail type conversion. *)
Definition failed_rows (df : DataFrame) : nat :=
  count_failures df (ColumnDetector.detect_columns (columns df)).1 0 (rows df).

(** Some row, from row [index] on, makes the conversion raise an exception
    that the row loop does not catch. *)
Fixpoint any_uncaught (df : DataFrame) (detected_mapping : gmap string string)
    (index : nat) (todo : list (gmap string value)) : bool :=
  match todo with
  | [] => false
  | row :: rest =>
      match convert_row df detected_mapping index row with
      | Ok _ => any_uncaught df detected_mapping (S index) rest
      | Raise e =>
          negb (caught e) || any_uncaught df detected_mapping (S index) rest
      end
  end.

Definition uncaught_rows (df : DataFrame) : bool :=
  any_uncaught df (ColumnDetector.detect_columns (columns df)).1 0 (rows df).

(** [target] was converted from a row of the table, of which [original] is
    the original data. *)
Definition converted_from (df : DataFrame) (target : ExoplanetTarget)
    (original : gmap string value) : Prop :=
  exists k row,
    rows df !! k = Some row
    /\ convert_row df (ColumnDetector.detect_columns (columns df)).1 k row
       = Ok target
    /\ original = original_row_data_of df row.

(** The state of the scoring loop: [results], [errors], and the targets
    on which [score_target] was called so far. *)
Record scoring := {
  scored : list ScoringResult;
  score_errors : list (string * string);
  calls : list ExoplanetTarget
}.

(** [result.original_data = original]. *)
Definition with_original (result : ScoringResult) (original : gmap string value)
    : ScoringResult :=
  {| target_name := target_name result;
     characterization_score := characterization_score result;
     habitability_score := habitability_score result;
     habitability_class := habitability_class result;
     ai_confidence := ai_confidence result;
     observation_priority := observation_priority result;
     detailed_scores := detailed_scores result;
     ml_predictions := ml_predictions result;
     original_data := Some original |}.

(** The loop [for i, target in enumerate(targets)]. *)
Fixpoint score_targets (eng : HWOScoringEngine)
    (original_rows : list (gmap string value)) (i : nat)
    (todo : list ExoplanetTarget) (st : scoring) : scoring :=
  match todo with
  | [] => st
  | target :: rest =>
      let st :=
        match score_target eng target with
        | Ok result =>
            let result :=
              match original_rows !! i with
              | Some original => with_original result original
              | None => result
              end in
            {| scored := scored st ++ [result];
               score_errors := score_errors st;
               calls := calls st ++ [target] |}
        | Raise e =>
            {| scored := scored st;
               score_errors :=
                 score_errors st
                 ++ [(name target,
                      (if Z.eqb (status_code e) 503 then "503: " else "500: ")
                      +:+ detail e)];
               calls := calls st ++ [target] |}
        end in
      score_targets eng original_rows (S i) rest st
  end.

(** [result] is what [score_target] returns on a target converted from a
    row of the table, with the original data of this row attached. *)
Definition scored_from (eng : HWOScoringEngine) (df : DataFrame)
    (result : ScoringResult) : Prop :=
  exists target original scored_result,
    converted_from df target original
    /\ score_target eng target = Ok scored_result
    /\ result = with_original scored_result original.

(** [upload_csv_targets] on the parsed table, together with the targets
    handed to [score_target]. An exception that leaves the row loop reaches
    the outer handler before any target is scored. *)
Definition upload_csv_targets (eng : HWOScoringEngine) (df : DataFrame)
    : result upload_failure BatchScoringResponse * list ExoplanetTarget :=
  if empty df then (Raise EmptyFile, [])
  else
    let detection := ColumnDetector.detect_columns (columns df) in
    match missing_required_of df with
    | _ :: _ => (Raise (MissingRequiredColumns (missing_required_of df)), [])
    | [] =>
        let c := conversion_of df in
        match aborted c, targets c with
        | Some e, _ => (Raise (ProcessingFailed e), [])
        | None, [] => (Raise (NoValidTargets (firstn 5 (conv_errors c))), [])
        | None, _ :: _ =>
            let s :=
              score_targets eng (original_rows c) 0 (targets c)
                {| scored := []; score_errors := []; calls := [] |} in
            (Ok {| results := scored s;
                   processing_summary :=
                     {| total_targets := List.length (targets c);
                        successful_scores := List.length (scored s);
                        failed_scores := List.length (score_errors s);
                        errors := score_errors s;
                        summary_detected_mapping := detection.1;
                        summary_confidence_scores := detection.2;
                        conversion_errors := conv_errors c;
                        rows_processed := List.length (rows df);
                        valid_targets := List.length (targets c) |} |},
             calls s)
        end
    end.

End WithBuiltins.

End Upload.

(** ** Floats that may be infinite *)

(** A Python float where the source itself produces [float("inf")]:
    a rational, an infinity or NaN, with the IEEE rules for them. *)
Inductive xfloat : Type :=
| Fin (q : Q)
| PInf
| NInf
| NaN.

Module XFloat.

Local Open Scope Q_scope.

(** [a < b]; false as soon as one side is NaN. *)
Definition lt (a b : xfloat) : bool :=
  match a, b with
  | Fin x, Fin y => Qltb x y
  | Fin _, PInf | NInf, Fin _ | NInf, PInf => true
  | _, _ => false
  end.

(** [max(a, b)] and [min(a, b)] of the interpreter. *)
Definition max (a b : xfloat) : xfloat := if lt a b then b else a.
Definition min (a b : xfloat) : xfloat := if lt b a then b else a.

Definition neg (a : xfloat) : xfloat :=
  match a with
  | Fin x => Fin (- x)
  | PInf => NInf
  | NInf => PInf
  | NaN => NaN
  end.

Definition add (a b : xfloat) : xfloat :=
  match a, b with
  | Fin x, Fin y => Fin (x + y)
  | NaN, _ | _, NaN => NaN
  | PInf, NInf | NInf, PInf => NaN
  | PInf, _ | _, PInf => PInf
  | NInf, _ | _, NInf => NInf
  end.

Definition sub (a b : xfloat) : xfloat := add a (neg b).

(** The infinity with the sign of [x], NaN for [x = 0]. *)
Definition signed_inf (x : Q) (positive : xfloat) : xfloat :=
  if Qltb 0 x then positive
  else if Qltb x 0 then neg positive
  else NaN.

Definition mul (a b : xfloat) : xfloat :=
  match a, b with
  | Fin x, Fin y => Fin (x * y)
  | NaN, _ | _, NaN => NaN
  | Fin x, PInf | PInf, Fin x => signed_inf x PInf
  | Fin x, NInf | NInf, Fin x => signed_inf x NInf
  | PInf, PInf | NInf, NInf => PInf
  | PInf, NInf | NInf, PInf => NaN
  end.

(** [a / b]; a zero divisor raises. *)
Definition div (a b : xfloat) : result exn xfloat :=
  match a, b with
  | _, Fin y =>
      if Qeq_bool y 0 then Raise ZeroDivisionError
      else
        match a with
        | Fin x => Ok (Fin (x / y))
        | PInf => Ok (signed_inf y PInf)
        | NInf => Ok (signed_inf y NInf)
        | NaN => Ok NaN
        end
  | NaN, _ | _, NaN => Ok NaN
  | Fin _, _ => Ok (Fin 0)
  | _, _ => Ok NaN
  end.


End XFloat.

(** ** [utils/observability.py] *)

Module Observability.

Local Open Scope Q_scope.

Definition AU_METERS : Q := 1496 * 10 ^ 8.
Definition PARSEC_METERS : Q := 3086 * 10 ^ 13.
Definition RAD_TO_MAS : Q := 206265000.

Definition WAVELENGTHS_MICRON : gmap string Q :=
  <["NIR" := 16 # 10]> (<["Visible" := 55 # 100]> (<["UV" := 25 # 100]> ∅)).

Record ObservabilityParams := {
  telescope_diameter_m : Q;
  wavelength_band : string;
  inner_working_angle_mas : Q;
  contrast_sensitivity : Q
}.

(** [ObservabilityParams()] with the defaults of [__init__]. *)
Definition default_params : ObservabilityParams :=
  {| telescope_diameter_m := 6;
     wavelength_band := "Visible";
     inner_working_angle_mas := 75;
     contrast_sensitivity := 1 / 10 ^ 10 |}.

(** A quotient below the doubles is their zero, and so is its product. *)
Definition angular_separation_mas (semi_major_axis_au distance_pc : Q) : Q :=
  if Qleb distance_pc 0 || Qleb semi_major_axis_au 0 then 0
  else
    let theta_rad :=
      (semi_major_axis_au * AU_METERS) / (distance_pc * PARSEC_METERS) in
    if underflows theta_rad then 0 else theta_rad * RAD_TO_MAS.

(** The square is a power of the interpreter: it raises when its result
    is beyond the doubles while the radius is not, and the square of an
    infinite radius is infinite. *)
Definition planet_star_contrast_ratio (planet_radius_re albedo : Q)
    : result exn Q :=
  if Qleb planet_radius_re 0 then Ok 0
  else
    let rs_re := 109 in
    if negb (overflows planet_radius_re)
       && overflows ((planet_radius_re / rs_re) ^ 2)
    then Raise (OverflowError "(34, 'Numerical result out of range')")
    else Ok (py_max (1 / 10 ^ 12) (albedo * (planet_radius_re / rs_re) ^ 2)).

Definition required_telescope_diameter_m (separation_mas : Q)
    (wavelength_band : string) (iwa_factor : Q) : xfloat :=
  if Qleb separation_mas 0 then PInf
  else
    let wavelength_um := default (55 # 100) (WAVELENGTHS_MICRON !! wavelength_band) in
    let theta_rad := separation_mas / RAD_TO_MAS in
    let d_m := (122 # 100) * (wavelength_um * (1 / 10 ^ 6)) / theta_rad in
    Fin (d_m * iwa_factor).

Definition iwa_check_score (separation_mas inner_working_angle_mas : Q) : Q :=
  if Qleb inner_working_angle_mas 0 then 0
  else if Qleb separation_mas 0 then 0
  else
    let ratio := separation_mas / inner_working_angle_mas in
    py_max 0 (py_min 1 (ratio - (5 # 10))).

(** The dictionary returned by [compute_observability]. *)
Record Observability := {
  separation_mas : Q;
  contrast_ratio : Q;
  required_diameter_m : xfloat;
  spectroscopic_score : Q;
  iwa_score : Q;
  observability_score : xfloat
}.

(** A number that is not negative and that [float] accepts. *)
Definition is_nonnegative (v : value) : bool :=
  match v with
  | VBool _ => true
  | VInt z => Z.leb 0 z && negb (overflows (inject_Z z))
  | VFloat q => Qleb 0 q
  | VStr _ | VNone => false
  end.

Section WithBuiltins.
Context `{PyBuiltins}.

(** [math.log10] raises on the zero that a ratio below the doubles is. *)
Definition spectroscopic_feasibility (contrast contrast_limit : Q)
    : result exn Q :=
  if Qleb contrast_limit 0 then Ok 0
  else
    let ratio := contrast_limit / py_max contrast (1 / 10 ^ 20) in
    if underflows ratio then Raise (ValueError "math domain error")
    else
      let score := (log10 ratio + 1) / 2 in
      Ok (py_max 0 (py_min 1 score)).

(** [v ** (2/3)]: a number is needed on the left; a negative one gives a
    complex power, which the enclosing [float(...)] rejects, and an integer
    is first made a float. *)
Definition pow_two_thirds (v : value) : result exn Q :=
  let power (x : Q) : result exn Q :=
    if Qltb x 0
    then Raise (TypeError "float() argument must be a string or a real number, not 'complex'")
    else Ok (py_pow x (2 / 3)) in
  match v with
  | VBool b => power (if b then 1 else 0)
  | VInt z =>
      if overflows (inject_Z z)
      then Raise (OverflowError "int too large to convert to float")
      else power (inject_Z z)
  | VFloat q => power q
  | VStr _ | VNone => Raise (TypeError "unsupported operand type(s) for ** or pow()")
  end.

(** [float(planet.get("pl_orbsmax") or planet.get("pl_orbper", 365.0) ** (2/3))]. *)
Definition semi_major_axis_of (planet : gmap string value) : result exn Q :=
  match planet !! "pl_orbsmax" with
  | Some v =>
      if py_truthy v then py_float v
      else pow_two_thirds (default (VFloat 365) (planet !! "pl_orbper"))
  | None => pow_two_thirds (default (VFloat 365) (planet !! "pl_orbper"))
  end.

(** [float(v)] returns. *)
Definition converts (v : value) : bool :=
  match py_float v with
  | Ok _ => true
  | Raise _ => false
  end.

(** A record the three conversions of [compute_observability] accept. The
    semi-major axis, where it is given and true, is a number or a text
    that [float] reads; where it is absent, [None], zero or empty, the
    orbital period it falls back on is absent or a number that is not
    negative. The distance and the radius are absent, or numbers or texts
    that [float] reads. *)
Definition readable (planet : gmap string value) : bool :=
  let period_ok :=
    match planet !! "pl_orbper" with
    | Some v => is_nonnegative v
    | None => true
    end in
  match planet !! "pl_orbsmax" with
  | Some v => if py_truthy v then converts v else period_ok
  | None => period_ok
  end
  && converts (default (VFloat 10) (planet !! "sy_dist"))
  && converts (default (VFloat 1) (planet !! "pl_rade")).

(** The radius and the sensitivity limit keep the square and the ratio of
    the two scores inside the doubles: the radius is at most 10^100 in
    magnitude, and a positive limit is at least 10^-100. *)
Definition in_range (planet : gmap string value) (params : ObservabilityParams)
    : bool :=
  match py_float (default (VFloat 1) (planet !! "pl_rade")) with
  | Ok radius_re => Qleb (Qabs radius_re) (10 ^ 100)
  | Raise _ => true
  end
  && (Qleb (contrast_sensitivity params) 0
      || Qleb (1 / 10 ^ 100) (contrast_sensitivity params)).

Definition compute_observability (planet : gmap string value)
    (params : ObservabilityParams) : result exn Observability :=
  do a_au <- semi_major_axis_of planet;
  do dist_pc <- py_float (default (VFloat 10) (planet !! "sy_dist"));
  do radius_re <- py_float (default (VFloat 1) (planet !! "pl_rade"));
  let sep_mas := angular_separation_mas a_au dist_pc in
  do contrast <- planet_star_contrast_ratio radius_re (3 # 10);
  let req_d := required_telescope_diameter_m sep_mas (wavelength_band params) 2 in
  do spec_score <- spectroscopic_feasibility contrast (contrast_sensitivity params);
  let iwa_score := iwa_check_score sep_mas (inner_working_angle_mas params) in
  do shortfall <-
    XFloat.div (XFloat.sub req_d (Fin (telescope_diameter_m params)))
               (XFloat.max req_d (Fin (1 / 10 ^ 6)));
  let combined :=
    XFloat.add
      (XFloat.add (Fin ((4 # 10) * iwa_score)) (Fin ((4 # 10) * spec_score)))
      (XFloat.mul (Fin (2 # 10))
         (XFloat.max (Fin 0)
            (XFloat.sub (Fin 1) (XFloat.max (Fin 0) shortfall)))) in
  Ok {| separation_mas := sep_mas;
        contrast_ratio := contrast;
        required_diameter_m := req_d;
        spectroscopic_score := spec_score;
        iwa_score := iwa_score;
        observability_score := XFloat.max (Fin 0) (XFloat.min (Fin 1) combined) |}.

(** [score_batch]: the list comprehension stops at the first record on
    which [compute_observability] raises. *)
Fixpoint score_batch (planets : list (gmap string value))
    (params : ObservabilityParams) : result exn (list Observability) :=
  match planets with
  | [] => Ok []
  | p :: rest =>
      do r <- compute_observability p params;
      do rs <- score_batch rest params;
      Ok (r :: rs)
  end.

End WithBuiltins.

End Observability.

(** ** [algorithms/cdhs.py] *)

Module CDHS.

Local Open Scope Q_scope.

Record HabitabilityCriteria := {
  temp_min : Q; temp_max : Q; temp_optimal : Q;
  radius_min : Q; radius_max : Q; radius_optimal : Q;
  flux_min : Q; flux_max : Q; flux_optimal : Q;
  temp_weight : Q; radius_weight : Q; flux_weight : Q; stability_weight : Q
}.

(** [HabitabilityCriteria()]: the defaults of the dataclass. *)
Definition default_criteria : HabitabilityCriteria :=
  {| temp_min := 273; temp_max := 373; temp_optimal := 288;
     radius_min := 5 # 10; radius_max := 15 # 10; radius_optimal := 1;
     flux_min := 5 # 10; flux_max := 2; flux_optimal := 1;
     temp_weight := 35 # 100; radius_weight := 25 # 100;
     flux_weight := 20 # 100; stability_weight := 20 # 100 |}.

(** The body shared by the three range scores: zero outside [[lo, hi]],
    a linear decay from [optimal] inside. The division raises when the
    range is the single point [optimal]. *)
Definition range_score (lo hi optimal x : Q) : result exn Q :=
  if Qltb x lo || Qltb hi x then Ok 0
  else
    let distance := Qabs (x - optimal) in
    let max_distance := py_max (optimal - lo) (hi - optimal) in
    if Qeq_bool max_distance 0 then Raise ZeroDivisionError
    else
      let score := 1 - distance / max_distance in
      Ok (py_max 0 score).

Definition calculate_temperature_score (criteria : HabitabilityCriteria)
    (temp : Q) : result exn Q :=
  range_score (temp_min criteria) (temp_max criteria) (temp_optimal criteria) temp.

Definition calculate_radius_score (criteria : HabitabilityCriteria)
    (radius : Q) : result exn Q :=
  range_score (radius_min criteria) (radius_max criteria)
              (radius_optimal criteria) radius.

Definition calculate_flux_score (criteria : HabitabilityCriteria)
    (flux : Q) : result exn Q :=
  range_score (flux_min criteria) (flux_max criteria) (flux_optimal criteria) flux.

Definition calculate_stability_score (eccentricity orbital_period : Q) : Q :=
  let ecc_score := py_max 0 (1 - eccentricity) in
  let period_score :=
    if Qltb 0 orbital_period then
      if Qleb 100 orbital_period && Qleb orbital_period 1000 then 1
      else py_max 0 (1 - Qabs (orbital_period - 365) / 1000)
    else 1 in
  ecc_score * (6 # 10) + period_score * (4 # 10).

Definition calculate_cdhs (criteria : HabitabilityCriteria)
    (temperature radius stellar_flux eccentricity orbital_period : Q)
    : result exn Q :=
  do temp_score <- calculate_temperature_score criteria temperature;
  do radius_score <- calculate_radius_score criteria radius;
  do flux_score <- calculate_flux_score criteria stellar_flux;
  let stability_score := calculate_stability_score eccentricity orbital_period in
  let cdhs :=
    temp_score * temp_weight criteria
    + radius_score * radius_weight criteria
    + flux_score * flux_weight criteria
    + stability_score * stability_weight criteria in
  Ok (py_min 1 (py_max 0 cdhs)).

(** [calculate_batch_cdhs] on the rows of a table, each a dictionary of
    its numeric cells; [row.get] supplies 0, or 365 for the period, for a
    column the row does not have. *)
Fixpoint calculate_batch_cdhs (criteria : HabitabilityCriteria)
    (data : list (gmap string Q)) : result exn (list Q) :=
  match data with
  | [] => Ok []
  | row :: rest =>
      do score <-
        calculate_cdhs criteria
          (default 0 (row !! "temperature"))
          (default 0 (row !! "radius"))
          (default 0 (row !! "stellar_flux"))
          (default 0 (row !! "eccentricity"))
          (default 365 (row !! "orbital_period"));
      do scores <- calculate_batch_cdhs criteria rest;
      Ok (score :: scores)
  end.

(** What a range score does on [x] for the range [[lo, hi]] and its
    optimum. *)
Definition range_law (lo hi optimal x : Q) (r : result exn Q) : Prop :=
  match r with
  | Raise e => e = ZeroDivisionError /\ lo == x /\ hi == x /\ optimal == x
  | Ok s =>
      ~ (lo == x /\ hi == x /\ optimal == x)
      /\ 0 <= s <= 1
      /\ (0 < s -> lo <= x <= hi)
      /\ (x == optimal -> lo <= x <= hi -> s == 1)
  end.

(** The period part of [calculate_stability_score]. *)
Definition period_score (orbital_period : Q) : Q :=
  if Qltb 0 orbital_period then
    if Qleb 100 orbital_period && Qleb orbital_period 1000 then 1
    else py_max 0 (1 - Qabs (orbital_period - 365) / 1000)
  else 1.

End CDHS.

(** ** [algorithms/sephi.py] *)

Module SEPHI.

Local Open Scope Q_scope.

Definition EARTH_RADIUS : Q := 1.
Definition EARTH_MASS : Q := 1.
Definition EARTH_TEMP : Q := 288.
Definition SOL_TEMP : Q := 5778.
Definition EARTH_ORBIT : Q := 365.

(** [self.weights], in insertion order. *)
Definition weights : list (string * Q) :=
  [("temperature", 35 # 100); ("size", 25 # 100);
   ("stellar", 20 # 100); ("orbital", 20 # 100)].

Definition clamp01 (x : Q) : Q := py_max 0 (py_min 1 x).

Definition between (lo x hi : Q) : bool := Qleb lo x && Qleb x hi.

Definition calculate_temperature_score (equilibrium_temp : Q) : Q :=
  let temp_score :=
    if between 250 equilibrium_temp 350
    then 1 - Qabs (equilibrium_temp - EARTH_TEMP) / 100
    else if between 150 equilibrium_temp 450
    then (5 # 10) - Qabs (equilibrium_temp - EARTH_TEMP) / 200
    else 0 in
  clamp01 temp_score.

(** The cube is a power of the interpreter: it raises when its result is
    beyond the doubles while the radius is not, and a cube below the
    doubles is the zero on which the division raises. *)
Definition calculate_size_score (radius : Q) (mass : option Q) : result exn Q :=
  let size_score :=
    if between (8 # 10) radius (14 # 10)
    then 1 - Qabs (radius - EARTH_RADIUS) / (6 # 10)
    else if between (5 # 10) radius (25 # 10)
    then (5 # 10) - Qabs (radius - EARTH_RADIUS) / 2
    else 0 in
  do size_score <-
    match mass with
    | Some mass =>
        if negb (overflows radius) && overflows (radius ^ 3)
        then Raise (OverflowError "(34, 'Numerical result out of range')")
        else if underflows (radius ^ 3) then Raise ZeroDivisionError
        else
          let density_ratio := mass / radius ^ 3 in
          if between (7 # 10) density_ratio (15 # 10)
          then Ok (size_score * 1)
          else Ok (size_score * (5 # 10))
    | None => Ok size_score
    end;
  Ok (clamp01 size_score).

Definition calculate_stellar_score (stellar_temp : Q) (stellar_age : option Q) : Q :=
  let stellar_score :=
    if between 4500 stellar_temp 6500
    then 1 - Qabs (stellar_temp - SOL_TEMP) / 2000
    else if between 2400 stellar_temp 7500
    then (5 # 10) - Qabs (stellar_temp - SOL_TEMP) / 4000
    else 0 in
  let stellar_score :=
    match stellar_age with
    | Some stellar_age =>
        if between 1 stellar_age 10 then stellar_score * 1
        else if between (5 # 10) stellar_age 12 then stellar_score * (7 # 10)
        else stellar_score * (3 # 10)
    | None => stellar_score
    end in
  clamp01 stellar_score.

Definition calculate_orbital_score (orbital_period : Q) : Q :=
  let orbital_score :=
    if between 200 orbital_period 500
    then 1 - Qabs (orbital_period - EARTH_ORBIT) / 300
    else if between 50 orbital_period 700
    then (5 # 10) - Qabs (orbital_period - EARTH_ORBIT) / 600
    else 0 in
  clamp01 orbital_score.

(** The dictionary returned by [calculate_sephi_score]. *)
Record SephiResult := {
  sephi_score : Q;
  component_scores : list (string * Q)
}.

(** [self.weights[component]]; every component is a key. *)
Fixpoint weight_of (ws : list (string * Q)) (component : string) : Q :=
  match ws with
  | [] => 0
  | (k, w) :: rest => if String.eqb k component then w else weight_of rest component
  end.

Definition calculate_sephi_score (equilibrium_temp radius stellar_temp
    orbital_period : Q) (mass stellar_age : option Q) : result exn SephiResult :=
  let temperature := calculate_temperature_score equilibrium_temp in
  do size <- calculate_size_score radius mass;
  let component_scores :=
    [("temperature", temperature); ("size", size);
     ("stellar", calculate_stellar_score stellar_temp stellar_age);
     ("orbital", calculate_orbital_score orbital_period)] in
  let overall_score :=
    fold_left (fun acc cs => acc + cs.2 * weight_of weights cs.1)
              component_scores 0 in
  Ok {| sephi_score := overall_score; component_scores := component_scores |}.

(** What [calculate_size_score] does on a radius and a mass. *)
Definition size_law (r : Q) (mass : option Q) (res : result exn Q) : Prop :=
  match res with
  | Raise e =>
      mass <> None
      /\ (e = ZeroDivisionError /\ underflows (r ^ 3) = true
          \/ e = OverflowError "(34, 'Numerical result out of range')"
             /\ overflows (r ^ 3) = true)
  | Ok s =>
      ~ (r == 0 /\ mass <> None)
      /\ 0 <= s <= 1
      /\ (0 < s <-> 5 # 10 <= r < 2)
      /\ (s == 1 <-> r == 1 /\ forall m, mass = Some m -> 7 # 10 <= m <= 15 # 10)
  end.

End SEPHI.

(** ** The [/score/batch] endpoint *)

Module Batch.

Import Scoring.
Local Open Scope list_scope.

(** The response of [score_multiple_targets]: [results] and the four
    entries of [processing_summary]. *)
Record BatchResponse := {
  batch_results : list ScoringResult;
  total_targets : nat;
  successful_scores : nat;
  failed_scores : nat;
  batch_errors : list (string * string)
}.

(** [str(e)] of an [HTTPException]. *)
Definition http_text (e : HTTPException) : string :=
  (if Z.eqb (status_code e) 503 then "503: " else "500: ") +:+ detail e.

Section WithBuiltins.
Context `{PyBuiltins}.

(** The loop [for target in request.targets] on [results] and [errors]. *)
Fixpoint score_each (eng : HWOScoringEngine) (todo : list ExoplanetTarget)
    (results : list ScoringResult) (errors : list (string * string))
    : list ScoringResult * list (string * string) :=
  match todo with
  | [] => (results, errors)
  | target :: rest =>
      match score_target eng target with
      | Ok result => score_each eng rest (results ++ [result]) errors
      | Raise e =>
          score_each eng rest results (errors ++ [(name target, http_text e)])
      end
  end.

Definition score_multiple_targets (eng : HWOScoringEngine)
    (targets : list ExoplanetTarget) : result HTTPException BatchResponse :=
  if negb (models_loaded eng)
  then Raise {| status_code := 503; detail := "ML models not available" |}
  else
    let '(results, errors) := score_each eng targets [] [] in
    Ok {| batch_results := results;
          total_targets := List.length targets;
          successful_scores := List.length results;
          failed_scores := List.length errors;
          batch_errors := errors |}.

End WithBuiltins.

End Batch.

(** ** [api/planets.py] and the callers of [compute_observability] *)

Module Planets.

Import Observability.
Local Open Scope Q_scope.

(** The model [Planet]. *)
Record Planet := {
  id : string;
  name : string;
  radius : Q;
  mass : option Q;
  temperature : Q;
  orbital_period : Q;
  distance : Q;
  habitability_score : Q
}.

(** [planet.dict()]. *)
Definition dict (p : Planet) : gmap string value :=
  <["habitability_score" := VFloat (habitability_score p)]>
    (<["distance" := VFloat (distance p)]>
       (<["orbital_period" := VFloat (orbital_period p)]>
          (<["temperature" := VFloat (temperature p)]>
             (<["mass" := match mass p with Some m => VFloat m | None => VNone end]>
                (<["radius" := VFloat (radius p)]>
                   (<["name" := VStr (name p)]>
                      (<["id" := VStr (id p)]> ∅))))))).

Definition mock_planets : list Planet :=
  [ {| id := "1"; name := "Kepler-442b"; radius := 134 # 100;
       mass := Some (236 # 100); temperature := 233;
       orbital_period := 1123 # 10; distance := 1206;
       habitability_score := 84 # 100 |};
    {| id := "2"; name := "Kepler-62f"; radius := 141 # 100;
       mass := Some (257 # 100); temperature := 208;
       orbital_period := 2673 # 10; distance := 1200;
       habitability_score := 67 # 100 |};
    {| id := "3"; name := "TRAPPIST-1e"; radius := 92 # 100;
       mass := Some (77 # 100); temperature := 251;
       orbital_period := 61 # 10; distance := 395 # 10;
       habitability_score := 95 # 100 |} ].

(** [score >= threshold] on a score that may be infinite or NaN. *)
Definition reaches (score : xfloat) (threshold : Q) : bool :=
  match score with
  | Fin x => Qleb threshold x
  | PInf => true
  | NInf | NaN => false
  end.

Section WithBuiltins.
Context `{PyBuiltins}.

(** The loop of [observable_count] over the planets, on [count] and
    [total]. *)
Fixpoint count_observable (planets : list Planet) (params : ObservabilityParams)
    (threshold : Q) (count total : nat) : result exn (nat * nat) :=
  match planets with
  | [] => Ok (count, total)
  | p :: rest =>
      do res <- compute_observability (dict p) params;
      count_observable rest params threshold
        (if reaches (observability_score res) threshold then S count else count)
        (S total)
  end.

(** [observable_count] of [api/observability.py], over the planets it is
    given ([backend_planets] is [mock_planets]). *)
Definition observable_count (planets : list Planet) (params : ObservabilityParams)
    (threshold : Q) : result exn (nat * nat) :=
  count_observable planets params threshold 0 0.

(** [planet_hwo_details]: the [hwo] block of the first planet with the
    given identifier; [None] is the 404 answer. *)
Fixpoint planet_hwo_details (planets : list Planet) (planet_id : string)
    (params : ObservabilityParams) : option (result exn (Planet * Observability)) :=
  match planets with
  | [] => None
  | planet :: rest =>
      if String.eqb (id planet) planet_id
      then Some (do details <- compute_observability (dict planet) params;
                 Ok (planet, details))
      else planet_hwo_details rest planet_id params
  end.

End WithBuiltins.

End Planets.

(** ** One instance of the builtins, to run the definitions on examples *)

Module Sample.

Definition digit (c : ascii) : option Z :=
  let n := N_of_ascii c in
  if ((48 <=? n) && (n <=? 57))%N then Some (Z.of_N n - 48)%Z else None.

(** The value of a run of decimal digits, continued from [acc]. *)
Fixpoint digits (acc : Z) (s : string) : option Z :=
  match s with
  | EmptyString => Some acc
  | String c r =>
      match digit c with
      | Some d => digits (acc * 10 + d)%Z r
      | None => None
      end
  end.

(** The text before the first dot and, if there is one, the text after. *)
Fixpoint split_dot (s : string) : string * option string :=
  match s with
  | EmptyString => (EmptyString, None)
  | String c r =>
      if Ascii.eqb c "."%char then (EmptyString, Some r)
      else let '(a, b) := split_dot r in (String c a, b)
  end.

Definition unsigned_decimal (s : string) : option Q :=
  match split_dot s with
  | (whole, None) =>
      if PyStr.truthy whole then (fun z => inject_Z z) <$> digits 0 whole else None
  | (whole, Some frac) =>
      if PyStr.truthy whole || PyStr.truthy frac then
        match digits 0 whole, digits 0 frac with
        | Some w, Some f =>
            Some (inject_Z w + inject_Z f / inject_Z (10 ^ Z.of_nat (String.length frac)))%Q
        | _, _ => None
        end
      else None
  end.

Definition signed {A : Type} (negate : A -> A) (parse : string -> option A)
    (s : string) : option A :=
  match s with
  | String "-"%char r => negate <$> parse r
  | String "+"%char r => parse r
  | _ => parse s
  end.

(** [float(s)] on plain decimal literals ([-12.5], [3], [.5]); every other
    text is rejected. *)
Definition float_of_decimal (s : string) : option Q :=
  signed Qopp unsigned_decimal (PyStr.strip s).

(** [int(s)] on decimal literals. *)
Definition int_of_decimal (s : string) : option Z :=
  signed Z.opp
    (fun s => if PyStr.truthy s then digits 0 s else None) (PyStr.strip s).

Definition decimal_of_int (z : Z) : string :=
  NilZero.string_of_int (Z.to_int z).

(** The class instance: decimal literals are parsed and integers printed
    exactly; floats are printed through their integer part, and the power and
    the logarithm are coarse (integer exponent, binary magnitude). No
    statement depends on these choices. *)
#[export] Instance builtins : PyBuiltins :=
  {| float_of_str := float_of_decimal;
     int_of_str := int_of_decimal;
     str_of_float := fun q => decimal_of_int (Qfloor q) +:+ ".0";
     str_of_int := decimal_of_int;
     py_pow := fun x y => Qpower x (Qfloor y);
     log10 := fun x =>
       (inject_Z (Z.log2 (Qnum x) - Z.log2 (Zpos (Qden x))) * (30103 # 100000))%Q |}.

End Sample.

(** ** Concrete inputs *)

Module Fixtures.

Import Scoring Upload.
Local Open Scope Q_scope.

(** The header row of the NASA archive named in the specification. *)
Definition archive_headers : list string :=
  ["pl_name"; "sy_dist"; "st_spectype"; "pl_rade"; "pl_orbper"; "st_mass"].

(** An engine whose models loaded but that holds no collaborator. *)
Definition bare_engine : HWOScoringEngine :=
  {| models_loaded := true; regressor := None; classifier := None;
     scaler := None |}.

(** The example target of the specification. *)
Definition nearby_earth : ExoplanetTarget :=
  {| name := "Nearby Earth";
     distance := Some (424 # 100);
     star_type := Some "G2V";
     planet_radius := Some (1 # 10);
     orbital_period := Some 365;
     stellar_mass := Some 1;
     planet_mass := None;
     temperature := None;
     discovery_year := None;
     detection_method := None;
     data_quality := Some "Excellent" |}.

(** A record with nothing to weigh. *)
Definition blank_target : ExoplanetTarget :=
  {| name := "blank"; distance := None; star_type := None;
     planet_radius := None; orbital_period := None; stellar_mass := None;
     planet_mass := None; temperature := None; discovery_year := None;
     detection_method := None; data_quality := None |}.

(** A line with a name and nothing else: every other cell is empty. *)
Definition named_row (planet : string) : gmap string value :=
  {[ "pl_name" := VStr planet ]}.

(** A line whose distance cell is not a number. *)
Definition garbled_row : gmap string value :=
  {[ "pl_name" := VStr "x"; "sy_dist" := VStr "abc" ]}.

(** One garbled line. *)
Definition garbled_table : DataFrame :=
  {| columns := archive_headers; rows := [garbled_row] |}.

(** An engine whose models did not load. *)
Definition unloaded_engine : HWOScoringEngine :=
  {| models_loaded := false; regressor := None; classifier := None;
     scaler := None |}.

(** A line whose discovery year is infinite: the cell [inf], or a number
    such as [1e999] that the parser reads as infinite. *)
Definition overflowing_row : gmap string value :=
  {[ "pl_name" := VStr "x"; "disc_year" := VFloat (10 ^ 999) ]}.

(** The archive columns and the discovery year, and that line. *)
Definition overflowing_table : DataFrame :=
  {| columns := archive_headers ++ ["disc_year"]; rows := [overflowing_row] |}.

(** One good line. *)
Definition single_row : DataFrame :=
  {| columns := archive_headers; rows := [named_row "Earth"] |}.

(** Thirteen lines: a good one, eleven garbled ones, a good one. *)
Definition thirteen_rows : DataFrame :=
  {| columns := archive_headers;
     rows := named_row "Earth" :: List.repeat garbled_row 11 ++ [named_row "Mars"] |}.

End Fixtures.

(** * Properties *)

(** ** Comparisons, [max] and [min] *)

Section Comparisons.

Local Open Scope Q_scope.

Lemma Qltb_spec (x y : Q) : BoolSpec (x < y) (y <= x) (Qltb x y).
Proof.
  unfold Qltb. destruct (Qle_bool y x) eqn:E; simpl; constructor.
  - now apply Qle_bool_iff.
  - apply Qnot_le_lt. intro L. apply Qle_bool_iff in L. congruence.
Qed.

Lemma Qleb_spec (x y : Q) : BoolSpec (x <= y) (y < x) (Qleb x y).
Proof.
  unfold Qleb. destruct (Qle_bool x y) eqn:E; constructor.
  - now apply Qle_bool_iff.
  - apply Qnot_le_lt. intro L. apply Qle_bool_iff in L. congruence.
Qed.

Lemma py_max_spec (a b : Q) :
  (a < b /\ py_max a b = b) \/ (b <= a /\ py_max a b = a).
Proof. unfold py_max. destruct (Qltb_spec a b); auto. Qed.

Lemma py_min_spec (a b : Q) :
  (b < a /\ py_min a b = b) \/ (a <= b /\ py_min a b = a).
Proof. unfold py_min. destruct (Qltb_spec b a); auto. Qed.

Lemma py_max_lower (a b : Q) : a <= py_max a b /\ b <= py_max a b.
Proof. destruct (py_max_spec a b) as [[L ->] | [L ->]]; lra. Qed.

Lemma py_min_upper (a b : Q) : py_min a b <= a /\ py_min a b <= b.
Proof. destruct (py_min_spec a b) as [[L ->] | [L ->]]; lra. Qed.

(** The clamp [max(0, min(1, x))] lands in the unit interval. *)
Lemma clamp_unit (x : Q) : 0 <= py_max 0 (py_min 1 x) <= 1.
Proof.
  destruct (py_max_spec 0 (py_min 1 x)) as [[L ->] | [L ->]];
    destruct (py_min_spec 1 x) as [[M E] | [M E]]; rewrite ?E in *; lra.
Qed.

End Comparisons.

Ltac case_cmp :=
  match goal with
  | |- context [Qltb ?x ?y] => destruct (Qltb_spec x y)
  | |- context [Qleb ?x ?y] => destruct (Qleb_spec x y)
  end.

(** [lra] knows no division: divisions by literals become products. *)
Ltac literal_inverses :=
  unfold Qdiv in *;
  repeat match goal with
         | |- context [Qinv (Qmake ?n ?d)] =>
             let v := eval vm_compute in (Qinv (Qmake n d)) in
             change (Qinv (Qmake n d)) with v
         | H : context [Qinv (Qmake ?n ?d)] |- _ =>
             let v := eval vm_compute in (Qinv (Qmake n d)) in
             change (Qinv (Qmake n d)) with v in H
         end.

Ltac qlra := literal_inverses; lra.

Ltac case_abs :=
  match goal with
  | |- context [Qabs ?x] => apply (Qabs_case x); intro
  end.

(** ** CDHS and SEPHI *)

Section Composites.

Local Open Scope Q_scope.

Lemma default_temperature_span :
  py_max (CDHS.temp_optimal CDHS.default_criteria - CDHS.temp_min CDHS.default_criteria)
         (CDHS.temp_max CDHS.default_criteria - CDHS.temp_optimal CDHS.default_criteria)
  = 85.
Proof. reflexivity. Qed.

(** C10. With the default criteria the CDHS temperature score is returned
    for every temperature; it is 0 outside [273, 373] kelvin, it equals
    1 - |temperature - 288| / 85 inside, and it always lies in [0, 1]. *)
Theorem cdhs_temperature_score_shape (temp : Q) :
  exists score,
    CDHS.calculate_temperature_score CDHS.default_criteria temp = Ok score
    /\ score == (if Qltb temp 273 || Qltb 373 temp then 0
                 else 1 - Qabs (temp - 288) / 85)
    /\ 0 <= score <= 1.
Proof.
  unfold CDHS.calculate_temperature_score, CDHS.range_score.
  rewrite default_temperature_span. cbn [CDHS.temp_min CDHS.temp_max
    CDHS.temp_optimal CDHS.default_criteria].
  destruct (Qltb_spec temp 273) as [Lo | Lo]; cbn [orb].
  - exists 0. repeat split; lra.
  - destruct (Qltb_spec 373 temp) as [Hi | Hi].
    + exists 0. repeat split; lra.
    + change (Qeq_bool 85 0) with false. cbv iota.
      eexists. split; [reflexivity |].
      assert (D : 0 <= 1 - Qabs (temp - 288) / 85 <= 1).
      { case_abs; qlra. }
      destruct (py_max_spec 0 (1 - Qabs (temp - 288) / 85))
        as [[L ->] | [L ->]]; [split; [reflexivity | exact D] |].
      split; lra.
Qed.

(** C5. For radius 1.0, equilibrium temperature 288 K, stellar temperature
    5778 K, orbital period 365 days and eccentricity 0, the SEPHI composite
    and the CDHS composite are both within 0.05 of 1.0; both are 1.0.
    [calculate_cdhs] has no stellar-temperature argument: its third
    argument is the stellar flux at the planet in units of the Earth's,
    which is 1.0 for the planet of the claim. *)
Theorem earth_twin_composites :
  (exists r,
     SEPHI.calculate_sephi_score 288 1 5778 365 None None = Ok r
     /\ SEPHI.sephi_score r == 1
     /\ Qabs (SEPHI.sephi_score r - 1) <= 5 # 100)
  /\ (exists score,
        CDHS.calculate_cdhs CDHS.default_criteria 288 1 1 0 365 = Ok score
        /\ score == 1
        /\ Qabs (score - 1) <= 5 # 100).
Proof.
  split.
  - eexists. split; [reflexivity |]. split; vm_compute; [reflexivity | discriminate].
  - eexists. split; [vm_compute; reflexivity |]. split; vm_compute;
      [reflexivity | discriminate].
Qed.

End Composites.

(** ** The characterization score *)

Section Characterization.

Import Scoring.
Local Open Scope Q_scope.

Lemma add_factor_ok (a : tally) (s w : Q) :
  tally_ok a -> 0 <= s <= 1 -> 0 < w ->
  tally_ok (add_factor a s w) /\ 0 < (add_factor a s w).2.
Proof.
  intros (A1 & A2 & A3) [S0 S1] W. unfold tally_ok, add_factor. cbn [fst snd].
  assert (P : 0 <= s * w) by (apply Qmult_le_0_compat; lra).
  assert (R : s * w <= 1 * w) by (apply Qmult_le_compat_r; lra).
  repeat split; lra.
Qed.

Lemma get_letter_bounds (mapping : list (ascii * Q)) (key : ascii) (d lo hi : Q) :
  List.Forall (fun kv => lo <= kv.2 <= hi) mapping -> lo <= d <= hi ->
  lo <= get_letter mapping key d <= hi.
Proof.
  intros F D. induction F as [| [k v] rest Hv _ IH]; cbn [get_letter].
  - exact D.
  - destruct (Ascii.eqb k key); [exact Hv | exact IH].
Qed.

Lemma data_quality_bounds (quality : option string) :
  0 <= _encode_data_quality quality <= 1.
Proof.
  unfold _encode_data_quality.
  repeat match goal with
         | |- context [if ?b then _ else _] => destruct b
         end; split; discriminate.
Qed.


Lemma star_type_factor_ok : step_ok star_type_factor.
Proof.
  intros a t A. unfold star_type_factor.
  destruct (string_truthy (star_type t)); [| now left].
  destruct (main_type _) as [c |]; [right | now left].
  apply add_factor_ok; [exact A | | reflexivity].
  apply get_letter_bounds; [| split; discriminate].
  repeat constructor; discriminate.
Qed.

Lemma planet_size_factor_ok : step_ok planet_size_factor.
Proof.
  intros a t A. unfold planet_size_factor.
  destruct (planet_radius t) as [r |]; [right | now left].
  apply add_factor_ok; [exact A | | reflexivity].
  set (e := r * (112 # 10)).
  destruct (Qleb_spec (5 # 10) e) as [L | L]; cbn [andb].
  - destruct (Qleb_spec e 2) as [U | U].
    + case_abs; qlra.
    + destruct (py_max_spec 0 ((3 # 10) - Qabs (e - 1) / 3)) as [[M ->] | [M ->]];
        [revert M |]; try case_abs; qlra.
  - destruct (py_max_spec 0 ((3 # 10) - Qabs (e - 1) / 3)) as [[M ->] | [M ->]];
      [revert M |]; try case_abs; qlra.
Qed.

Lemma data_quality_factor_ok : step_ok data_quality_factor.
Proof.
  intros a t A. unfold data_quality_factor.
  destruct (string_truthy (data_quality t)); [right | now left].
  apply add_factor_ok; [exact A | apply data_quality_bounds | reflexivity].
Qed.

Lemma stellar_mass_factor_ok : step_ok stellar_mass_factor.
Proof.
  intros a t A. unfold stellar_mass_factor.
  destruct (stellar_mass t) as [m |]; [right | now left].
  apply add_factor_ok; [exact A | | reflexivity].
  destruct (py_max_spec 0 (1 - Qabs (m - 1) / 1)) as [[M ->] | [M ->]];
    [revert M |]; try case_abs; qlra.
Qed.









Section WithBuiltins.
Context `{PyBuiltins}.

(** What [score_target] returns when it returns. *)
Lemma score_target_returns (eng : HWOScoringEngine) (t : ExoplanetTarget)
    (r : ScoringResult) :
  score_target eng t = Ok r ->
  models_loaded eng = true
  /\ characterization_score r = round1 (_calculate_characterization_score t)
  /\ observation_priority r = priority_of (_calculate_characterization_score t)
  /\ habitability_score r = round1 50
  /\ habitability_class r = "Unknown"
  /\ ml_predictions r = ∅.
Proof.
  unfold score_target, score_body.
  destruct (models_loaded eng); cbn [negb]; [| discriminate].
  cbn [bind]. destruct (distance t); cbn [need bind]; [| discriminate].
  destruct (planet_radius t); cbn [need bind]; [| discriminate].
  intros [= <-]. cbn. repeat split; reflexivity.
Qed.

Lemma score_target_total (eng : HWOScoringEngine) (t : ExoplanetTarget) :
  validated t = true -> models_loaded eng = true ->
  exists r, score_target eng t = Ok r.
Proof.
  unfold validated. rewrite !andb_true_iff, !bool_decide_eq_true.
  intros (((([d D] & _) & [r R]) & _) & _) L.
  unfold score_target, score_body. rewrite L, D, R. cbn. eexists. reflexivity.
Qed.


(** C8. Whatever the regressor, the classifier and the scaler of the
    engine are, a result returned by [score_target] carries the defaults
    set before the disabled model branch: habitability score 50.0, class
    "Unknown" and no model predictions. *)
Theorem score_target_habitability_defaults (eng : HWOScoringEngine)
    (t : ExoplanetTarget) (r : ScoringResult) :
  score_target eng t = Ok r ->
  habitability_score r == 50
  /\ habitability_class r = "Unknown"
  /\ ml_predictions r = ∅.
Proof.
  intro E. apply score_target_returns in E as (_ & _ & _ & S & C & M).
  rewrite S, C, M. repeat split.
Qed.

End WithBuiltins.

End Characterization.

(** ** Scoring on concrete targets *)

Section ScoringExamples.

Import Scoring Fixtures.
Local Open Scope Q_scope.

Example nearby_earth_score :
  _calculate_characterization_score nearby_earth == 976 # 10.
Proof. reflexivity. Qed.

Example nearby_earth_priority :
  option_map observation_priority
    (match score_target (H := Sample.builtins) bare_engine nearby_earth with
     | Ok r => Some r
     | Raise _ => None
     end) = Some "High".
Proof. reflexivity. Qed.

Example blank_target_score :
  no_weighted_input blank_target = true
  /\ _calculate_characterization_score blank_target = 50.
Proof. split; reflexivity. Qed.

Example blank_target_is_rejected :
  score_target (H := Sample.builtins) bare_engine blank_target
  = Raise {| status_code := 500;
             detail := "Scoring failed: float() argument must be a string or a real number" |}.
Proof. reflexivity. Qed.

(** Two targets that differ in their distance only, 38.95 pc and 38.85 pc:
    both results report the score 75.0, the first with the priority
    "Medium" (74.97 before rounding), the second with "High" (75.03). *)
Example same_report_two_priorities :
  exists r1 r2,
    score_target (H := Sample.builtins) bare_engine
      (set_distance nearby_earth (Some (3895 # 100))) = Ok r1
    /\ score_target (H := Sample.builtins) bare_engine
         (set_distance nearby_earth (Some (3885 # 100))) = Ok r2
    /\ characterization_score r1 == 75 /\ observation_priority r1 = "Medium"
    /\ characterization_score r2 == 75 /\ observation_priority r2 = "High".
Proof.
  eexists _, _. split; [vm_compute; reflexivity |].
  split; [vm_compute; reflexivity |]. repeat split.
Qed.


Lemma score_target_habitability_defaults_on_nearby_earth :
  exists r,
    score_target (H := Sample.builtins) bare_engine nearby_earth = Ok r
    /\ (habitability_score r == 50
        /\ habitability_class r = "Unknown"
        /\ ml_predictions r = ∅).
Proof.
  eexists. split; [reflexivity |].
  apply (score_target_habitability_defaults (H := Sample.builtins)
           bare_engine nearby_earth).
  reflexivity.
Defined.

End ScoringExamples.

(** ** Column detection *)

Section Detection.

Import ColumnDetector Fixtures.

Lemma substring_pass_idle (names : list string) (csv_col hl : string) :
  existsb (fun p => is_substring_pair p hl && Qltb (6 # 10) (overlap_score p hl))
          names = false ->
  substring_pass names csv_col hl (None, 0%Q) = (None, 0%Q).
Proof.
  unfold substring_pass. induction names as [| p names IH]; [reflexivity |].
  cbn [existsb fold_left]. intros E. apply orb_false_iff in E as [E1 E2].
  destruct (is_substring_pair p hl); [| exact (IH E2)].
  cbn [andb] in E1. rewrite E1, andb_false_r. exact (IH E2).
Qed.

Lemma fuzzy_pass_idle (names : list string) (csv_col hl : string) :
  existsb (fun p => _fuzzy_match hl (PyStr.lower p)) names = false ->
  fuzzy_pass names csv_col hl (None, 0%Q) = (None, 0%Q).
Proof.
  unfold fuzzy_pass. induction names as [| p names IH]; [reflexivity |].
  cbn [existsb fold_left]. intros E. apply orb_false_iff in E as [E1 E2].
  rewrite E1. exact (IH E2).
Qed.

Lemma scan_headers_idle (names headers : list string) :
  forallb (fun h => negb (header_matches names h)) headers = true ->
  scan_headers names headers (None, 0%Q) = (None, (None, 0%Q)).
Proof.
  induction headers as [| h headers IH]; [reflexivity |].
  cbn [forallb scan_headers]. intros E. apply andb_true_iff in E as [E1 E2].
  apply negb_true_iff in E1. unfold header_matches in E1.
  apply orb_false_iff in E1 as [E1 F]. apply orb_false_iff in E1 as [X S].
  unfold exact_rule in X. rewrite X.
  rewrite (substring_pass_idle names h (normalize h) S).
  rewrite (fuzzy_pass_idle names h (normalize h) F).
  exact (IH E2).
Qed.

Lemma detect_columns_idle (table : list (string * list string))
    (headers : list string) (acc : detection) :
  no_header_matches table headers = true ->
  fold_left (field_step headers) table acc = acc.
Proof.
  unfold no_header_matches. revert acc.
  induction table as [| [field names] table IH]; intros acc E; [reflexivity |].
  cbn [forallb] in E. apply andb_true_iff in E as [E1 E2].
  cbn [fold_left]. unfold field_step at 2. cbn [snd] in E1.
  rewrite (scan_headers_idle names headers E1). exact (IH acc E2).
Qed.

Lemma detect_columns_unmatched (headers : list string) :
  no_header_matches COLUMN_MAPPINGS headers = true ->
  detect_columns headers = (∅, ∅).
Proof. intro E. exact (detect_columns_idle COLUMN_MAPPINGS headers (∅, ∅) E). Qed.

(** C2, as stated, fails: the header list ["xyzzy"] matches nothing, and its
    validation status is "low_confidence", not "missing_required_fields". *)
Lemma unmatched_header_status_is_low_confidence :
  no_header_matches COLUMN_MAPPINGS ["xyzzy"] = true
  /\ validation_status (validate_csv_columns ["xyzzy"]) = "low_confidence"
  /\ validation_status (validate_csv_columns ["xyzzy"]) <> "missing_required_fields".
Proof. split; [| split]; [vm_compute; reflexivity .. | vm_compute; discriminate]. Qed.

(** C2, amended. For every header list none of whose entries matches a
    synonym of a canonical field under the exact, substring or fuzzy rule,
    column validation returns an empty mapping, mapping quality 0, the
    status "low_confidence" (the quality is below 0.5, which overrides
    "missing_required_fields") and [can_proceed = false]. *)
Theorem unmatched_headers_validation (headers : list string) :
  no_header_matches COLUMN_MAPPINGS headers = true ->
  detected_mapping (validate_csv_columns headers) = ∅
  /\ (mapping_quality (validate_csv_columns headers) == 0)%Q
  /\ validation_status (validate_csv_columns headers) = "low_confidence"
  /\ can_proceed (validate_csv_columns headers) = false.
Proof.
  intro E. unfold validate_csv_columns, get_mapping_suggestions.
  rewrite (detect_columns_unmatched headers E).
  cbn [detected_mapping mapping_quality validation_status can_proceed
       ms_detected_mapping ms_mapping_quality ms_missing_required].
  repeat split.
Qed.

Lemma unmatched_headers_validation_on_xyzzy :
  no_header_matches COLUMN_MAPPINGS ["xyzzy"] = true
  /\ (detected_mapping (validate_csv_columns ["xyzzy"]) = ∅
      /\ (mapping_quality (validate_csv_columns ["xyzzy"]) == 0)%Q
      /\ validation_status (validate_csv_columns ["xyzzy"]) = "low_confidence"
      /\ can_proceed (validate_csv_columns ["xyzzy"]) = false).
Proof.
  split; [vm_compute; reflexivity |].
  apply (unmatched_headers_validation ["xyzzy"]). vm_compute. reflexivity.
Defined.

(** C3, as stated, fails: the mapping of the archive headers has a seventh
    key. The fuzzy rule removes "st_" from "st_mass", which leaves the
    synonym "mass" of [planet_mass]; nothing marks a header as taken. *)
Lemma archive_headers_domain_is_not_six :
  dom (detect_columns archive_headers).1
  <> ({["name"; "distance"; "star_type"; "planet_radius"; "orbital_period";
        "stellar_mass"]} : gset string)
  /\ (detect_columns archive_headers).1 !! "planet_mass" = Some "st_mass".
Proof.
  split; [| vm_compute; reflexivity].
  intro E.
  apply (f_equal (fun s : gset string => bool_decide ("planet_mass" ∈ s))) in E.
  vm_compute in E. discriminate E.
Qed.

(** C3, amended. For the archive headers, detection maps the six required
    fields to their headers at confidence 1.0 and, besides them, only
    [planet_mass], to "st_mass" at confidence 0.8; validation reports
    [can_proceed = true]. *)
Theorem archive_headers_detection :
  detect_columns archive_headers
  = ({[ "name" := "pl_name"; "distance" := "sy_dist";
        "star_type" := "st_spectype"; "planet_radius" := "pl_rade";
        "orbital_period" := "pl_orbper"; "stellar_mass" := "st_mass";
        "planet_mass" := "st_mass" ]},
     {[ "name" := 1%Q; "distance" := 1%Q; "star_type" := 1%Q;
        "planet_radius" := 1%Q; "orbital_period" := 1%Q;
        "stellar_mass" := 1%Q; "planet_mass" := (8 # 10)%Q ]})
  /\ can_proceed (validate_csv_columns archive_headers) = true.
Proof. split; vm_compute; reflexivity. Qed.

Lemma detect_columns_call_reads_only (headers : list string)
    (table : list (string * list string)) :
  (detect_columns_call headers table).2 = table.
Proof. reflexivity. Qed.

(** C7. From any state of the class attribute, two calls of column
    detection on the same headers return the same mappings and the same
    confidences, namely those determined by the headers and the table; so
    does any number of calls in a row, and the attribute is left as it was. *)
Theorem detect_columns_twice (table : list (string * list string))
    (headers : list string) (n : nat) :
  detect_twice headers table
  = ((detect_columns_with table headers, detect_columns_with table headers), table)
  /\ detect_repeat n headers table
     = (List.repeat (detect_columns_with table headers) n, table).
Proof.
  split; [reflexivity |].
  induction n as [| n IH]; [reflexivity |].
  cbn [detect_repeat List.repeat]. unfold call_then at 1.
  destruct (detect_columns_call headers table) as [r table'] eqn:E.
  pose proof (detect_columns_call_reads_only headers table) as R.
  rewrite E in R. cbn [snd] in R. subst table'.
  unfold detect_columns_call in E. injection E as <-.
  unfold call_then, call_ret. now rewrite IH.
Qed.

End Detection.

(** ** The upload pipeline *)

Section UploadProperties.

Import Scoring Upload.
Local Open Scope list_scope.
Context `{PyBuiltins}.

(** In a table none of whose rows raises past the loop, a failing row is
    caught. *)
Lemma any_uncaught_raise (df : DataFrame) (m : gmap string string) (index : nat)
    (row : gmap string value) (rest : list (gmap string value)) (e : exn) :
  any_uncaught df m index (row :: rest) = false ->
  convert_row df m index row = Raise e ->
  caught e = true /\ any_uncaught df m (S index) rest = false.
Proof.
  cbn [any_uncaught]. intros U E. rewrite E in U.
  apply orb_false_iff in U as [C U]. apply negb_false_iff in C. now split.
Qed.

Lemma any_uncaught_ok (df : DataFrame) (m : gmap string string) (index : nat)
    (row : gmap string value) (rest : list (gmap string value))
    (t : ExoplanetTarget) :
  any_uncaught df m index (row :: rest) = false ->
  convert_row df m index row = Ok t ->
  any_uncaught df m (S index) rest = false.
Proof. cbn [any_uncaught]. intros U E. now rewrite E in U. Qed.


(** From the eleventh failing row on, the loop has stopped: the list holds
    eleven row entries and the marker, twelve entries in all. *)
Lemma convert_rows_capped (df : DataFrame) (m : gmap string string)
    (todo : list (gmap string value)) :
  forall index st,
    any_uncaught df m index todo = false ->
    List.length (conv_errors st) <= 10 ->
    10 < List.length (conv_errors st) + count_failures df m index todo ->
    List.length (conv_errors (convert_rows df m index todo st)) = 12
    /\ last (conv_errors (convert_rows df m index todo st)) = Some MoreErrors
    /\ aborted (convert_rows df m index todo st) = aborted st.
Proof.
  induction todo as [| row rest IH]; intros index st U B G;
    cbn [convert_rows count_failures List.length] in *; [lia |].
  destruct (convert_row df m index row) as [t | e] eqn:E.
  - apply (any_uncaught_ok _ _ _ _ _ _ U) in E as U'.
    match goal with
    | |- context [convert_rows df m (S index) rest ?s] =>
        exact (IH (S index) s U' B G)
    end.
  - apply (any_uncaught_raise _ _ _ _ _ _ U) in E as [C U']. rewrite C.
    destruct (Nat.ltb_spec 10 (List.length (conv_errors st ++ [RowError (index + 1) e])))
      as [L | L]; rewrite length_app in L; cbn [List.length] in L.
    + cbn [conv_errors aborted]. rewrite last_snoc, !length_app. cbn [List.length].
      repeat split; lia.
    + match goal with
      | |- context [convert_rows df m (S index) rest ?s] =>
          destruct (IH (S index) s U') as (N & M & A)
      end;
        cbn [conv_errors aborted] in *; rewrite ?length_app in *;
        cbn [List.length] in *; repeat split; lia || assumption.
Qed.


(** With more than ten failing rows the error list has twelve entries. *)
Lemma conversion_errors_beyond_ten (df : DataFrame) :
  uncaught_rows df = false ->
  10 < failed_rows df ->
  List.length (conv_errors (conversion_of df)) = 12.
Proof.
  intros U B. unfold conversion_of, failed_rows, uncaught_rows in *.
  apply (convert_rows_capped df _ (rows df) 0); cbn [conv_errors List.length];
    assumption || lia.
Qed.

(** *** A table without a valid target *)



End UploadProperties.

(** ** The upload pipeline on concrete tables *)

Section UploadExamples.

Import Scoring Upload Fixtures.
Local Open Scope list_scope.


Example garbled_table_failure :
  upload_csv_targets (H := Sample.builtins) bare_engine garbled_table
  = (Raise (NoValidTargets
             [RowError 1 (ValueError "could not convert string to float: abc")]),
     []).
Proof. vm_compute. reflexivity. Qed.

(** The table whose one line has an infinite discovery year: no row is
    converted, and the upload answers with the error of the outer handler,
    status 500, since [int] raises an [OverflowError] that the row loop
    does not catch. *)
Example overflowing_table_failure :
  (ColumnDetector.detect_columns (columns overflowing_table)).1 !! "discovery_year"
  = Some "disc_year"
  /\ targets (conversion_of (H := Sample.builtins) overflowing_table) = []
  /\ upload_csv_targets (H := Sample.builtins) bare_engine overflowing_table
     = (Raise (ProcessingFailed
                 (OverflowError "cannot convert float infinity to integer")),
        []).
Proof. repeat split; vm_compute; reflexivity. Qed.


(** C1 on the table of thirteen lines. Eleven of them fail conversion, so
    the claim asks for two targets and an error list of at most eleven
    entries; the loop leaves at the eleventh failure with one target and
    twelve entries, and the line after it is never converted, while the
    summary reports thirteen rows processed. *)
Theorem upload_stops_at_eleventh_failure :
  List.length (rows thirteen_rows) = 13
  /\ failed_rows (H := Sample.builtins) thirteen_rows = 11
  /\ List.map name (targets (conversion_of (H := Sample.builtins) thirteen_rows))
     = ["Earth"]
  /\ List.length (conv_errors (conversion_of (H := Sample.builtins) thirteen_rows)) = 12
  /\ last (conv_errors (conversion_of (H := Sample.builtins) thirteen_rows))
     = Some MoreErrors
  /\ exists response,
       (upload_csv_targets (H := Sample.builtins) bare_engine thirteen_rows).1
       = Ok response
       /\ List.map target_name (results response) = ["Earth"]
       /\ rows_processed (processing_summary response) = 13
       /\ valid_targets (processing_summary response) = 1.
Proof.
  repeat (split; [vm_compute; reflexivity |]).
  eexists. split; [vm_compute; reflexivity |].
  repeat split.
Qed.

End UploadExamples.

(** ** Observability *)

Section ObservabilityProperties.

Import Observability.
Local Open Scope Q_scope.

Lemma Qeq_bool_positive (y : Q) : 0 < y -> Qeq_bool y 0 = false.
Proof.
  intro P. destruct (Qeq_bool y 0) eqn:E; [| reflexivity].
  apply Qeq_bool_iff in E. lra.
Qed.


(** The quotient of the diameter term is defined for every required
    diameter: its divisor is at least 1e-6 or infinite. *)
Lemma shortfall_defined (req_d : xfloat) (diameter : Q) :
  exists s,
    XFloat.div (XFloat.sub req_d (Fin diameter))
               (XFloat.max req_d (Fin (1 / 10 ^ 6))) = Ok s.
Proof.
  set (eps := 1 / 10 ^ 6). assert (E : 0 < eps) by reflexivity. clearbody eps.
  destruct req_d as [d | | |]; unfold XFloat.max; cbn [XFloat.lt].
  - destruct (Qltb_spec d eps) as [A | A];
      cbn [XFloat.sub XFloat.neg XFloat.add XFloat.div];
      rewrite Qeq_bool_positive by lra; eexists; reflexivity.
  - eexists. reflexivity.
  - cbn [XFloat.sub XFloat.neg XFloat.add XFloat.div].
    rewrite Qeq_bool_positive by lra. eexists. reflexivity.
  - eexists. reflexivity.
Qed.


Section WithBuiltins.
Context `{PyBuiltins}.

Lemma spectroscopic_feasibility_unit (contrast limit s : Q) :
  spectroscopic_feasibility contrast limit = Ok s -> 0 <= s <= 1.
Proof.
  unfold spectroscopic_feasibility.
  destruct (Qleb limit 0); [intros [= <-]; split; discriminate |].
  destruct (underflows _); [discriminate |].
  intros [= <-]. apply clamp_unit.
Qed.

(** Within the range, the square of the radius is a double. *)
Lemma contrast_in_range (radius : Q) :
  Qabs radius <= 10 ^ 100 ->
  exists c,
    planet_star_contrast_ratio radius (3 # 10) = Ok c
    /\ 0 <= c <= (3 # 10) * ((10 ^ 100 / 109) * (10 ^ 100 / 109)).
Proof.
  assert (F1 : (10 ^ 100 / 109) * (10 ^ 100 / 109) < OVERFLOW)
    by (vm_compute; reflexivity).
  assert (F2 : 1 / 10 ^ 12 <= (3 # 10) * ((10 ^ 100 / 109) * (10 ^ 100 / 109)))
    by (vm_compute; discriminate).
  assert (F3 : 0 < 10 ^ 100 / 109) by (vm_compute; reflexivity).
  assert (F4 : forall r, r <= 10 ^ 100 -> r / 109 <= 10 ^ 100 / 109).
  { intros r L. unfold Qdiv. apply Qmult_le_compat_r; [exact L | discriminate]. }
  assert (F5 : forall r, 0 < r -> 0 < r / 109).
  { intros r L. apply Qlt_shift_div_l; [reflexivity | lra]. }
  intro B. unfold planet_star_contrast_ratio.
  destruct (Qleb_spec radius 0) as [N | P].
  - exists 0. split; [reflexivity |]. split; [discriminate | vm_compute; discriminate].
  - rewrite Qabs_pos in B by lra.
    specialize (F4 radius B). specialize (F5 radius P).
    change ((radius / 109) ^ 2) with ((radius / 109) * (radius / 109)).
    set (x := radius / 109) in *. set (m := 10 ^ 100 / 109) in *.
    clearbody x m.
    assert (S : 0 <= x * x <= m * m) by (split; nra).
    assert (O : overflows (x * x) = false).
    { unfold overflows. rewrite Qabs_pos by lra.
      destruct (Qleb_spec OVERFLOW (x * x)); [lra | reflexivity]. }
    rewrite O, andb_false_r. eexists. split; [reflexivity |].
    destruct (py_max_spec (1 / 10 ^ 12) ((3 # 10) * (x * x))) as [[L ->] | [L ->]];
      split; lra.
Qed.

(** Within the range, the ratio handed to the logarithm is a positive
    double. *)
Lemma spectroscopic_feasibility_in_range (contrast limit : Q) :
  0 <= contrast <= (3 # 10) * ((10 ^ 100 / 109) * (10 ^ 100 / 109)) ->
  limit <= 0 \/ 1 / 10 ^ 100 <= limit ->
  exists s, spectroscopic_feasibility contrast limit = Ok s.
Proof.
  assert (F1 : UNDERFLOW
               < (1 / 10 ^ 100) / ((3 # 10) * ((10 ^ 100 / 109) * (10 ^ 100 / 109))))
    by (vm_compute; reflexivity).
  assert (F2 : 1 / 10 ^ 20 <= (3 # 10) * ((10 ^ 100 / 109) * (10 ^ 100 / 109)))
    by (vm_compute; discriminate).
  assert (F3 : 0 < 1 / 10 ^ 20) by reflexivity.
  assert (F4 : 0 < 1 / 10 ^ 100) by reflexivity.
  intros C L. unfold spectroscopic_feasibility.
  destruct (Qleb_spec limit 0) as [N | P]; [eexists; reflexivity |].
  destruct L as [L | L]; [lra |].
  set (top := (3 # 10) * ((10 ^ 100 / 109) * (10 ^ 100 / 109))) in *.
  set (eps := 1 / 10 ^ 20) in *. set (low := 1 / 10 ^ 100) in *.
  assert (D : 0 < py_max contrast eps <= top).
  { destruct (py_max_spec contrast eps) as [[A ->] | [A ->]]; lra. }
  set (c := py_max contrast eps) in *.
  clearbody top eps low c.
  assert (R : low / top <= limit / c).
  { apply Qle_shift_div_l; [lra |].
    assert (E : low / top * c == low * c / top) by (field; lra).
    rewrite E. apply Qle_shift_div_r; [lra | nra]. }
  assert (U : underflows (limit / c) = false).
  { unfold underflows.
    assert (0 < limit / c) by (apply Qlt_shift_div_l; lra).
    rewrite Qabs_pos by lra.
    destruct (Qleb_spec (limit / c) UNDERFLOW); [lra | reflexivity]. }
  rewrite U. eexists. reflexivity.
Qed.

Lemma pow_two_thirds_nonnegative (v : value) :
  is_nonnegative v = true -> exists x, pow_two_thirds v = Ok x.
Proof.
  destruct v as [| b | z | q | s]; cbn [is_nonnegative pow_two_thirds];
    try discriminate; intro P.
  - destruct b; eexists; reflexivity.
  - apply andb_true_iff in P as [P O]. apply negb_true_iff in O. rewrite O.
    destruct (Qltb_spec (inject_Z z) 0) as [A | A]; [| eexists; reflexivity].
    apply Z.leb_le in P. assert (0 <= inject_Z z).
    { change 0 with (inject_Z 0). now rewrite <- Zle_Qle. }
    lra.
  - destruct (Qltb_spec q 0) as [A | A]; [| eexists; reflexivity].
    destruct (Qleb_spec 0 q); [lra | discriminate].
Qed.

Lemma converts_returns (v : value) :
  converts v = true -> exists x, py_float v = Ok x.
Proof. unfold converts. destruct (py_float v); [eauto | discriminate]. Qed.

Lemma semi_major_axis_readable (planet : gmap string value) :
  readable planet = true -> exists a, semi_major_axis_of planet = Ok a.
Proof.
  unfold readable, semi_major_axis_of.
  rewrite !andb_true_iff. intros ((A & _) & _).
  assert (P : match planet !! "pl_orbper" with
              | Some v => is_nonnegative v
              | None => true
              end = true ->
              exists a,
                pow_two_thirds (default (VFloat 365) (planet !! "pl_orbper")) = Ok a).
  { destruct (planet !! "pl_orbper") as [w |]; cbn [default].
    - apply pow_two_thirds_nonnegative.
    - intros _. cbn. eexists. reflexivity. }
  destruct (planet !! "pl_orbsmax") as [v |]; [| exact (P A)].
  destruct (py_truthy v); [exact (converts_returns v A) | exact (P A)].
Qed.


(** On a readable record within the range, [compute_observability]
    returns. *)
Lemma compute_observability_returns (planet : gmap string value)
    (params : ObservabilityParams) :
  readable planet = true ->
  in_range planet params = true ->
  exists r, compute_observability planet params = Ok r.
Proof.
  intros R I. unfold compute_observability.
  destruct (semi_major_axis_readable planet R) as [a ->].
  unfold readable in R. rewrite !andb_true_iff in R.
  destruct R as ((_ & D) & P).
  destruct (converts_returns _ D) as [d ->].
  destruct (converts_returns _ P) as [radius E].
  unfold in_range in I. rewrite E in I. rewrite E.
  apply andb_true_iff in I as [B L].
  assert (B' : Qabs radius <= 10 ^ 100).
  { destruct (Qleb_spec (Qabs radius) (10 ^ 100)); [assumption | discriminate]. }
  assert (L' : contrast_sensitivity params <= 0
               \/ 1 / 10 ^ 100 <= contrast_sensitivity params).
  { apply orb_true_iff in L as [L | L]; [left | right];
      match type of L with
      | Qleb ?x ?y = true => destruct (Qleb_spec x y); [assumption | discriminate]
      end. }
  cbn [bind].
  destruct (contrast_in_range radius B') as (c & -> & C). cbn [bind].
  destruct (spectroscopic_feasibility_in_range c _ C L') as [s ->]. cbn [bind].
  destruct (shortfall_defined
              (required_telescope_diameter_m (angular_separation_mas a d)
                 (wavelength_band params) 2)
              (telescope_diameter_m params)) as [q ->].
  cbn [bind]. eexists. reflexivity.
Qed.


End WithBuiltins.


(** The function raises as well on a radius whose square is beyond the
    doubles, and on a sensitivity limit so small that its ratio to the
    contrast is the double zero. *)
Example compute_observability_raises_out_of_range :
  compute_observability (H := Sample.builtins)
    {[ "pl_rade" := VFloat (10 ^ 200) ]} default_params
  = Raise (OverflowError "(34, 'Numerical result out of range')")
  /\ compute_observability (H := Sample.builtins)
       {[ "pl_rade" := VFloat (10 ^ 100) ]}
       {| telescope_diameter_m := 6; wavelength_band := "Visible";
          inner_working_angle_mas := 75; contrast_sensitivity := 1 / 10 ^ 320 |}
     = Raise (ValueError "math domain error").
Proof. split; vm_compute; reflexivity. Qed.


End ObservabilityProperties.

(** ** More on column detection *)

Section DetectionMore.

Import ColumnDetector Fixtures.
Local Open Scope list_scope.

(** A field step leaves every other field as it was. *)
Lemma field_step_frame (headers : list string) (acc : detection)
    (field : string) (names : list string) (g : string) :
  g <> field ->
  (field_step headers acc (field, names)).1 !! g = acc.1 !! g
  /\ (field_step headers acc (field, names)).2 !! g = acc.2 !! g.
Proof.
  intro N. unfold field_step.
  destruct (scan_headers names headers (None, 0%Q)) as [hit [best_match best_score]].
  destruct hit as [csv_col |], best_match as [col |]; cbn [fst snd];
    repeat match goal with
           | |- context [if ?c then _ else _] => destruct c
           end;
    cbn [fst snd]; rewrite ?lookup_insert_ne by congruence; split; reflexivity.
Qed.

Lemma detect_frame (headers : list string) (table : list (string * list string)) :
  forall (acc : detection) (g : string),
    g ∉ table.*1 ->
    (fold_left (field_step headers) table acc).1 !! g = acc.1 !! g
    /\ (fold_left (field_step headers) table acc).2 !! g = acc.2 !! g.
Proof.
  induction table as [| [field names] table IH]; intros acc g N; [split; reflexivity |].
  cbn [fold_left]. cbn [fmap list_fmap fst] in N.
  apply not_elem_of_cons in N as [N1 N2].
  destruct (IH (field_step headers acc (field, names)) g N2) as [A B].
  destruct (field_step_frame headers acc field names g N1) as [C D].
  split; congruence.
Qed.

(** On its own field, a step records the outcome of the scan. *)
Lemma field_step_own (headers : list string) (acc : detection)
    (field : string) (names : list string) :
  acc.1 !! field = None -> acc.2 !! field = None ->
  (field_step headers acc (field, names)).1 !! field
  = fst <$> field_outcome names headers
  /\ (field_step headers acc (field, names)).2 !! field
     = snd <$> field_outcome names headers.
Proof.
  intros M C. unfold field_step, field_outcome.
  destruct (scan_headers names headers (None, 0%Q)) as [hit [best_match best_score]].
  destruct hit as [csv_col |]; cbn [fst snd].
  - destruct best_match as [col |];
      [ rewrite lookup_insert_eq; cbn [bool_decide];
        rewrite bool_decide_eq_true_2 by eauto; rewrite andb_false_r |];
      cbn [fst snd fmap option_fmap option_map];
      rewrite !lookup_insert_eq; split; reflexivity.
  - destruct best_match as [col |]; [| now rewrite M, C].
    rewrite M. rewrite bool_decide_eq_false_2 by (intros [? ?]; discriminate).
    cbn [negb]. rewrite andb_true_r.
    destruct (PyStr.truthy col); cbn [fst snd fmap option_fmap option_map];
      rewrite ?lookup_insert_eq, ?M, ?C; split; reflexivity.
Qed.

(** Detection decomposes by field: with distinct field names in the table,
    what it holds for a field is the outcome of that field's own scan. *)
Lemma detect_by_field (headers : list string) (table : list (string * list string)) :
  forall (acc : detection) (field : string) (names : list string),
    NoDup table.*1 ->
    (field, names) ∈ table ->
    (forall g, g ∈ table.*1 -> acc.1 !! g = None /\ acc.2 !! g = None) ->
    (fold_left (field_step headers) table acc).1 !! field
    = fst <$> field_outcome names headers
    /\ (fold_left (field_step headers) table acc).2 !! field
       = snd <$> field_outcome names headers.
Proof.
  induction table as [| [f ns] table IH]; intros acc field names D I E.
  - inversion I.
  - cbn [fmap list_fmap fst] in D, E. apply NoDup_cons in D as [D1 D2].
    cbn [fold_left]. apply elem_of_cons in I as [I | I].
    + injection I as -> ->.
      destruct (detect_frame headers table (field_step headers acc (f, ns)) f D1)
        as [A B].
      destruct (E f) as [M C]; [left |].
      destruct (field_step_own headers acc f ns M C) as [P Q].
      split; congruence.
    + apply IH; [exact D2 | exact I |].
      intros g G. assert (N : g <> f) by (intros ->; contradiction).
      destruct (field_step_frame headers acc f ns g N) as [A B].
      destruct (E g) as [M C]; [right; exact G |]. split; congruence.
Qed.

Lemma column_mappings_distinct : NoDup COLUMN_MAPPINGS.*1.
Proof. apply (bool_decide_unpack _). vm_compute. reflexivity. Qed.

Lemma detect_columns_by_field (headers : list string) (field : string)
    (names : list string) :
  (field, names) ∈ COLUMN_MAPPINGS ->
  (detect_columns headers).1 !! field = fst <$> field_outcome names headers
  /\ (detect_columns headers).2 !! field = snd <$> field_outcome names headers.
Proof.
  intro I. apply detect_by_field; [apply column_mappings_distinct | exact I |].
  intros g _. split; apply lookup_empty.
Qed.

Lemma detect_columns_other (headers : list string) (field : string) :
  field ∉ COLUMN_MAPPINGS.*1 ->
  (detect_columns headers).1 !! field = None
  /\ (detect_columns headers).2 !! field = None.
Proof.
  intro N. destruct (detect_frame headers COLUMN_MAPPINGS (∅, ∅) field N) as [A B].
  unfold detect_columns, detect_columns_with. rewrite A, B. split; apply lookup_empty.
Qed.

(** The scan leaves at the first header that equals a synonym. *)
Lemma scan_headers_first_exact (names pre : list string) (h : string)
    (post : list string) :
  Forall (fun x => exact_rule names x = false) pre ->
  exact_rule names h = true ->
  forall b, exists b', scan_headers names (pre ++ h :: post) b = (Some h, b').
Proof.
  unfold exact_rule. intros F E. induction F as [| x pre X _ IH]; intro b.
  - cbn [app scan_headers]. rewrite E. eexists. reflexivity.
  - cbn [app scan_headers]. rewrite X. apply IH.
Qed.

(** X1. Whatever else the header row holds, a field one of whose synonyms
    equals a header after normalisation (lower case, stripped, spaces and
    hyphens as underscores) is mapped to the first such header, with
    confidence 1.0. *)
Theorem exact_match_wins (headers : list string) (field : string)
    (names pre : list string) (h : string) (post : list string) :
  (field, names) ∈ COLUMN_MAPPINGS ->
  headers = pre ++ h :: post ->
  Forall (fun x => exact_rule names x = false) pre ->
  exact_rule names h = true ->
  (detect_columns headers).1 !! field = Some h
  /\ (detect_columns headers).2 !! field = Some 1%Q.
Proof.
  intros I -> F E.
  destruct (detect_columns_by_field (pre ++ h :: post) field names I) as [A B].
  rewrite A, B. unfold field_outcome.
  destruct (scan_headers_first_exact names pre h post F E (None, 0%Q)) as [b' ->].
  split; reflexivity.
Qed.

Lemma exact_match_wins_on_spaced_header :
  ("distance",
   ["distance"; "dist"; "sy_dist"; "distance_pc"; "dist_pc";
    "parallax_distance"; "stellar_distance"; "star_distance";
    "system_distance"; "parsecs"; "pc"; "d"; "dist_parsec"]) ∈ COLUMN_MAPPINGS
  /\ ["Planet"; " Sy-Dist "; "dist"] = ["Planet"] ++ " Sy-Dist " :: ["dist"]
  /\ (detect_columns ["Planet"; " Sy-Dist "; "dist"]).1 !! "distance"
     = Some " Sy-Dist "
  /\ (detect_columns ["Planet"; " Sy-Dist "; "dist"]).2 !! "distance" = Some 1%Q.
Proof.
  assert (I : ("distance",
               ["distance"; "dist"; "sy_dist"; "distance_pc"; "dist_pc";
                "parallax_distance"; "stellar_distance"; "star_distance";
                "system_distance"; "parsecs"; "pc"; "d"; "dist_parsec"])
              ∈ COLUMN_MAPPINGS).
  { apply (bool_decide_unpack _). vm_compute. reflexivity. }
  split; [exact I |]. split; [reflexivity |].
  apply (exact_match_wins ["Planet"; " Sy-Dist "; "dist"] "distance" _
           ["Planet"] " Sy-Dist " ["dist"] I eq_refl).
  - repeat constructor.
  - vm_compute. reflexivity.
Defined.

(** *** What a partial match is worth *)

Lemma distinct_length (l : list ascii) :
  List.length (PyStr.distinct l) <= List.length l.
Proof.
  induction l as [| c l IH]; cbn [PyStr.distinct List.length]; [lia |].
  destruct (PyStr.mem_char c l); cbn [List.length]; lia.
Qed.

Lemma filter_length_le {A : Type} (f : A -> bool) (l : list A) :
  List.length (List.filter f l) <= List.length l.
Proof.
  induction l as [| x l IH]; cbn [List.filter List.length]; [lia |].
  destruct (f x); cbn [List.length]; lia.
Qed.

Lemma list_ascii_length (s : string) :
  List.length (list_ascii_of_string s) = String.length s.
Proof. induction s as [| c s IH]; cbn; [reflexivity | now rewrite IH]. Qed.

Lemma lower_length (s : string) : String.length (PyStr.lower s) = String.length s.
Proof. induction s as [| c s IH]; cbn; [reflexivity | now rewrite IH]. Qed.

Lemma common_chars_le (a b : string) : PyStr.common_chars a b <= String.length a.
Proof.
  unfold PyStr.common_chars.
  pose proof (filter_length_le (fun c => PyStr.mem_char c (list_ascii_of_string b))
                (PyStr.distinct (list_ascii_of_string a))).
  pose proof (distinct_length (list_ascii_of_string a)).
  rewrite list_ascii_length in *. lia.
Qed.

(** The overlap score never exceeds 1. *)
Lemma overlap_score_le_1 (p hl : string) : (overlap_score p hl <= 1)%Q.
Proof.
  unfold overlap_score.
  pose proof (common_chars_le (PyStr.lower p) hl) as C. rewrite lower_length in C.
  set (a := PyStr.common_chars (PyStr.lower p) hl) in *.
  set (b := Nat.max (String.length p) (String.length hl)).
  assert (L : a <= b) by lia. clearbody a b.
  destruct b as [| b].
  - assert (a = 0) as -> by lia. discriminate.
  - apply Qle_shift_div_r.
    + change 0%Q with (inject_Z 0). rewrite <- Zlt_Qlt. lia.
    + rewrite Qmult_1_l. rewrite <- Zle_Qle. lia.
Qed.

Lemma substring_pass_sound (names headers : list string) (csv_col : string)
    (b : best) :
  csv_col ∈ headers -> best_sound names headers b ->
  best_sound names headers (substring_pass names csv_col (normalize csv_col) b).
Proof.
  intros I. unfold substring_pass.
  assert (G : forall ns, (forall p, p ∈ ns -> p ∈ names) ->
            forall b, best_sound names headers b ->
            best_sound names headers
              (fold_left
                 (fun (b : best) possible_name =>
                    if is_substring_pair possible_name (normalize csv_col)
                    then
                      if Qltb b.2 (overlap_score possible_name (normalize csv_col))
                         && Qltb (6 # 10) (overlap_score possible_name (normalize csv_col))
                      then (Some csv_col, overlap_score possible_name (normalize csv_col))
                      else b
                    else b) ns b)).
  { induction ns as [| p ns IH]; intros S b0 B; [exact B |].
    cbn [fold_left]. apply IH; [intros q Q; apply S; now right |].
    destruct (is_substring_pair p (normalize csv_col)) eqn:P; [| exact B].
    destruct (Qltb b0.2 _) eqn:L1; cbn [andb]; [| exact B].
    destruct (Qltb_spec (6 # 10) (overlap_score p (normalize csv_col))) as [L2 | L2];
      [| exact B].
    unfold best_sound. cbn [fst snd]. split; [exact I |]. split.
    - apply orb_true_iff. left. unfold substring_rule.
      apply existsb_exists. exists p. split.
      + apply list_elem_of_In, S. now left.
      + rewrite P. cbn [andb]. destruct (Qltb_spec (6 # 10) (overlap_score p (normalize csv_col)));
          [reflexivity | lra].
    - split; [exact L2 | apply overlap_score_le_1]. }
  intros B. exact (G names (fun p P => P) b B).
Qed.

Lemma fuzzy_pass_sound (names headers : list string) (csv_col : string)
    (b : best) :
  csv_col ∈ headers -> best_sound names headers b ->
  best_sound names headers (fuzzy_pass names csv_col (normalize csv_col) b).
Proof.
  intros I. unfold fuzzy_pass.
  assert (G : forall ns, (forall p, p ∈ ns -> p ∈ names) ->
            forall b, best_sound names headers b ->
            best_sound names headers
              (fold_left
                 (fun (b : best) possible_name =>
                    if _fuzzy_match (normalize csv_col) (PyStr.lower possible_name)
                    then if Qltb b.2 (8 # 10) then (Some csv_col, (8 # 10)%Q) else b
                    else b) ns b)).
  { induction ns as [| p ns IH]; intros S b0 B; [exact B |].
    cbn [fold_left]. apply IH; [intros q Q; apply S; now right |].
    destruct (_fuzzy_match (normalize csv_col) (PyStr.lower p)) eqn:P; [| exact B].
    destruct (Qltb b0.2 (8 # 10)); [| exact B].
    unfold best_sound. cbn [fst snd]. split; [exact I |]. split.
    - apply orb_true_iff. right. unfold fuzzy_rule.
      apply existsb_exists. exists p. split; [| exact P].
      apply list_elem_of_In, S. now left.
    - split; reflexivity || discriminate. }
  intros B. exact (G names (fun p P => P) b B).
Qed.

Lemma scan_headers_sound (names headers : list string) :
  forall (todo : list string) (b : best),
    (forall h, h ∈ todo -> h ∈ headers) ->
    best_sound names headers b ->
    match scan_headers names todo b with
    | (hit, b') =>
        best_sound names headers b'
        /\ match hit with
           | Some col => col ∈ headers /\ exact_rule names col = true
           | None => True
           end
    end.
Proof.
  induction todo as [| h todo IH]; intros b S B; cbn [scan_headers].
  - split; [exact B | exact I].
  - destruct (is_exact names (normalize h)) eqn:E.
    + split; [exact B |]. split; [apply S; now left | exact E].
    + apply IH; [intros x X; apply S; now right |].
      apply fuzzy_pass_sound; [apply S; now left |].
      apply substring_pass_sound; [apply S; now left | exact B].
Qed.

Lemma field_outcome_sound (names headers : list string) (h : string) (c : Q) :
  field_outcome names headers = Some (h, c) ->
  h ∈ headers /\ header_matches names h = true /\ (6 # 10 < c /\ c <= 1)%Q.
Proof.
  unfold field_outcome.
  pose proof (scan_headers_sound names headers headers (None, 0%Q)
                (fun h H => H) I) as S.
  destruct (scan_headers names headers (None, 0%Q)) as [hit [bm bs]].
  destruct S as [B X]. unfold header_matches.
  destruct hit as [col |].
  - intros [= <- <-]. destruct X as [X1 X2]. rewrite X2.
    split; [exact X1 |]. split; [reflexivity |]. split; reflexivity || discriminate.
  - destruct bm as [col |]; [| discriminate].
    destruct (PyStr.truthy col); [| discriminate].
    intros [= <- <-]. unfold best_sound in B. cbn [fst snd] in B.
    destruct B as (B1 & B2 & B3). split; [exact B1 |]. split; [| exact B3].
    rewrite <- orb_assoc, B2. apply orb_true_r.
Qed.

(** X2. Every entry of a detected mapping is sound: its key is one of the
    eleven canonical fields, its header is one of the given headers and
    matches that field under the exact, substring or fuzzy rule, and the
    same key carries a confidence above 0.6 and at most 1.0; a key without
    a header carries no confidence either. *)
Theorem detected_entries_are_sound (headers : list string) (field : string) :
  match (detect_columns headers).1 !! field, (detect_columns headers).2 !! field with
  | Some h, Some c =>
      h ∈ headers
      /\ (exists names, (field, names) ∈ COLUMN_MAPPINGS
                        /\ header_matches names h = true)
      /\ (6 # 10 < c /\ c <= 1)%Q
  | None, None => True
  | _, _ => False
  end.
Proof.
  destruct (decide (field ∈ COLUMN_MAPPINGS.*1)) as [K | K].
  - apply list_elem_of_fmap in K as [[f names] [-> K]]. cbn [fst].
    destruct (detect_columns_by_field headers f names K) as [-> ->].
    destruct (field_outcome names headers) as [[h c] |] eqn:O;
      cbn [fmap option_fmap option_map fst snd]; [| exact I].
    destruct (field_outcome_sound names headers h c O) as (A & B & C).
    split; [exact A |]. split; [| exact C]. exists names. split; assumption.
  - destruct (detect_columns_other headers field K) as [-> ->]. exact I.
Qed.

(** *** Validation *)

Lemma detected_fields_are_canonical (headers : list string) :
  dom (detect_columns headers).1 ⊆ list_to_set COLUMN_MAPPINGS.*1.
Proof.
  intros f F. apply elem_of_list_to_set.
  destruct (decide (f ∈ COLUMN_MAPPINGS.*1)) as [K | K]; [exact K |].
  apply elem_of_dom in F as [h F].
  destruct (detect_columns_other headers f K) as [A _]. congruence.
Qed.

Lemma detected_size_le (headers : list string) :
  size (detect_columns headers).1 <= 11.
Proof.
  rewrite <- size_dom.
  pose proof (subseteq_size _ _ (detected_fields_are_canonical headers)) as S.
  rewrite size_list_to_set in S by apply column_mappings_distinct.
  exact S.
Qed.

Lemma quality_of_size (n : nat) :
  (inject_Z (Z.of_nat n) / inject_Z (Z.of_nat (List.length COLUMN_MAPPINGS))
   == inject_Z (Z.of_nat n) * (1 # 11))%Q.
Proof. reflexivity. Qed.

(** X3. The mapping quality reported by validation is the number of mapped
    fields over 11; at most 11 fields are mapped, so it lies in [0, 1]. *)
Theorem mapping_quality_bounds (headers : list string) :
  size (detected_mapping (validate_csv_columns headers)) <= 11
  /\ (mapping_quality (validate_csv_columns headers)
      == inject_Z (Z.of_nat (size (detected_mapping (validate_csv_columns headers))))
         / 11)%Q
  /\ (0 <= mapping_quality (validate_csv_columns headers) <= 1)%Q.
Proof.
  unfold validate_csv_columns, get_mapping_suggestions.
  pose proof (detected_size_le headers) as S.
  destruct (detect_columns headers) as [m c]. cbn [fst] in S.
  cbn [detected_mapping mapping_quality ms_detected_mapping ms_mapping_quality].
  split; [exact S |]. split; [reflexivity |].
  rewrite quality_of_size.
  assert (A : (0 <= inject_Z (Z.of_nat (size m)))%Q).
  { change 0%Q with (inject_Z 0). rewrite <- Zle_Qle. lia. }
  assert (B : (inject_Z (Z.of_nat (size m)) <= 11)%Q).
  { change 11%Q with (inject_Z 11). rewrite <- Zle_Qle. lia. }
  split; lra.
Qed.

Lemma filter_nil_all_false {A : Type} (f : A -> bool) (l : list A) :
  List.filter f l = [] -> forall x, x ∈ l -> f x = false.
Proof.
  induction l as [| y l IH]; intros E x X; [inversion X |].
  cbn [List.filter] in E. destruct (f y) eqn:Y; [discriminate |].
  apply elem_of_cons in X as [-> | X]; [exact Y | exact (IH E x X)].
Qed.

Lemma required_fields_size : size (list_to_set required_fields : gset string) = 6.
Proof.
  rewrite size_list_to_set; [reflexivity |].
  apply (bool_decide_unpack _). vm_compute. reflexivity.
Qed.

(** X4. Validation lets the caller proceed exactly when its status is
    "valid", and exactly when each of the six required fields is mapped:
    a complete set of required fields is never reported as low confidence,
    since six mapped fields out of eleven are above the 0.5 threshold. *)
Theorem can_proceed_iff_valid (headers : list string) :
  (can_proceed (validate_csv_columns headers) = true
   <-> validation_status (validate_csv_columns headers) = "valid")
  /\ (can_proceed (validate_csv_columns headers) = true
      <-> forall f, f ∈ required_fields ->
            is_Some (detected_mapping (validate_csv_columns headers) !! f)).
Proof.
  unfold validate_csv_columns, get_mapping_suggestions.
  destruct (detect_columns headers) as [m c].
  cbn [can_proceed validation_status detected_mapping ms_missing_required
       ms_mapping_quality ms_detected_mapping].
  set (missing := List.filter (unmapped m) required_fields).
  assert (R : Nat.eqb (List.length missing) 0 = true
              <-> forall f, f ∈ required_fields -> is_Some (m !! f)).
  { split.
    - intros E f F. apply Nat.eqb_eq in E.
      destruct missing eqn:M; [| discriminate E].
      pose proof (filter_nil_all_false _ _ M f F) as U. unfold unmapped in U.
      apply negb_false_iff, bool_decide_eq_true in U. exact U.
    - intros A. apply Nat.eqb_eq.
      assert (M : missing = []); [| now rewrite M].
      unfold missing. clear missing.
      induction required_fields as [| f fs IH]; [reflexivity |].
      cbn [List.filter]. unfold unmapped at 1.
      rewrite bool_decide_eq_true_2 by (apply A; left). cbn [negb].
      apply IH. intros g G. apply A. now right. }
  split; [| exact R].
  destruct (Nat.eqb (List.length missing) 0) eqn:E.
  - assert (S : 6 <= size m).
    { rewrite <- size_dom, <- required_fields_size. apply subseteq_size.
      intros f F. apply elem_of_list_to_set in F. apply elem_of_dom.
      destruct R as [R _]. exact (R eq_refl f F). }
    assert (Q : (6 <= inject_Z (Z.of_nat (size m)))%Q).
    { change 6%Q with (inject_Z 6). rewrite <- Zle_Qle. lia. }
    destruct (Qltb_spec (inject_Z (Z.of_nat (size m))
                         / inject_Z (Z.of_nat (List.length COLUMN_MAPPINGS))) (5 # 10))
      as [L | L].
    + rewrite quality_of_size in L. lra.
    + split; reflexivity.
  - destruct (Qltb _ (5 # 10)); split; discriminate.
Qed.

(** *** Suggestions *)

Lemma firstn_elem {A : Type} (n : nat) (l : list A) (x : A) :
  x ∈ firstn n l -> x ∈ l.
Proof.
  revert l. induction n as [| n IH]; intros [| y l] X; cbn [firstn] in X;
    try (inversion X; fail).
  apply elem_of_cons in X as [-> | X]; [left | right; exact (IH l X)].
Qed.

Lemma filter_elem {A : Type} (f : A -> bool) (l : list A) (x : A) :
  x ∈ List.filter f l -> x ∈ l /\ f x = true.
Proof.
  intro X. apply list_elem_of_In, filter_In in X as [X1 X2].
  split; [now apply list_elem_of_In | exact X2].
Qed.

(** X5. A dictionary of suggestions has entries for missing fields only;
    each entry lists between one and three headers, every one of them an
    unmapped header that contains, is contained in or fuzzily equals a
    synonym of the field. *)
Theorem suggestions_shape (missing_fields unmapped_headers : list string)
    (field : string) (l : list string) :
  _generate_suggestions missing_fields unmapped_headers !! field = Some l ->
  field ∈ missing_fields
  /\ 1 <= List.length l <= 3
  /\ forall h, h ∈ l ->
       h ∈ unmapped_headers
       /\ suggests (synonyms_of COLUMN_MAPPINGS field) h = true.
Proof.
  unfold _generate_suggestions.
  assert (G : forall fs acc,
            (forall f, f ∈ fs -> f ∈ missing_fields) ->
            suggestions_ok missing_fields unmapped_headers acc ->
            suggestions_ok missing_fields unmapped_headers
              (fold_left
                 (fun (suggestions : gmap string (list string)) field =>
                    match List.filter (suggests (synonyms_of COLUMN_MAPPINGS field))
                                      unmapped_headers with
                    | [] => suggestions
                    | _ => <[field := firstn 3
                               (List.filter (suggests (synonyms_of COLUMN_MAPPINGS field))
                                            unmapped_headers)]> suggestions
                    end) fs acc)).
  { induction fs as [| f fs IH]; intros acc S A; [exact A |].
    cbn [fold_left]. apply IH; [intros g G; apply S; now right |].
    destruct (List.filter (suggests (synonyms_of COLUMN_MAPPINGS f)) unmapped_headers)
      as [| x xs] eqn:F; [exact A |].
    intros g l0 L. destruct (decide (f = g)) as [<- | N].
    - rewrite lookup_insert_eq in L. injection L as <-.
      split; [apply S; now left |]. split.
      + cbn [firstn List.length]. pose proof (firstn_le_length 2 xs). lia.
      + intros h H. apply (firstn_elem 3 (x :: xs)) in H. rewrite <- F in H.
        now apply filter_elem in H.
    - rewrite lookup_insert_ne in L by exact N. exact (A g l0 L). }
  intro L.
  apply (G missing_fields ∅ (fun f F => F)); [| exact L].
  intros g l0 E. rewrite lookup_empty in E. discriminate.
Qed.

Lemma suggestions_shape_on_planet_columns :
  _generate_suggestions ["temperature"] ["planet temperature K"; "zzz"] !! "temperature"
  = Some ["planet temperature K"]
  /\ ("temperature" ∈ ["temperature"]
      /\ 1 <= List.length ["planet temperature K"] <= 3
      /\ forall h, h ∈ ["planet temperature K"] ->
           h ∈ ["planet temperature K"; "zzz"]
           /\ suggests (synonyms_of COLUMN_MAPPINGS "temperature") h = true).
Proof.
  assert (E : _generate_suggestions ["temperature"] ["planet temperature K"; "zzz"]
              !! "temperature" = Some ["planet temperature K"]).
  { vm_compute. reflexivity. }
  split; [exact E |].
  exact (suggestions_shape ["temperature"] ["planet temperature K"; "zzz"]
           "temperature" ["planet temperature K"] E).
Defined.

End DetectionMore.

(** ** More on scoring *)

Section ScoringMore.

Import Scoring Fixtures.
Local Open Scope Q_scope.
Context `{PyBuiltins}.

(** X6. [score_target] returns a result exactly when the models are loaded
    and the target has a distance and a planet radius; without models it
    answers 503, and with models but without one of the two numbers it
    answers 500. No other field can make it fail. *)
Theorem score_target_outcomes (eng : HWOScoringEngine) (t : ExoplanetTarget) :
  ((exists r, score_target eng t = Ok r)
   <-> models_loaded eng = true
       /\ is_Some (distance t) /\ is_Some (planet_radius t))
  /\ ((exists d, score_target eng t = Raise {| status_code := 503; detail := d |})
      <-> models_loaded eng = false)
  /\ ((exists d, score_target eng t = Raise {| status_code := 500; detail := d |})
      <-> models_loaded eng = true
          /\ (distance t = None \/ planet_radius t = None)).
Proof.
  unfold score_target, score_body.
  destruct (models_loaded eng); cbn [negb bind].
  - destruct (distance t) as [d |]; cbn [need bind];
      [destruct (planet_radius t) as [r |]; cbn [need bind] |].
    + split; [| split].
      * split; [intros _; repeat split; eauto | intros _; eexists; reflexivity].
      * split; [intros [? ?]; discriminate | discriminate].
      * split; [intros [? ?]; discriminate | intros [_ [? | ?]]; discriminate].
    + split; [| split].
      * split; [intros [? ?]; discriminate | intros (_ & _ & [? ?]); discriminate].
      * split; [intros [? [= ?]] | discriminate].
      * split; [intros _; split; [reflexivity | now right]
               | intros _; eexists; reflexivity].
    + split; [| split].
      * split; [intros [? ?]; discriminate | intros (_ & [? ?] & _); discriminate].
      * split; [intros [? [= ?]] | discriminate].
      * split; [intros _; split; [reflexivity | now left]
               | intros _; eexists; reflexivity].
  - split; [| split].
    + split; [intros [? ?]; discriminate | intros [? _]; discriminate].
    + split; [reflexivity | intros _; eexists; reflexivity].
    + split; [intros [? [= ?]] | intros [? _]; discriminate].
Qed.

Lemma encode_star_type_bounds (star_type : option string) :
  1 # 10 <= _encode_star_type star_type <= 1.
Proof.
  unfold _encode_star_type.
  destruct star_type as [s |]; [| split; discriminate].
  destruct (main_type s) as [c |]; [| split; discriminate].
  apply get_letter_bounds; [| split; discriminate].
  repeat constructor; discriminate.
Qed.

(** What [score_target] puts into the breakdown. *)
Lemma score_target_breakdown (eng : HWOScoringEngine) (t : ExoplanetTarget)
    (r : ScoringResult) :
  score_target eng t = Ok r ->
  exists d pr,
    distance t = Some d /\ planet_radius t = Some pr
    /\ target_name r = name t
    /\ ai_confidence r = round1 (_calculate_confidence t ∅)
    /\ detailed_scores r
       = <["data_quality_factor" := _encode_data_quality (data_quality t) * 100]>
           (<["planet_size_factor" :=
                py_min 100 (100 / (Qabs (pr * (112 # 10) - 1) + 1))]>
              (<["star_type_factor" := _encode_star_type (star_type t) * 100]>
                 (<["distance_factor" := py_min 100 (py_max 0 (100 - d))]> ∅))).
Proof.
  unfold score_target, score_body.
  destruct (models_loaded eng); cbn [negb bind]; [| discriminate].
  destruct (distance t) as [d |]; cbn [need bind]; [| discriminate].
  destruct (planet_radius t) as [pr |]; cbn [need bind]; [| discriminate].
  intros [= <-]. exists d, pr. cbn. repeat split; reflexivity.
Qed.

(** X7. The breakdown of a returned result has exactly the four keys
    distance, star type, planet size and data quality, and each of the four
    values lies in [0, 100]. *)
Theorem detailed_scores_bounds (eng : HWOScoringEngine) (t : ExoplanetTarget)
    (r : ScoringResult) :
  score_target eng t = Ok r ->
  dom (detailed_scores r)
  = ({["distance_factor"; "star_type_factor"; "planet_size_factor";
       "data_quality_factor"]} : gset string)
  /\ forall key v, detailed_scores r !! key = Some v -> 0 <= v <= 100.
Proof.
  intro E. destruct (score_target_breakdown eng t r E) as (d & pr & _ & _ & _ & _ & ->).
  split.
  - rewrite !dom_insert_L, dom_empty_L. set_solver.
  - intros key v L.
    repeat (apply lookup_insert_Some in L as [[_ <-] | [_ L]]);
      [ | | | | rewrite lookup_empty in L; discriminate ].
    + pose proof (data_quality_bounds (data_quality t)). lra.
    + assert (P : 0 < Qabs (pr * (112 # 10) - 1) + 1).
      { pose proof (Qabs_nonneg (pr * (112 # 10) - 1)). lra. }
      assert (Q : 0 <= 100 / (Qabs (pr * (112 # 10) - 1) + 1)).
      { apply Qle_shift_div_l; [exact P | lra]. }
      destruct (py_min_spec 100 (100 / (Qabs (pr * (112 # 10) - 1) + 1)))
        as [[A ->] | [A ->]]; lra.
    + pose proof (encode_star_type_bounds (star_type t)). lra.
    + destruct (py_min_spec 100 (py_max 0 (100 - d))) as [[A ->] | [A ->]];
        destruct (py_max_spec 0 (100 - d)) as [[B B'] | [B B']];
        rewrite ?B' in *; lra.
Qed.

(** X8. The confidence of a returned result is 32 plus 10 for each of the
    six fields distance, star type, planet radius, orbital period, stellar
    mass and data quality that is set: it depends on which fields are
    present, not on their values nor on the engine. *)
Theorem ai_confidence_counts_fields (eng : HWOScoringEngine) (t : ExoplanetTarget)
    (r : ScoringResult) :
  score_target eng t = Ok r ->
  ai_confidence r == inject_Z (32 + 10 * fields_present t)
  /\ 52 <= ai_confidence r <= 92.
Proof.
  intro E. destruct (score_target_breakdown eng t r E) as (d & pr & D & P & _ & -> & _).
  unfold _calculate_confidence, fields_present. rewrite lookup_empty, D, P.
  destruct (star_type t), (orbital_period t), (stellar_mass t), (data_quality t);
    vm_compute; (split; [reflexivity | split; discriminate]).
Qed.

(** *** The distance factor *)

Lemma shifts_id : shifts (fun a => a) 0 0.
Proof. intro a. split; ring. Qed.

Lemma shifts_add (s w : Q) : shifts (fun a => add_factor a s w) (s * w) w.
Proof. intro a. unfold add_factor. cbn [fst snd]. split; reflexivity. Qed.

Lemma shifts_compose (f g : tally -> tally) (c1 w1 c2 w2 : Q) :
  shifts f c1 w1 -> shifts g c2 w2 -> shifts (fun a => g (f a)) (c1 + c2) (w1 + w2).
Proof.
  intros F G a. destruct (G (f a)) as [G1 G2], (F a) as [F1 F2].
  rewrite G1, G2, F1, F2. split; ring.
Qed.

Lemma add_factor_from_zero (s w : Q) :
  add_factor (0, 0) s w = (0, 0)
  \/ (tally_ok (add_factor (0, 0) s w) /\ 0 < (add_factor (0, 0) s w).2) ->
  0 <= s * w /\ 0 <= w.
Proof.
  unfold add_factor, tally_ok. cbn [fst snd].
  intros [E | [(A1 & A2 & A3) P]]; [| lra].
  pose proof (f_equal fst E) as E1. pose proof (f_equal snd E) as E2.
  cbn [fst snd] in E1, E2.
  assert (X : 0 + s * w == 0) by (rewrite E1; reflexivity).
  assert (Y : 0 + w == 0) by (rewrite E2; reflexivity).
  lra.
Qed.

Lemma zero_tally_ok : tally_ok (0, 0).
Proof. repeat split; discriminate. Qed.

Lemma later_factors_shift (t : ExoplanetTarget) :
  exists c w, 0 <= c /\ 0 <= w /\ shifts (fun a => later_factors a t) c w.
Proof.
  assert (S1 : exists c w, 0 <= c /\ 0 <= w
                           /\ shifts (fun a => star_type_factor a t) c w).
  { pose proof (star_type_factor_ok (0, 0) t zero_tally_ok) as K.
    unfold star_type_factor in *. destruct (string_truthy (star_type t));
      [| exists 0, 0; split; [discriminate | split; [discriminate | apply shifts_id]]].
    destruct (main_type _) as [ch |];
      [| exists 0, 0; split; [discriminate | split; [discriminate | apply shifts_id]]].
    apply add_factor_from_zero in K as [K1 K2].
    eexists _, _. split; [exact K1 |]. split; [exact K2 | apply shifts_add]. }
  assert (S2 : exists c w, 0 <= c /\ 0 <= w
                           /\ shifts (fun a => planet_size_factor a t) c w).
  { pose proof (planet_size_factor_ok (0, 0) t zero_tally_ok) as K.
    unfold planet_size_factor in *. destruct (planet_radius t) as [pr |];
      [| exists 0, 0; split; [discriminate | split; [discriminate | apply shifts_id]]].
    apply add_factor_from_zero in K as [K1 K2].
    eexists _, _. split; [exact K1 |]. split; [exact K2 | apply shifts_add]. }
  assert (S3 : exists c w, 0 <= c /\ 0 <= w
                           /\ shifts (fun a => data_quality_factor a t) c w).
  { pose proof (data_quality_factor_ok (0, 0) t zero_tally_ok) as K.
    unfold data_quality_factor in *. destruct (string_truthy (data_quality t));
      [| exists 0, 0; split; [discriminate | split; [discriminate | apply shifts_id]]].
    apply add_factor_from_zero in K as [K1 K2].
    eexists _, _. split; [exact K1 |]. split; [exact K2 | apply shifts_add]. }
  assert (S4 : exists c w, 0 <= c /\ 0 <= w
                           /\ shifts (fun a => stellar_mass_factor a t) c w).
  { pose proof (stellar_mass_factor_ok (0, 0) t zero_tally_ok) as K.
    unfold stellar_mass_factor in *. destruct (stellar_mass t) as [m |];
      [| exists 0, 0; split; [discriminate | split; [discriminate | apply shifts_id]]].
    apply add_factor_from_zero in K as [K1 K2].
    eexists _, _. split; [exact K1 |]. split; [exact K2 | apply shifts_add]. }
  destruct S1 as (c1 & w1 & C1 & W1 & F1), S2 as (c2 & w2 & C2 & W2 & F2),
    S3 as (c3 & w3 & C3 & W3 & F3), S4 as (c4 & w4 & C4 & W4 & F4).
  exists (c1 + c2 + c3 + c4), (w1 + w2 + w3 + w4).
  split; [lra |]. split; [lra |]. unfold later_factors.
  exact (shifts_compose _ _ _ _ _ _
           (shifts_compose _ _ _ _ _ _ (shifts_compose _ _ _ _ _ _ F1 F2) F3) F4).
Qed.

Lemma distance_score_antitone (d1 d2 : Q) :
  d1 <= d2 -> distance_score d2 <= distance_score d1 /\ 0 <= distance_score d2.
Proof.
  intro L. unfold distance_score.
  destruct (Qltb_spec 5 d1), (Qltb_spec 5 d2);
    repeat match goal with
           | |- context [py_max 0 ?x] =>
               let A := fresh in let E := fresh in
               destruct (py_max_spec 0 x) as [[A E] | [A E]]; rewrite E
           end; split; try discriminate; qlra.
Qed.

Lemma score_with_distance (t : ExoplanetTarget) (d : Q) :
  d <= 50 ->
  exists c w, 0 <= c /\ 0 <= w
    /\ _calculate_characterization_score (set_distance t (Some d))
       == (distance_score d * (3 # 10) + c) / ((3 # 10) + w) * 100
    /\ forall d', d' <= 50 ->
         _calculate_characterization_score (set_distance t (Some d'))
         == (distance_score d' * (3 # 10) + c) / ((3 # 10) + w) * 100.
Proof.
  intro L. destruct (later_factors_shift t) as (c & w & C & W & S).
  exists c, w. split; [exact C |]. split; [exact W |].
  assert (G : forall x, x <= 50 ->
            _calculate_characterization_score (set_distance t (Some x))
            == (distance_score x * (3 # 10) + c) / ((3 # 10) + w) * 100).
  { intros x X. unfold _calculate_characterization_score, characterization_tally.
    change (stellar_mass_factor _ (set_distance t (Some x)))
      with (later_factors (distance_factor (0, 0) (set_distance t (Some x))) t).
    unfold distance_factor. cbn [distance set_distance].
    destruct (Qleb_spec x 50) as [_ | B]; [| lra].
    fold (distance_score x).
    destruct (S (add_factor (0, 0) (distance_score x) (3 # 10))) as [S1 S2].
    unfold add_factor in S1, S2. cbn [fst snd] in S1, S2.
    destruct (Qltb_spec 0
                (later_factors (add_factor (0, 0) (distance_score x) (3 # 10)) t).2)
      as [P | P].
    - unfold add_factor. rewrite S1, S2.
      rewrite !Qplus_0_l. reflexivity.
    - unfold add_factor in P. rewrite S2 in P. lra. }
  split; [exact (G d L) | exact G].
Qed.

(** X9. Within 50 pc a closer target never scores lower: of two targets
    that differ only in their distance, at most 50 pc for both, the nearer
    one has a characterization score at least as high. Beyond 50 pc the
    distance is not weighed at all: the score is that of the same target
    without a distance. *)
Theorem closer_is_never_worse (t : ExoplanetTarget) (d1 d2 : Q) :
  d1 <= d2 -> d2 <= 50 ->
  _calculate_characterization_score (set_distance t (Some d2))
  <= _calculate_characterization_score (set_distance t (Some d1))
  /\ forall d, 50 < d ->
       _calculate_characterization_score (set_distance t (Some d))
       = _calculate_characterization_score (set_distance t None).
Proof.
  intros L U. split.
  - destruct (score_with_distance t d2 U) as (c & w & C & W & _ & G).
    rewrite (G d2 U), (G d1) by lra.
    destruct (distance_score_antitone d1 d2 L) as [A B].
    assert (P : 0 < (3 # 10) + w) by lra.
    apply Qmult_le_compat_r; [| discriminate].
    apply Qmult_le_compat_r; [lra |].
    apply Qlt_le_weak, Qinv_lt_0_compat, P.
  - intros d D.
    unfold _calculate_characterization_score, characterization_tally, distance_factor.
    cbn [distance set_distance].
    destruct (Qleb_spec d 50); [lra | reflexivity].
Qed.

End ScoringMore.

Section ScoringMoreExamples.

Import Scoring Fixtures.
Local Open Scope Q_scope.

Lemma detailed_scores_bounds_on_nearby_earth :
  exists r,
    score_target (H := Sample.builtins) bare_engine nearby_earth = Ok r
    /\ (dom (detailed_scores r)
        = ({["distance_factor"; "star_type_factor"; "planet_size_factor";
             "data_quality_factor"]} : gset string)
        /\ forall key v, detailed_scores r !! key = Some v -> 0 <= v <= 100).
Proof.
  eexists. split; [reflexivity |].
  apply (detailed_scores_bounds (H := Sample.builtins) bare_engine nearby_earth).
  reflexivity.
Defined.

Lemma ai_confidence_counts_fields_on_nearby_earth :
  exists r,
    score_target (H := Sample.builtins) bare_engine nearby_earth = Ok r
    /\ (ai_confidence r == inject_Z (32 + 10 * fields_present nearby_earth)
        /\ 52 <= ai_confidence r <= 92).
Proof.
  eexists. split; [reflexivity |].
  apply (ai_confidence_counts_fields (H := Sample.builtins) bare_engine nearby_earth).
  reflexivity.
Defined.

Lemma closer_is_never_worse_at_ten_and_forty :
  (10 <= 40 /\ 40 <= 50)
  /\ (_calculate_characterization_score (set_distance nearby_earth (Some 40))
      <= _calculate_characterization_score (set_distance nearby_earth (Some 10))
      /\ forall d, 50 < d ->
           _calculate_characterization_score (set_distance nearby_earth (Some d))
           = _calculate_characterization_score (set_distance nearby_earth None)).
Proof.
  split; [split; discriminate |].
  apply (closer_is_never_worse nearby_earth 10 40); discriminate.
Defined.

End ScoringMoreExamples.

(** ** The batch endpoint and more on the upload pipeline *)

Section BatchAndUpload.

Import Scoring Upload Fixtures.
Local Open Scope list_scope.
Context `{PyBuiltins}.

Lemma score_each_accounts (eng : HWOScoringEngine) (todo : list ExoplanetTarget) :
  forall results errors,
    List.length (Batch.score_each eng todo results errors).1
    + List.length (Batch.score_each eng todo results errors).2
    = List.length results + List.length errors + List.length todo.
Proof.
  induction todo as [| t todo IH]; intros results errors;
    cbn [Batch.score_each List.length fst snd]; [lia |].
  destruct (score_target eng t); rewrite IH, length_app; cbn [List.length]; lia.
Qed.

Lemma score_each_validated (eng : HWOScoringEngine) (todo : list ExoplanetTarget) :
  models_loaded eng = true ->
  Forall (fun t => validated t = true) todo ->
  forall results errors,
    exists new,
      Batch.score_each eng todo results errors = (results ++ new, errors)
      /\ List.map target_name new = List.map name todo.
Proof.
  intros L F. induction F as [| t todo V _ IH]; intros results errors;
    cbn [Batch.score_each].
  - exists []. now rewrite app_nil_r.
  - destruct (score_target_total eng t V L) as [r E]. rewrite E.
    destruct (IH (results ++ [r]) errors) as [new [-> N]].
    exists (r :: new). rewrite <- app_assoc. split; [reflexivity |].
    cbn [List.map]. rewrite N.
    destruct (score_target_breakdown eng t r E) as (_ & _ & _ & _ & -> & _).
    reflexivity.
Qed.

(** X10. Without models the batch endpoint answers 503 for the whole
    request. With models it always answers: every target is counted once,
    as a success or as a failure, and when all targets are validated there
    is no failure and the results follow the order of the request. *)
Theorem batch_accounting (eng : HWOScoringEngine) (targets : list ExoplanetTarget) :
  (models_loaded eng = false ->
   Batch.score_multiple_targets eng targets
   = Raise {| status_code := 503; detail := "ML models not available" |})
  /\ (models_loaded eng = true ->
      exists response,
        Batch.score_multiple_targets eng targets = Ok response
        /\ Batch.total_targets response = List.length targets
        /\ Batch.successful_scores response + Batch.failed_scores response
           = Batch.total_targets response
        /\ (Forall (fun t => validated t = true) targets ->
            Batch.batch_errors response = []
            /\ List.map target_name (Batch.batch_results response)
               = List.map name targets)).
Proof.
  unfold Batch.score_multiple_targets. split; intros L; rewrite L; cbn [negb];
    [reflexivity |].
  pose proof (score_each_accounts eng targets [] []) as A.
  destruct (Batch.score_each eng targets [] []) as [results errors] eqn:E.
  cbn [fst snd List.length] in A.
  eexists. split; [reflexivity |].
  cbn [Batch.total_targets Batch.successful_scores Batch.failed_scores
       Batch.batch_errors Batch.batch_results].
  split; [reflexivity |]. split; [lia |].
  intro F. destruct (score_each_validated eng targets L F [] []) as [new [E' N]].
  rewrite E in E'. injection E' as -> ->. split; [reflexivity | exact N].
Qed.

(** *** The row loop *)





(** *** Converted targets *)

Lemma optional_number_cases {A : Type} (convert : value -> result exn A)
    (cell : option value) :
  (exists x, optional_number convert cell = Ok x)
  \/ (exists e, optional_number convert cell = Raise e).
Proof. destruct (optional_number convert cell); eauto. Qed.



(** Every target of the loop comes from a row of the table, and the entry
    of [original_rows] at its place is the original data of this row. *)
Lemma convert_rows_provenance (df : DataFrame) (todo : list (gmap string value)) :
  forall index st,
    (forall j row, todo !! j = Some row -> rows df !! (index + j) = Some row) ->
    Forall2 (converted_from df) (targets st) (original_rows st) ->
    Forall2 (converted_from df)
      (targets (convert_rows df (ColumnDetector.detect_columns (columns df)).1
                  index todo st))
      (original_rows (convert_rows df (ColumnDetector.detect_columns (columns df)).1
                        index todo st)).
Proof.
  induction todo as [| row rest IH]; intros index st R F; cbn [convert_rows];
    [exact F |].
  assert (R' : forall j r, rest !! j = Some r -> rows df !! (S index + j) = Some r).
  { intros j r X. replace (S index + j) with (index + S j) by lia. now apply R. }
  destruct (convert_row df _ index row) as [t | e] eqn:E.
  - apply IH; [exact R' |]. cbn [targets original_rows].
    apply Forall2_app; [exact F |]. constructor; [| constructor].
    exists index, row. split; [| split; [exact E | reflexivity]].
    rewrite <- (Nat.add_0_r index). apply R. reflexivity.
  - destruct (caught e); [| exact F].
    destruct (Nat.ltb 10 _); [exact F | apply IH; [exact R' | exact F]].
Qed.

Lemma conversion_provenance (df : DataFrame) :
  Forall2 (converted_from df) (targets (conversion_of df))
    (original_rows (conversion_of df)).
Proof.
  apply convert_rows_provenance; [intros j row X; exact X | constructor].
Qed.


(** *** The scoring loop of the upload *)

Lemma score_targets_accounts (eng : HWOScoringEngine)
    (originals : list (gmap string value)) (todo : list ExoplanetTarget) :
  forall i st,
    calls (score_targets eng originals i todo st) = calls st ++ todo
    /\ List.length (scored (score_targets eng originals i todo st))
       + List.length (score_errors (score_targets eng originals i todo st))
       = List.length (scored st) + List.length (score_errors st) + List.length todo.
Proof.
  induction todo as [| t todo IH]; intros i st; cbn [score_targets List.length].
  - rewrite app_nil_r. split; [reflexivity | lia].
  - destruct (score_target eng t);
      match goal with
      | |- context [score_targets eng originals (S i) todo ?s] =>
          destruct (IH (S i) s) as [C A]
      end;
      rewrite C, A; cbn [calls scored score_errors];
      rewrite <- ?app_assoc, ?length_app; cbn [List.length app]; split;
      reflexivity || lia.
Qed.

(** Every result of the loop is the result of [score_target] on its
    target, with the original row of this target. *)
Lemma score_targets_provenance (eng : HWOScoringEngine) (df : DataFrame)
    (originals : list (gmap string value)) (todo : list ExoplanetTarget) :
  forall i st,
    (forall j t, todo !! j = Some t ->
       exists o, originals !! (i + j) = Some o /\ converted_from df t o) ->
    Forall (scored_from eng df) (scored st) ->
    Forall (scored_from eng df) (scored (score_targets eng originals i todo st)).
Proof.
  induction todo as [| t todo IH]; intros i st R F; cbn [score_targets];
    [exact F |].
  apply IH.
  - intros j u X. replace (S i + j) with (i + S j) by lia. now apply R.
  - destruct (score_target eng t) as [r | e] eqn:E; cbn [scored]; [| exact F].
    apply Forall_app. split; [exact F |]. constructor; [| constructor].
    destruct (R 0 t eq_refl) as (o & O & P). rewrite Nat.add_0_r in O. rewrite O.
    exists t, o, r. repeat split; assumption.
Qed.



(** X14. In a response of the upload, [score_target] was called once on
    each converted target, in order; every target is counted as a success
    or as a failure, [valid_targets] and [total_targets] are the number of
    converted targets, which is not zero, and every result is the result
    of [score_target] on a target converted from a row of the table, with
    the original data of this very row as its [original_data]. *)
Theorem upload_response_accounting (eng : HWOScoringEngine) (df : DataFrame)
    (response : BatchScoringResponse) (called : list ExoplanetTarget) :
  upload_csv_targets eng df = (Ok response, called) ->
  called = targets (conversion_of df)
  /\ total_targets (processing_summary response) = List.length called
  /\ valid_targets (processing_summary response) = List.length called
  /\ 0 < List.length called
  /\ successful_scores (processing_summary response)
     + failed_scores (processing_summary response)
     = total_targets (processing_summary response)
  /\ successful_scores (processing_summary response) = List.length (results response)
  /\ Forall (scored_from eng df) (results response).
Proof.
  unfold upload_csv_targets. destruct (empty df); [discriminate |].
  destruct (missing_required_of df); [| discriminate].
  pose proof (conversion_provenance df) as L.
  destruct (aborted (conversion_of df)); [discriminate |].
  destruct (targets (conversion_of df)) as [| t ts] eqn:T; [discriminate |].
  pose proof (score_targets_accounts eng (original_rows (conversion_of df)) (t :: ts) 0
                {| scored := []; score_errors := []; calls := [] |}) as [C A].
  assert (O : Forall (scored_from eng df)
                (scored (score_targets eng (original_rows (conversion_of df)) 0 (t :: ts)
                           {| scored := []; score_errors := []; calls := [] |}))).
  { apply score_targets_provenance; [| constructor].
    intros j u X. cbn [Nat.add].
    destruct (Forall2_lookup_l _ _ _ _ _ L X) as (o & O & P). eauto. }
  cbv zeta.
  set (s := score_targets eng (original_rows (conversion_of df)) 0 (t :: ts)
              {| scored := []; score_errors := []; calls := [] |}) in *.
  clearbody s. cbn [calls scored score_errors List.length app] in C, A.
  intros [= <- <-].
  cbn [processing_summary total_targets valid_targets successful_scores
       failed_scores results].
  rewrite C. cbn [List.length]. repeat split; try lia. exact O.
Qed.


End BatchAndUpload.

Section BatchAndUploadExamples.

Import Scoring Upload Fixtures.
Local Open Scope list_scope.



Lemma upload_response_accounting_on_one_row :
  exists response called,
    upload_csv_targets (H := Sample.builtins) bare_engine single_row
    = (Ok response, called)
    /\ (called = targets (conversion_of (H := Sample.builtins) single_row)
        /\ total_targets (processing_summary response) = List.length called
        /\ valid_targets (processing_summary response) = List.length called
        /\ 0 < List.length called
        /\ successful_scores (processing_summary response)
           + failed_scores (processing_summary response)
           = total_targets (processing_summary response)
        /\ successful_scores (processing_summary response)
           = List.length (results response)
        /\ Forall (scored_from (H := Sample.builtins) bare_engine single_row)
             (results response)).
Proof.
  eexists _, _.
  assert (E : upload_csv_targets (H := Sample.builtins) bare_engine single_row
              = (Ok ?[response], ?[called])) by (vm_compute; reflexivity).
  split; [exact E |].
  exact (upload_response_accounting (H := Sample.builtins) bare_engine single_row
           _ _ E).
Defined.


(** Without models the upload of one good line answers with a response
    that has no result and one failure. *)
Example upload_without_models :
  exists response,
    (upload_csv_targets (H := Sample.builtins) unloaded_engine single_row).1
    = Ok response
    /\ results response = []
    /\ failed_scores (processing_summary response) = 1
    /\ errors (processing_summary response)
       = [("Earth", "503: ML models not available")].
Proof. eexists. split; [vm_compute; reflexivity |]. repeat split. Qed.

End BatchAndUploadExamples.

(** ** More on observability *)

Section ObservabilityMore.

Import Observability Planets.
Local Open Scope Q_scope.
Context `{PyBuiltins}.

Lemma planet_dict_has_no_catalogue_key (p : Planet) (key : string) :
  key ∈ ["pl_orbsmax"; "pl_orbper"; "sy_dist"; "pl_rade"] ->
  dict p !! key = None.
Proof.
  intro K. unfold dict.
  repeat (rewrite lookup_insert_ne;
          [| intros <-; revert K; apply (bool_decide_unpack _); vm_compute; reflexivity]).
  apply lookup_empty.
Qed.

(** The dictionary of a [Planet] has the keys [radius], [distance] and
    [orbital_period], none of the keys that [compute_observability] reads:
    the function computes what it computes for the empty record. *)
Lemma dict_observability (p : Planet) (params : ObservabilityParams) :
  compute_observability (dict p) params = compute_observability ∅ params.
Proof.
  unfold compute_observability, semi_major_axis_of.
  rewrite !planet_dict_has_no_catalogue_key, !lookup_empty;
    [reflexivity | ..]; apply (bool_decide_unpack _); vm_compute; reflexivity.
Qed.

(** X16. The [hwo] block that [planet_hwo_details] returns does not depend
    on the planet: it is the observability of the empty record (365-day
    orbit, 10 pc, 1 Earth radius), because the dictionary of a [Planet] has
    the keys [radius], [distance] and [orbital_period] and none of the keys
    [pl_rade], [sy_dist], [pl_orbper] and [pl_orbsmax] that
    [compute_observability] reads. The planet returned is the first one
    with the requested identifier. *)
Theorem planet_records_are_ignored (planets : list Planet) (planet_id : string)
    (params : ObservabilityParams) (p : Planet) (details : Observability) :
  planet_hwo_details planets planet_id params = Some (Ok (p, details)) ->
  id p = planet_id
  /\ p ∈ planets
  /\ compute_observability ∅ params = Ok details.
Proof.
  induction planets as [| q planets IH]; cbn [planet_hwo_details]; [discriminate |].
  destruct (String.eqb (id q) planet_id) eqn:Q.
  - rewrite dict_observability.
    destruct (compute_observability ∅ params) as [res | e]; cbn [bind];
      intros [= <- <-].
    split; [apply String.eqb_eq, Q |]. split; [left | reflexivity].
  - intro E. destruct (IH E) as (I & M & C).
    split; [exact I |]. split; [right; exact M | exact C].
Qed.

Lemma count_observable_all_alike (planets : list Planet)
    (params : ObservabilityParams) (threshold : Q) :
  forall count total c n,
    count_observable planets params threshold count total = Ok (c, n) ->
    n = (total + List.length planets)%nat
    /\ match planets with
       | [] => c = count
       | _ :: _ =>
           exists res, compute_observability ∅ params = Ok res
             /\ c = if reaches (observability_score res) threshold
                    then (count + List.length planets)%nat else count
       end.
Proof.
  induction planets as [| p planets IH]; intros count total c n E;
    cbn [count_observable List.length] in *.
  - injection E as <- <-. split; [lia | reflexivity].
  - rewrite dict_observability in E.
    destruct (compute_observability ∅ params) as [res | e] eqn:R;
      cbn [bind] in E; [| discriminate].
    apply IH in E as [N C]. split; [lia |]. exists res. split; [reflexivity |].
    destruct planets as [| q planets].
    + subst c. cbn [List.length]. destruct (reaches _ _); lia.
    + destruct C as [res' [R' C]]. assert (res' = res) as -> by congruence.
      subst c. cbn [List.length]. destruct (reaches _ _); lia.
Qed.

(** X17. [observable_count] over [Planet] records is all or nothing: the
    total is the number of planets and the count is either zero or the
    total, since every planet gets the same score. *)
Theorem observable_count_all_or_nothing (planets : list Planet)
    (params : ObservabilityParams) (threshold : Q) (count total : nat) :
  observable_count planets params threshold = Ok (count, total) ->
  total = List.length planets /\ (count = 0%nat \/ count = total).
Proof.
  unfold observable_count. intro E.
  apply count_observable_all_alike in E as [N C]. split; [exact N |].
  destruct planets as [| p planets]; [left; exact C |].
  destruct C as [res [_ C]]. destruct (reaches _ _); [right | left]; lia.
Qed.

(** X18. A record that has a textual orbital period and no semi-major
    axis, as every row read from a CSV file with a [pl_orbper] column and no
    [pl_orbsmax] column, makes [compute_observability] raise a [TypeError]:
    the power is applied to the text before any conversion. *)
Theorem textual_period_raises (planet : gmap string value)
    (params : ObservabilityParams) (period : string) :
  planet !! "pl_orbsmax" = None ->
  planet !! "pl_orbper" = Some (VStr period) ->
  exists what, compute_observability planet params = Raise (TypeError what).
Proof.
  intros A P. unfold compute_observability, semi_major_axis_of.
  rewrite A, P. eexists. reflexivity.
Qed.

(** X19. [score_batch] is all or nothing: it returns a list exactly when
    [compute_observability] returns on every record, and the list then
    holds the results record by record, in order. *)
Theorem score_batch_all_or_nothing (planets : list (gmap string value))
    (params : ObservabilityParams) (results : list Observability) :
  score_batch planets params = Ok results
  <-> Forall2 (fun p r => compute_observability p params = Ok r) planets results.
Proof.
  revert results. induction planets as [| p planets IH]; intro results;
    cbn [score_batch].
  - split; [intros [= <-]; constructor | intro F; inversion F; reflexivity].
  - destruct (compute_observability p params) as [r | e] eqn:E; cbn [bind].
    + destruct (score_batch planets params) as [rs | e] eqn:S; cbn [bind].
      * split.
        -- intros [= <-]. constructor; [exact E | now apply IH].
        -- intro F. inversion F as [| ? r' ? rs' E' F']; subst.
           rewrite E in E'. injection E' as <-.
           apply IH in F'. injection F' as <-. reflexivity.
      * split; [discriminate |].
        intro F. inversion F as [| ? r' ? rs' E' F']; subst.
        apply IH in F'. discriminate F'.
    + split; [discriminate |].
      intro F. inversion F as [| ? r' ? rs' E' F']; subst.
      rewrite E in E'. discriminate E'.
Qed.

(** X20. A record whose distance is not positive is not rejected for it.
    When the record is readable and within the range,
    [compute_observability] returns on it; and whenever it returns on such
    a record, the guards give separation 0, an infinite required diameter
    and an inner-working-angle score of 0, and the comparison with the
    infinite diameter counts the telescope term in full, so the
    observability score is 0.2 plus 0.4 times the spectroscopic score,
    never below 0.2. *)
Theorem nonpositive_distance_scores (planet : gmap string value)
    (params : ObservabilityParams) (d : Q) :
  py_float (default (VFloat 10) (planet !! "sy_dist")) = Ok d ->
  d <= 0 ->
  (readable planet = true ->
   in_range planet params = true ->
   exists r, compute_observability planet params = Ok r)
  /\ (forall r,
        compute_observability planet params = Ok r ->
        separation_mas r = 0
        /\ required_diameter_m r = PInf
        /\ iwa_score r = 0
        /\ exists q,
             observability_score r = Fin q
             /\ q == (2 # 10) + (4 # 10) * spectroscopic_score r
             /\ 2 # 10 <= q).
Proof.
  intros D L. split; [apply compute_observability_returns |].
  intros r. unfold compute_observability.
  destruct (semi_major_axis_of planet) as [a |]; cbn [bind]; [| discriminate].
  rewrite D. cbn [bind].
  destruct (py_float (default (VFloat 1) (planet !! "pl_rade"))) as [radius |];
    cbn [bind]; [| discriminate].
  destruct (planet_star_contrast_ratio radius (3 # 10)) as [c |];
    cbn [bind]; [| discriminate].
  destruct (spectroscopic_feasibility c (contrast_sensitivity params)) as [spec |] eqn:S;
    cbn [bind]; [| discriminate].
  pose proof (spectroscopic_feasibility_unit _ _ _ S) as B.
  assert (Z : angular_separation_mas a d = 0).
  { unfold angular_separation_mas. destruct (Qleb_spec d 0); [reflexivity | lra]. }
  rewrite Z.
  assert (Q1 : required_telescope_diameter_m 0 (wavelength_band params) 2 = PInf)
    by reflexivity.
  rewrite Q1.
  assert (I : iwa_check_score 0 (inner_working_angle_mas params) = 0).
  { unfold iwa_check_score. destruct (Qleb _ 0); reflexivity. }
  rewrite I.
  cbn [XFloat.sub XFloat.neg XFloat.add XFloat.max XFloat.lt XFloat.div bind].
  change (XFloat.max (Fin 0) NaN) with (Fin 0).
  cbn [XFloat.sub XFloat.neg XFloat.add].
  change (XFloat.max (Fin 0) (Fin (1 + - 0))) with (Fin (1 + - 0)).
  cbn [XFloat.mul XFloat.add].
  set (c' := (4 # 10) * 0 + (4 # 10) * spec + (2 # 10) * (1 + - 0)).
  assert (C : c' == (2 # 10) + (4 # 10) * spec) by (unfold c'; ring).
  assert (M1 : XFloat.min (Fin 1) (Fin c') = Fin c').
  { unfold XFloat.min. cbn [XFloat.lt]. destruct (Qltb_spec c' 1); [reflexivity | lra]. }
  assert (M2 : XFloat.max (Fin 0) (Fin c') = Fin c').
  { unfold XFloat.max. cbn [XFloat.lt]. destruct (Qltb_spec 0 c'); [reflexivity | lra]. }
  intros [= <-].
  cbn [separation_mas required_diameter_m iwa_score observability_score
       spectroscopic_score].
  rewrite M1, M2. repeat split. exists c'. repeat split; [exact C | lra].
Qed.

(** X21. With a positive inner working angle and a positive separation,
    the inner-working-angle score is the ratio of the two minus one half,
    cut to [0, 1]: 0 up to half the angle, 1 from one and a half times the
    angle on, and 0.5 when the separation equals the angle. *)
Theorem iwa_check_score_shape (separation iwa : Q) :
  0 < iwa -> 0 < separation ->
  (separation <= iwa / 2 -> iwa_check_score separation iwa == 0)
  /\ (iwa / 2 <= separation -> separation <= 3 * iwa / 2 ->
      iwa_check_score separation iwa == separation / iwa - (1 # 2))
  /\ (3 * iwa / 2 <= separation -> iwa_check_score separation iwa == 1)
  /\ iwa_check_score iwa iwa == 1 # 2.
Proof.
  intros I S.
  assert (G : forall s, 0 < s ->
            iwa_check_score s iwa = py_max 0 (py_min 1 (s / iwa - (5 # 10)))).
  { intros s P. unfold iwa_check_score.
    destruct (Qleb_spec iwa 0); [lra |]. destruct (Qleb_spec s 0); [lra | reflexivity]. }
  assert (Up : forall k, separation <= k * iwa -> separation / iwa <= k).
  { intros k X. apply Qle_shift_div_r; [exact I | exact X]. }
  assert (Lo : forall k, k * iwa <= separation -> k <= separation / iwa).
  { intros k X. apply Qle_shift_div_l; [exact I | exact X]. }
  assert (U : iwa / iwa == 1) by (apply Qmult_inv_r; lra).
  rewrite !G by assumption.
  repeat split.
  - intro L. assert (X : separation / iwa <= 1 # 2) by (apply Up; qlra).
    destruct (py_min_spec 1 (separation / iwa - (5 # 10))) as [[B ->] | [B ->]].
    + destruct (py_max_spec 0 (separation / iwa - (5 # 10))) as [[A ->] | [A ->]]; lra.
    + lra.
  - intros L1 L2.
    assert (X : 1 # 2 <= separation / iwa) by (apply Lo; qlra).
    assert (Y : separation / iwa <= 3 # 2) by (apply Up; qlra).
    destruct (py_min_spec 1 (separation / iwa - (5 # 10))) as [[B ->] | [B ->]].
    + destruct (py_max_spec 0 (separation / iwa - (5 # 10))) as [[A ->] | [A ->]]; lra.
    + destruct (py_max_spec 0 1) as [[A ->] | [A ->]]; lra.
  - intro L. assert (Y : 3 # 2 <= separation / iwa) by (apply Lo; qlra).
    destruct (py_min_spec 1 (separation / iwa - (5 # 10))) as [[B ->] | [B ->]].
    + lra.
    + destruct (py_max_spec 0 1) as [[A ->] | [A ->]]; lra.
  - destruct (py_min_spec 1 (iwa / iwa - (5 # 10))) as [[B ->] | [B ->]].
    + destruct (py_max_spec 0 (iwa / iwa - (5 # 10))) as [[A ->] | [A ->]]; lra.
    + lra.
Qed.

(** X22. The diameter required for a planet at semi-major axis [a] of a
    star at distance [d] is infinite when one of the two is not positive.
    When both are between 1e-100 and 1e100 it is a positive number in
    proportion to the distance and to the wavelength and in inverse
    proportion to the axis: [D * a * AU] is
    [2.44e-6 * wavelength * d * parsec] to within one part in 10^9. A band
    that is not in the table is treated as the visible band. *)
Theorem required_diameter_law (a d : Q) (band : string) :
  (a <= 0 \/ d <= 0 ->
   required_telescope_diameter_m (angular_separation_mas a d) band 2 = PInf)
  /\ (1 / 10 ^ 100 <= a <= 10 ^ 100 ->
      1 / 10 ^ 100 <= d <= 10 ^ 100 ->
      exists D,
        required_telescope_diameter_m (angular_separation_mas a d) band 2 = Fin D
        /\ 0 < D
        /\ Qabs (D * a * AU_METERS
                 - (244 # 100) * (1 / 10 ^ 6)
                   * default (55 # 100) (WAVELENGTHS_MICRON !! band)
                   * d * PARSEC_METERS)
           <= (244 # 100) * (1 / 10 ^ 6)
              * default (55 # 100) (WAVELENGTHS_MICRON !! band)
              * d * PARSEC_METERS / 10 ^ 9)
  /\ (WAVELENGTHS_MICRON !! band = None ->
      forall separation,
        required_telescope_diameter_m separation band 2
        = required_telescope_diameter_m separation "Visible" 2).
Proof.
  assert (K : 0 < AU_METERS /\ 0 < PARSEC_METERS /\ 0 < RAD_TO_MAS)
    by (repeat split; reflexivity).
  destruct K as (KA & KP & KR).
  assert (W : 0 < default (55 # 100) (WAVELENGTHS_MICRON !! band)).
  { destruct (WAVELENGTHS_MICRON !! band) as [w |] eqn:E; cbn [default]; [| reflexivity].
    unfold WAVELENGTHS_MICRON in E.
    repeat (apply lookup_insert_Some in E as [[_ <-] | [_ E]]; [reflexivity |]).
    rewrite lookup_empty in E. discriminate. }
  assert (F : UNDERFLOW
              < (1 / 10 ^ 100 * AU_METERS) / (10 ^ 100 * PARSEC_METERS))
    by (vm_compute; reflexivity).
  assert (H100 : 0 < 10 ^ 100) by reflexivity.
  assert (S : 1 / 10 ^ 100 <= a -> 0 < d -> d <= 10 ^ 100 ->
              angular_separation_mas a d
              = a * AU_METERS / (d * PARSEC_METERS) * RAD_TO_MAS
              /\ 0 < a * AU_METERS / (d * PARSEC_METERS) * RAD_TO_MAS).
  { intros A D D'. unfold angular_separation_mas.
    assert (A' : 0 < a) by (assert (0 < 1 / 10 ^ 100) by reflexivity; lra).
    destruct (Qleb_spec d 0); [lra |]. destruct (Qleb_spec a 0); [lra |].
    cbn [orb].
    assert (P : 0 < a * AU_METERS / (d * PARSEC_METERS)).
    { apply Qlt_shift_div_l; [apply Qmult_lt_0_compat; assumption |].
      rewrite Qmult_0_l. apply Qmult_lt_0_compat; assumption. }
    assert (M : (1 / 10 ^ 100 * AU_METERS) / (10 ^ 100 * PARSEC_METERS)
                <= a * AU_METERS / (d * PARSEC_METERS)).
    { set (lo := 1 / 10 ^ 100) in *. set (hi := 10 ^ 100) in *.
      assert (L : 0 < lo) by reflexivity.
      clearbody lo hi.
      set (au := AU_METERS) in *. set (pc := PARSEC_METERS) in *.
      clearbody au pc.
      assert (0 < hi * pc) by (apply Qmult_lt_0_compat; assumption).
      assert (0 < d * pc) by (apply Qmult_lt_0_compat; assumption).
      apply Qle_shift_div_l; [assumption |].
      assert (E : lo * au / (hi * pc) * (d * pc) == lo * au * d / hi)
        by (field; lra).
      rewrite E. apply Qle_shift_div_r; [assumption |].
      assert (lo * d <= a * hi) by nra.
      nra. }
    assert (U : underflows (a * AU_METERS / (d * PARSEC_METERS)) = false).
    { unfold underflows. rewrite Qabs_pos by lra.
      destruct (Qleb_spec (a * AU_METERS / (d * PARSEC_METERS)) UNDERFLOW);
        [lra | reflexivity]. }
    rewrite U. split; [reflexivity |].
    apply Qmult_lt_0_compat; [exact P | exact KR]. }
  clear F.
  assert (R : forall s, 0 < s ->
              required_telescope_diameter_m s band 2
              = Fin ((122 # 100)
                     * (default (55 # 100) (WAVELENGTHS_MICRON !! band) * (1 / 10 ^ 6))
                     / (s / RAD_TO_MAS) * 2)).
  { intros s P. unfold required_telescope_diameter_m.
    destruct (Qleb_spec s 0); [lra | reflexivity]. }
  assert (Z : angular_separation_mas a d <= 0 ->
              required_telescope_diameter_m (angular_separation_mas a d) band 2 = PInf).
  { intro P. unfold required_telescope_diameter_m.
    destruct (Qleb_spec (angular_separation_mas a d) 0); [reflexivity | lra]. }
  assert (N : a <= 0 \/ d <= 0 -> angular_separation_mas a d = 0).
  { intro E. unfold angular_separation_mas.
    assert (X : Qleb d 0 || Qleb a 0 = true).
    { apply orb_true_iff.
      destruct E as [E | E]; [right | left];
        match goal with |- Qleb ?x 0 = true => destruct (Qleb_spec x 0) end;
        reflexivity || lra. }
    rewrite X. reflexivity. }
  assert (V : WAVELENGTHS_MICRON !! band = None ->
              forall separation,
                required_telescope_diameter_m separation band 2
                = required_telescope_diameter_m separation "Visible" 2).
  { intros E separation. unfold required_telescope_diameter_m. rewrite E.
    reflexivity. }
  assert (T9 : 0 < 10 ^ 9) by reflexivity.
  assert (T6 : 0 < 1 / 10 ^ 6) by reflexivity.
  assert (L100 : 0 < 1 / 10 ^ 100) by reflexivity.
  set (w := default (55 # 100) (WAVELENGTHS_MICRON !! band)) in *. clearbody w.
  set (lo := 1 / 10 ^ 100) in *. set (hi := 10 ^ 100) in *.
  set (u := 1 / 10 ^ 6) in *. set (n := 10 ^ 9) in *.
  clearbody lo hi u n.
  generalize dependent AU_METERS. generalize dependent PARSEC_METERS.
  generalize dependent RAD_TO_MAS. intros rad KR R pc KP au KA S.
  split; [| split; [| exact V]].
  - intros E. apply Z. rewrite (N E). lra.
  - intros [A _] [D D''].
    assert (A' : 0 < a) by lra. assert (D' : 0 < d) by lra.
    destruct (S A D' D'') as [S1 S2]. rewrite S1.
    rewrite (R _ S2).
    eexists. split; [reflexivity |].
    assert (T : 0 < a * au / (d * pc) * rad / rad).
    { apply Qlt_shift_div_l; [exact KR | lra]. }
    split.
    + apply Qmult_lt_0_compat; [| reflexivity].
      apply Qlt_shift_div_l; [exact T |]. rewrite Qmult_0_l.
      apply Qmult_lt_0_compat; [reflexivity |].
      apply Qmult_lt_0_compat; [exact W | exact T6].
    + assert (E : (122 # 100) * (w * u) / (a * au / (d * pc) * rad / rad) * 2 * a * au
                  - (244 # 100) * u * w * d * pc == 0)
        by (field; repeat split; lra).
      rewrite E. change (Qabs 0) with 0.
      apply Qle_shift_div_l; [exact T9 |]. rewrite Qmult_0_l.
      assert (0 < u * w) by (apply Qmult_lt_0_compat; assumption).
      assert (0 < d * pc) by (apply Qmult_lt_0_compat; assumption).
      assert (0 < (u * w) * (d * pc)) by (apply Qmult_lt_0_compat; assumption).
      lra.
Qed.

End ObservabilityMore.

Section ObservabilityMoreExamples.

Import Observability Planets.
Local Open Scope Q_scope.

Lemma planet_records_are_ignored_on_trappist :
  exists p details,
    planet_hwo_details (H := Sample.builtins) mock_planets "3" default_params
    = Some (Ok (p, details))
    /\ (id p = "3"
        /\ p ∈ mock_planets
        /\ compute_observability (H := Sample.builtins) ∅ default_params = Ok details).
Proof.
  eexists _, _.
  assert (E : planet_hwo_details (H := Sample.builtins) mock_planets "3" default_params
              = Some (Ok (?[p], ?[details]))) by (vm_compute; reflexivity).
  split; [exact E |].
  exact (planet_records_are_ignored (H := Sample.builtins) mock_planets "3"
           default_params _ _ E).
Defined.

Lemma observable_count_all_or_nothing_on_mock_planets :
  observable_count (H := Sample.builtins) mock_planets default_params (5 # 10)
  = Ok (3%nat, 3%nat)
  /\ (3%nat = List.length mock_planets /\ (3%nat = 0%nat \/ 3%nat = 3%nat)).
Proof.
  assert (E : observable_count (H := Sample.builtins) mock_planets default_params (5 # 10)
              = Ok (3%nat, 3%nat)) by (vm_compute; reflexivity).
  split; [exact E |].
  exact (observable_count_all_or_nothing (H := Sample.builtins)
           mock_planets default_params (5 # 10) 3 3 E).
Defined.

Lemma textual_period_raises_on_csv_row :
  ({[ "pl_name" := VStr "Kepler-442b"; "pl_orbper" := VStr "112.3" ]}
     : gmap string value) !! "pl_orbsmax" = None
  /\ ({[ "pl_name" := VStr "Kepler-442b"; "pl_orbper" := VStr "112.3" ]}
        : gmap string value) !! "pl_orbper" = Some (VStr "112.3")
  /\ exists what,
       compute_observability (H := Sample.builtins)
         {[ "pl_name" := VStr "Kepler-442b"; "pl_orbper" := VStr "112.3" ]}
         default_params
       = Raise (TypeError what).
Proof.
  split; [reflexivity |]. split; [reflexivity |].
  apply (textual_period_raises (H := Sample.builtins) _ default_params "112.3");
    reflexivity.
Defined.

Lemma nonpositive_distance_scores_at_zero :
  py_float (H := Sample.builtins)
    (default (VFloat 10)
       (({[ "sy_dist" := VFloat 0 ]} : gmap string value) !! "sy_dist")) = Ok 0
  /\ 0 <= 0
  /\ (readable (H := Sample.builtins)
        ({[ "sy_dist" := VFloat 0 ]} : gmap string value) = true ->
      in_range (H := Sample.builtins) {[ "sy_dist" := VFloat 0 ]} default_params
      = true ->
      exists r,
        compute_observability (H := Sample.builtins)
          {[ "sy_dist" := VFloat 0 ]} default_params = Ok r)
  /\ (forall r,
        compute_observability (H := Sample.builtins)
          {[ "sy_dist" := VFloat 0 ]} default_params = Ok r ->
        separation_mas r = 0
        /\ required_diameter_m r = PInf
        /\ iwa_score r = 0
        /\ exists q,
             observability_score r = Fin q
             /\ q == (2 # 10) + (4 # 10) * spectroscopic_score r
             /\ 2 # 10 <= q).
Proof.
  split; [reflexivity |]. split; [discriminate |].
  apply (nonpositive_distance_scores (H := Sample.builtins)
           {[ "sy_dist" := VFloat 0 ]} default_params 0);
    reflexivity || discriminate.
Defined.

Lemma iwa_check_score_shape_at_default_angle :
  (0 < 75 /\ 0 < 100)
  /\ ((100 <= 75 / 2 -> iwa_check_score 100 75 == 0)
      /\ (75 / 2 <= 100 -> 100 <= 3 * 75 / 2 ->
          iwa_check_score 100 75 == 100 / 75 - (1 # 2))
      /\ (3 * 75 / 2 <= 100 -> iwa_check_score 100 75 == 1)
      /\ iwa_check_score 75 75 == 1 # 2).
Proof.
  split; [split; reflexivity |].
  apply (iwa_check_score_shape 100 75); reflexivity.
Defined.

End ObservabilityMoreExamples.

(** ** More on CDHS *)

Section CDHSMore.

Import CDHS.
Local Open Scope Q_scope.
Local Open Scope list_scope.

Lemma Qabs_zero (x : Q) : Qabs x == 0 <-> x == 0.
Proof. split; intro E; [revert E; case_abs; lra | rewrite E; reflexivity]. Qed.

Lemma ratio_zero (d m : Q) : 0 < m -> 0 <= d -> 0 <= d / m /\ (d / m == 0 <-> d == 0).
Proof.
  intros M D.
  assert (E : d / m * m == d) by (field; lra).
  split; [apply Qle_shift_div_l; lra |].
  split; intro Z.
  - rewrite <- E, Z. ring.
  - unfold Qdiv. rewrite Z. ring.
Qed.

Lemma range_score_law (lo hi optimal x : Q) :
  range_law lo hi optimal x (range_score lo hi optimal x).
Proof.
  unfold range_score, range_law.
  destruct (Qltb_spec x lo) as [Lo | Lo]; cbn [orb].
  { repeat split; try lra; try (intros (A & B & C); lra). }
  destruct (Qltb_spec hi x) as [Hi | Hi].
  { repeat split; try lra; try (intros (A & B & C); lra). }
  set (m := py_max (optimal - lo) (hi - optimal)).
  assert (M : 0 <= m /\ (m == 0 <-> lo == x /\ hi == x /\ optimal == x)).
  { subst m. destruct (py_max_spec (optimal - lo) (hi - optimal)) as [[A ->] | [A ->]];
      split; try lra; split; try (intros (E1 & E2 & E3); lra);
      intro Z; repeat split; lra. }
  destruct M as [M0 MZ]. clearbody m.
  destruct (Qeq_bool m 0) eqn:Z.
  - apply Qeq_bool_eq in Z. split; [reflexivity | apply MZ, Z].
  - assert (N : ~ m == 0) by (apply Qeq_bool_neq, Z).
    assert (P : 0 < m) by lra.
    destruct (ratio_zero (Qabs (x - optimal)) m P (Qabs_nonneg _)) as [R0 RZ].
    set (q := Qabs (x - optimal) / m) in *.
    assert (QZ : q == 0 <-> x == optimal).
    { rewrite RZ, Qabs_zero. split; lra. }
    clearbody q.
    split; [intro D; apply N, MZ, D |].
    destruct (py_max_spec 0 (1 - q)) as [[A ->] | [A ->]].
    + split; [lra |]. split; [intros _; lra |].
      intros E _. apply QZ in E. lra.
    + split; [lra |]. split; [intros _; lra |].
      intros E _. apply QZ in E. lra.
Qed.

(** X23. Each of the three CDHS component scores, for any criteria: the
    call raises [ZeroDivisionError] exactly when the minimum, the maximum
    and the optimum of the criteria all equal the value; otherwise it
    returns a score in [0, 1], that is positive only for a value inside
    [minimum, maximum] and is 1 when the value is the optimum and lies
    inside [minimum, maximum]. *)
Theorem cdhs_component_scores (criteria : HabitabilityCriteria) (x : Q) :
  range_law (temp_min criteria) (temp_max criteria) (temp_optimal criteria) x
            (calculate_temperature_score criteria x)
  /\ range_law (radius_min criteria) (radius_max criteria) (radius_optimal criteria) x
               (calculate_radius_score criteria x)
  /\ range_law (flux_min criteria) (flux_max criteria) (flux_optimal criteria) x
               (calculate_flux_score criteria x).
Proof. repeat split; apply range_score_law. Qed.

Lemma ecc_score_law (e : Q) :
  0 <= e -> 0 <= py_max 0 (1 - e) <= 1 /\ (e == 0 -> py_max 0 (1 - e) == 1).
Proof.
  intro E. destruct (py_max_spec 0 (1 - e)) as [[A ->] | [A ->]];
    repeat split; try lra; intro; lra.
Qed.

(** The period score is 1 in the preferred window and for a period that is
    not positive, and at most 0.735 elsewhere. *)
Lemma period_score_law (p : Q) :
  0 <= period_score p <= 1
  /\ (p <= 0 \/ 100 <= p <= 1000 -> period_score p == 1)
  /\ (0 < p -> p < 100 \/ 1000 < p -> period_score p <= 735 # 1000).
Proof.
  unfold period_score.
  destruct (Qltb_spec 0 p) as [P | P].
  2: { split; [lra |]. split; [reflexivity | lra]. }
  destruct (Qleb_spec 100 p) as [A | A]; cbn [andb].
  - destruct (Qleb_spec p 1000) as [B | B].
    + split; [lra |]. split; [reflexivity | lra].
    + destruct (py_max_spec 0 (1 - Qabs (p - 365) / 1000)) as [[L E] | [L E]];
        rewrite E; revert L; case_abs; intro L;
        (split; [qlra |]); (split; [intros [X | X]; qlra | intros _ _; qlra]).
  - destruct (py_max_spec 0 (1 - Qabs (p - 365) / 1000)) as [[L E] | [L E]];
      rewrite E; revert L; case_abs; intro L;
      (split; [qlra |]); (split; [intros [X | X]; qlra | intros _ _; qlra]).
Qed.

Lemma stability_score_split (e p : Q) :
  calculate_stability_score e p
  = py_max 0 (1 - e) * (6 # 10) + period_score p * (4 # 10).
Proof. reflexivity. Qed.

(** X24. For an eccentricity that is not negative the stability score lies
    in [0, 1]. It is 1 on a circular orbit whose period is either between
    100 and 1000 days or not positive (a period of zero or less is scored
    like the preferred periods), and a positive period outside that window
    keeps it at most 0.9, so a score of 1 needs a period in the window or
    not positive. *)
Theorem cdhs_stability_score_law (eccentricity orbital_period : Q) :
  0 <= eccentricity ->
  0 <= calculate_stability_score eccentricity orbital_period <= 1
  /\ (eccentricity == 0 ->
      orbital_period <= 0 \/ 100 <= orbital_period <= 1000 ->
      calculate_stability_score eccentricity orbital_period == 1)
  /\ (0 < orbital_period ->
      orbital_period < 100 \/ 1000 < orbital_period ->
      calculate_stability_score eccentricity orbital_period <= 9 # 10)
  /\ (calculate_stability_score eccentricity orbital_period == 1 ->
      orbital_period <= 0 \/ 100 <= orbital_period <= 1000).
Proof.
  intro E. rewrite stability_score_split.
  destruct (ecc_score_law eccentricity E) as [EB EO].
  destruct (period_score_law orbital_period) as (PB & PO & PC).
  set (a := py_max 0 (1 - eccentricity)) in *.
  set (b := period_score orbital_period) in *. clearbody a b.
  split; [lra |]. split; [| split].
  - intros X Y. apply EO in X. apply PO in Y. lra.
  - intros X Y. specialize (PC X Y). lra.
  - intro S. destruct (Qlt_le_dec 0 orbital_period) as [X | X]; [| now left].
    destruct (Qlt_le_dec orbital_period 100) as [Y | Y];
      [specialize (PC X (or_introl Y)); lra |].
    destruct (Qlt_le_dec 1000 orbital_period) as [Z | Z];
      [specialize (PC X (or_intror Z)); lra |].
    right. split; assumption.
Qed.

(** X25. With the default criteria and an eccentricity that is not
    negative, [calculate_cdhs] returns for every input and the score lies
    in [0, 1]. It is 1 for temperature 288 K, radius 1, flux 1, a circular
    orbit and a period that is between 100 and 1000 days or not positive;
    and a score of 1 needs the temperature, the radius and the flux inside
    their ranges and such a period. *)
Theorem cdhs_perfect_score (temperature radius stellar_flux eccentricity
    orbital_period : Q) :
  0 <= eccentricity ->
  exists score,
    calculate_cdhs default_criteria temperature radius stellar_flux
                   eccentricity orbital_period = Ok score
    /\ 0 <= score <= 1
    /\ (temperature == 288 -> radius == 1 -> stellar_flux == 1 ->
        eccentricity == 0 ->
        orbital_period <= 0 \/ 100 <= orbital_period <= 1000 ->
        score == 1)
    /\ (score == 1 ->
        273 <= temperature <= 373
        /\ 5 # 10 <= radius <= 15 # 10
        /\ 5 # 10 <= stellar_flux <= 2
        /\ (orbital_period <= 0 \/ 100 <= orbital_period <= 1000)).
Proof.
  intro E. unfold calculate_cdhs.
  pose proof (range_score_law 273 373 288 temperature) as T.
  pose proof (range_score_law (5 # 10) (15 # 10) 1 radius) as R.
  pose proof (range_score_law (5 # 10) 2 1 stellar_flux) as F.
  change (range_score 273 373 288 temperature)
    with (calculate_temperature_score default_criteria temperature) in T.
  change (range_score (5 # 10) (15 # 10) 1 radius)
    with (calculate_radius_score default_criteria radius) in R.
  change (range_score (5 # 10) 2 1 stellar_flux)
    with (calculate_flux_score default_criteria stellar_flux) in F.
  destruct (calculate_temperature_score default_criteria temperature) as [t | ?];
    [| destruct T as (_ & A & B & _); lra].
  destruct (calculate_radius_score default_criteria radius) as [r | ?];
    [| destruct R as (_ & A & B & _); lra].
  destruct (calculate_flux_score default_criteria stellar_flux) as [f | ?];
    [| destruct F as (_ & A & B & _); lra].
  cbn [bind temp_weight radius_weight flux_weight stability_weight default_criteria].
  rewrite stability_score_split.
  destruct T as (_ & TB & TP & TO). destruct R as (_ & RB & RP & RO).
  destruct F as (_ & FB & FP & FO).
  destruct (ecc_score_law eccentricity E) as [EB EO].
  destruct (period_score_law orbital_period) as (PB & PO & PC).
  set (a := py_max 0 (1 - eccentricity)) in *.
  set (b := period_score orbital_period) in *. clearbody a b.
  eexists. split; [reflexivity |].
  set (c := t * (35 # 100) + r * (25 # 100) + f * (20 # 100)
            + (a * (6 # 10) + b * (4 # 10)) * (20 # 100)).
  assert (C : 0 <= c <= 1) by (subst c; clear - TB RB FB EB PB; lra).
  assert (S : py_min 1 (py_max 0 c) == c).
  { destruct (py_max_spec 0 c) as [[A ->] | [A ->]];
      [destruct (py_min_spec 1 c) as [[B ->] | [B ->]] |
       destruct (py_min_spec 1 0) as [[B ->] | [B ->]]]; clear - C A B; lra. }
  split; [rewrite S; exact C |]. rewrite S. split.
  - intros T1 R1 F1 A1 B1. subst c.
    assert (T2 : t == 1) by (apply TO; [exact T1 | clear - T1; lra]).
    assert (R2 : r == 1) by (apply RO; [exact R1 | clear - R1; lra]).
    assert (F2 : f == 1) by (apply FO; [exact F1 | clear - F1; lra]).
    apply EO in A1. apply PO in B1. clear - T2 R2 F2 A1 B1. lra.
  - intro X. subst c.
    assert (t == 1 /\ r == 1 /\ f == 1 /\ a == 1 /\ b == 1) as (T1 & R1 & F1 & A1 & B1)
      by (clear - X TB RB FB EB PB; repeat split; lra).
    split; [apply TP; lra |]. split; [apply RP; lra |]. split; [apply FP; lra |].
    destruct (Qlt_le_dec 0 orbital_period) as [P0 | P0]; [| now left].
    destruct (Qlt_le_dec orbital_period 100) as [Y | Y];
      [specialize (PC P0 (or_introl Y)); lra |].
    destruct (Qlt_le_dec 1000 orbital_period) as [Z | Z];
      [specialize (PC P0 (or_intror Z)); lra |].
    right. split; assumption.
Qed.

Lemma calculate_cdhs_default_returns (temperature radius stellar_flux eccentricity
    orbital_period : Q) :
  exists score,
    calculate_cdhs default_criteria temperature radius stellar_flux
                   eccentricity orbital_period = Ok score
    /\ 0 <= score <= 1.
Proof.
  unfold calculate_cdhs.
  pose proof (range_score_law 273 373 288 temperature) as T.
  pose proof (range_score_law (5 # 10) (15 # 10) 1 radius) as R.
  pose proof (range_score_law (5 # 10) 2 1 stellar_flux) as F.
  change (range_score 273 373 288 temperature)
    with (calculate_temperature_score default_criteria temperature) in T.
  change (range_score (5 # 10) (15 # 10) 1 radius)
    with (calculate_radius_score default_criteria radius) in R.
  change (range_score (5 # 10) 2 1 stellar_flux)
    with (calculate_flux_score default_criteria stellar_flux) in F.
  destruct (calculate_temperature_score default_criteria temperature) as [t | ?];
    [| destruct T as (_ & A & B & _); lra].
  destruct (calculate_radius_score default_criteria radius) as [r | ?];
    [| destruct R as (_ & A & B & _); lra].
  destruct (calculate_flux_score default_criteria stellar_flux) as [f | ?];
    [| destruct F as (_ & A & B & _); lra].
  cbn [bind]. eexists. split; [reflexivity |].
  match goal with |- 0 <= py_min 1 (py_max 0 ?c) <= 1 => set (v := c) end.
  destruct (py_max_spec 0 v) as [[A ->] | [A ->]];
    [destruct (py_min_spec 1 v) as [[B ->] | [B ->]] |
     destruct (py_min_spec 1 0) as [[B ->] | [B ->]]]; lra.
Qed.

(** X26. With the default criteria [calculate_batch_cdhs] returns for
    every table: one score per row, each in [0, 1], whatever columns the
    rows have and also for negative eccentricities; and when any criteria
    make it raise, the error is the [ZeroDivisionError] of a component
    score. *)
Theorem batch_cdhs_scores (data : list (gmap string Q)) :
  (exists scores,
     calculate_batch_cdhs default_criteria data = Ok scores
     /\ List.length scores = List.length data
     /\ Forall (fun s => 0 <= s <= 1) scores)
  /\ (forall criteria e,
        calculate_batch_cdhs criteria data = Raise e -> e = ZeroDivisionError).
Proof.
  split.
  - induction data as [| row rest IH].
    + exists []. repeat split. constructor.
    + destruct IH as (scores & E & L & B). cbn [calculate_batch_cdhs].
      destruct (calculate_cdhs_default_returns
                  (default 0 (row !! "temperature")) (default 0 (row !! "radius"))
                  (default 0 (row !! "stellar_flux")) (default 0 (row !! "eccentricity"))
                  (default 365 (row !! "orbital_period"))) as (s & -> & SB).
      cbn [bind]. rewrite E. cbn [bind]. exists (s :: scores).
      split; [reflexivity |]. split; [cbn [List.length]; lia |].
      constructor; assumption.
  - intros criteria e. induction data as [| row rest IH]; [discriminate |].
    cbn [calculate_batch_cdhs]. unfold calculate_cdhs.
    pose proof (range_score_law (temp_min criteria) (temp_max criteria)
                  (temp_optimal criteria) (default 0 (row !! "temperature"))) as T.
    pose proof (range_score_law (radius_min criteria) (radius_max criteria)
                  (radius_optimal criteria) (default 0 (row !! "radius"))) as R.
    pose proof (range_score_law (flux_min criteria) (flux_max criteria)
                  (flux_optimal criteria) (default 0 (row !! "stellar_flux"))) as F.
    unfold calculate_temperature_score, calculate_radius_score, calculate_flux_score.
    destruct (range_score (temp_min criteria) _ _ _);
      [| destruct T as [-> _]; intros [= <-]; reflexivity].
    destruct (range_score (radius_min criteria) _ _ _);
      [| destruct R as [-> _]; intros [= <-]; reflexivity].
    destruct (range_score (flux_min criteria) _ _ _);
      [| destruct F as [-> _]; intros [= <-]; reflexivity].
    cbn [bind]. destruct (calculate_batch_cdhs criteria rest); [discriminate |].
    cbn [bind]. intros [= <-]. apply IH. reflexivity.
Qed.

End CDHSMore.

Section CDHSMoreExamples.

Import CDHS.
Local Open Scope Q_scope.

Lemma cdhs_stability_score_law_on_circular_year :
  0 <= 0
  /\ (0 <= calculate_stability_score 0 365 <= 1
      /\ (0 == 0 -> 365 <= 0 \/ 100 <= 365 <= 1000 ->
          calculate_stability_score 0 365 == 1)
      /\ (0 < 365 -> 365 < 100 \/ 1000 < 365 ->
          calculate_stability_score 0 365 <= 9 # 10)
      /\ (calculate_stability_score 0 365 == 1 ->
          365 <= 0 \/ 100 <= 365 <= 1000)).
Proof.
  split; [discriminate | apply (cdhs_stability_score_law 0 365); discriminate].
Defined.

Lemma cdhs_perfect_score_on_earth_twin :
  0 <= 0
  /\ exists score,
       calculate_cdhs default_criteria 288 1 1 0 365 = Ok score
       /\ 0 <= score <= 1
       /\ (288 == 288 -> 1 == 1 -> 1 == 1 -> 0 == 0 ->
           365 <= 0 \/ 100 <= 365 <= 1000 -> score == 1)
       /\ (score == 1 ->
           273 <= 288 <= 373 /\ 5 # 10 <= 1 <= 15 # 10 /\ 5 # 10 <= 1 <= 2
           /\ (365 <= 0 \/ 100 <= 365 <= 1000)).
Proof.
  split; [discriminate | apply (cdhs_perfect_score 288 1 1 0 365); discriminate].
Defined.

End CDHSMoreExamples.

(** ** More on SEPHI *)

Section SEPHIMore.

Import SEPHI.
Local Open Scope Q_scope.
Local Open Scope list_scope.

Lemma clamp01_cases (x : Q) :
  (x <= 0 /\ clamp01 x == 0) \/ (0 < x < 1 /\ clamp01 x == x) \/ (1 <= x /\ clamp01 x == 1).
Proof.
  unfold clamp01.
  destruct (py_min_spec 1 x) as [[A ->] | [A ->]].
  - destruct (py_max_spec 0 x) as [[B ->] | [B ->]]; [right; left | left]; split; lra.
  - destruct (py_max_spec 0 1) as [[B ->] | [B ->]]; [| lra]. right. right. split; lra.
Qed.

Ltac split_hyps :=
  repeat match goal with
         | H : _ /\ _ |- _ => destruct H
         end.

Ltac tier_cases :=
  match goal with
  | |- context [clamp01 ?v] =>
      let A := fresh "A" in
      let E := fresh "E" in
      let s := fresh "s" in
      destruct (clamp01_cases v) as [[A E] | [[A E] | [A E]]];
      set (s := clamp01 v) in *; clearbody s; revert A E;
      try case_abs; intros; repeat split; intros; split_hyps; qlra
  end.

Ltac tiers r a b c d :=
  unfold between;
  destruct (Qleb_spec a r), (Qleb_spec r b), (Qleb_spec c r), (Qleb_spec r d);
  cbn [andb]; try lra.

Lemma temperature_score_one (t : Q) :
  0 <= calculate_temperature_score t <= 1
  /\ (calculate_temperature_score t == 1 <-> t == 288).
Proof.
  unfold calculate_temperature_score, EARTH_TEMP.
  tiers t 250 350 150 450; tier_cases.
Qed.

(** X27. The SEPHI temperature score lies in [0, 1]; it is positive
    exactly for temperatures strictly between 188 K and 388 K, although
    the broader range of the code is 150 K to 450 K; and it is 1 exactly
    at 288 K. *)
Theorem sephi_temperature_score_law (equilibrium_temp : Q) :
  0 <= calculate_temperature_score equilibrium_temp <= 1
  /\ (0 < calculate_temperature_score equilibrium_temp
      <-> 188 < equilibrium_temp < 388)
  /\ (calculate_temperature_score equilibrium_temp == 1 <-> equilibrium_temp == 288).
Proof.
  destruct (temperature_score_one equilibrium_temp) as [B O].
  split; [exact B |]. split; [| exact O]. clear B O.
  unfold calculate_temperature_score, EARTH_TEMP.
  tiers equilibrium_temp 250 350 150 450; tier_cases.
Qed.

Lemma orbital_score_one (p : Q) :
  0 <= calculate_orbital_score p <= 1
  /\ (calculate_orbital_score p == 1 <-> p == 365).
Proof.
  unfold calculate_orbital_score, EARTH_ORBIT.
  tiers p 200 500 50 700; tier_cases.
Qed.

Lemma stellar_score_one (ts : Q) (age : option Q) :
  0 <= calculate_stellar_score ts age <= 1
  /\ (calculate_stellar_score ts age == 1
      <-> ts == 5778 /\ forall a, age = Some a -> 1 <= a <= 10).
Proof.
  unfold calculate_stellar_score, SOL_TEMP. cbv zeta.
  destruct age as [a |].
  - assert (I : forall P : Prop, (P /\ 1 <= a <= 10) <->
                  (P /\ forall a', Some a = Some a' -> 1 <= a' <= 10)).
    { intro P. split; intros [X Y]; (split; [exact X |]).
      - intros a' [= <-]. exact Y.
      - apply Y. reflexivity. }
    rewrite <- I. clear I.
    tiers ts 4500 6500 2400 7500;
      unfold between;
      destruct (Qleb_spec 1 a), (Qleb_spec a 10), (Qleb_spec (5 # 10) a),
               (Qleb_spec a 12); cbn [andb]; try lra; tier_cases.
  - assert (I : forall P : Prop, P <->
                  (P /\ forall a', @None Q = Some a' -> 1 <= a' <= 10)).
    { intro P. split; [intro X; split; [exact X | discriminate] | intros [X _]; exact X]. }
    rewrite <- I. clear I.
    tiers ts 4500 6500 2400 7500; tier_cases.
Qed.

(** X28. The SEPHI stellar and orbital scores lie in [0, 1]. The stellar
    score is positive exactly for stellar temperatures above 3778 K and up
    to 7500 K, whatever the age, and is 1 exactly at 5778 K with an age
    that is absent or between 1 and 10. The orbital score is positive only
    for periods strictly between 65 and 665 days, it is positive for every
    period from 66 to 664 days, and it is 1 exactly at 365 days. *)
Theorem sephi_stellar_and_orbital_law (stellar_temp orbital_period : Q)
    (stellar_age : option Q) :
  (0 <= calculate_stellar_score stellar_temp stellar_age <= 1
   /\ (0 < calculate_stellar_score stellar_temp stellar_age
       <-> 3778 < stellar_temp <= 7500)
   /\ (calculate_stellar_score stellar_temp stellar_age == 1
       <-> stellar_temp == 5778
           /\ forall a, stellar_age = Some a -> 1 <= a <= 10))
  /\ (0 <= calculate_orbital_score orbital_period <= 1
      /\ (0 < calculate_orbital_score orbital_period -> 65 < orbital_period < 665)
      /\ (66 <= orbital_period <= 664 -> 0 < calculate_orbital_score orbital_period)
      /\ (calculate_orbital_score orbital_period == 1 <-> orbital_period == 365)).
Proof.
  destruct (stellar_score_one stellar_temp stellar_age) as [SB SO].
  destruct (orbital_score_one orbital_period) as [OB OO].
  split; (split; [assumption |]).
  - split; [| assumption]. clear.
    unfold calculate_stellar_score, SOL_TEMP. cbv zeta.
    destruct stellar_age as [a |].
    + tiers stellar_temp 4500 6500 2400 7500;
        unfold between;
        destruct (Qleb_spec 1 a), (Qleb_spec a 10), (Qleb_spec (5 # 10) a),
                 (Qleb_spec a 12); cbn [andb]; try lra; tier_cases.
    + tiers stellar_temp 4500 6500 2400 7500; tier_cases.
  - assert (P : 0 < calculate_orbital_score orbital_period
                <-> 65 < orbital_period < 665).
    { clear. unfold calculate_orbital_score, EARTH_ORBIT.
      tiers orbital_period 200 500 50 700; tier_cases. }
    split; [apply P |]. split; [| assumption].
    intro X. apply P. lra.
Qed.

Lemma cube_zero (r : Q) : r ^ 3 == 0 <-> r == 0.
Proof.
  assert (E : r ^ 3 == r * r * r) by (simpl; ring).
  rewrite E. split; intro Z; [| rewrite Z; ring].
  apply Qmult_integral in Z as [Z | Z]; [| exact Z].
  apply Qmult_integral in Z as [Z | Z]; exact Z.
Qed.

(** The cube of 0 is below the doubles and not beyond them. *)
Lemma cube_of_zero (r : Q) :
  r == 0 -> overflows (r ^ 3) = false /\ underflows (r ^ 3) = true.
Proof.
  intro Z. apply (proj2 (cube_zero r)) in Z.
  assert (A : Qabs (r ^ 3) == 0) by (rewrite Z; reflexivity).
  assert (O : 0 < OVERFLOW) by (vm_compute; reflexivity).
  assert (U : 0 < UNDERFLOW) by (vm_compute; reflexivity).
  unfold overflows, underflows.
  set (c := Qabs (r ^ 3)) in *. clearbody c.
  set (o := OVERFLOW) in *. set (u := UNDERFLOW) in *. clearbody o u.
  destruct (Qleb_spec o c), (Qleb_spec c u); split; reflexivity || lra.
Qed.

(** A cube that is not below the doubles is the cube of a number that is
    not 0. *)
Lemma cube_not_underflowing (r : Q) : underflows (r ^ 3) = false -> ~ r == 0.
Proof.
  intros U Z. apply cube_of_zero in Z as [_ Z]. congruence.
Qed.

Lemma size_score_law (r : Q) (mass : option Q) :
  size_law r mass (calculate_size_score r mass).
Proof.
  unfold calculate_size_score, EARTH_RADIUS. cbv zeta.
  set (raw := if between (8 # 10) r (14 # 10) then 1 - Qabs (r - 1) / (6 # 10)
              else if between (5 # 10) r (25 # 10) then (5 # 10) - Qabs (r - 1) / 2
              else 0).
  assert (R : raw <= 1 /\ (0 < raw <-> 5 # 10 <= r < 2) /\ (raw == 1 <-> r == 1)).
  { subst raw. tiers r (8 # 10) (14 # 10) (5 # 10) (25 # 10);
      try case_abs; repeat split; intros; split_hyps; qlra. }
  destruct R as (R1 & RP & RO). clearbody raw.
  destruct mass as [m |]; cbn [bind].
  - destruct (negb (overflows r) && overflows (r ^ 3)) eqn:O.
    { apply andb_true_iff in O as [_ O]. cbn [bind size_law].
      split; [discriminate | right; split; [reflexivity | exact O]]. }
    destruct (underflows (r ^ 3)) eqn:Z.
    + cbn [bind size_law]. split; [discriminate | left; split; [reflexivity | exact Z]].
    + assert (N : ~ r == 0) by (apply cube_not_underflowing; exact Z).
      assert (D : r == 1 -> m / r ^ 3 == m).
      { intro X. rewrite X. change (1 ^ 3) with 1. field. }
      assert (I : forall P : Prop, (P /\ 7 # 10 <= m <= 15 # 10) <->
                    (P /\ forall m', Some m = Some m' -> 7 # 10 <= m' <= 15 # 10)).
      { intro P. split; intros [X Y]; (split; [exact X |]).
        - intros m' [= <-]. exact Y.
        - apply Y. reflexivity. }
      clear O Z.
      set (q := m / r ^ 3) in *. clearbody q. unfold between.
      destruct (Qleb_spec (7 # 10) q), (Qleb_spec q (15 # 10)); cbn [andb bind size_law];
        rewrite <- I; (split; [intros [X _]; contradiction |]);
        match goal with
        | |- context [clamp01 ?v] =>
            destruct (clamp01_cases v) as [[A E] | [[A E] | [A E]]];
            set (s := clamp01 v) in *; clearbody s
        end;
        (split; [lra |]); (split; [split; intro X; [apply RP | apply RP in X]; lra |]);
        (split; [intro X; split; [apply RO; lra |]; try lra;
                 assert (r == 1) as Y by (apply RO; lra); apply D in Y; lra
                | intros [X Y]; pose proof X as X'; apply RO in X; apply D in X'; lra]).
  - cbn [size_law].
    assert (I : forall P : Prop, P <->
                  (P /\ forall m', @None Q = Some m' -> 7 # 10 <= m' <= 15 # 10)).
    { intro P. split; [intro X; split; [exact X | discriminate] | intros [X _]; exact X]. }
    rewrite <- I. clear I.
    split; [intros [_ X]; apply X; reflexivity |].
    destruct (clamp01_cases raw) as [[A E] | [[A E] | [A E]]];
      set (s := clamp01 raw) in *; clearbody s;
      (split; [lra |]); (split; [split; intro X; [apply RP | apply RP in X]; lra |]);
      (split; intro X; [apply RO | apply RO in X]; lra).
Qed.

(** With a mass, a radius of 0 makes the division raise. *)
Lemma size_score_raises_at_zero (r : Q) (mass : option Q) :
  r == 0 -> mass <> None -> calculate_size_score r mass = Raise ZeroDivisionError.
Proof.
  intros Z M. pose proof (size_score_law r mass) as L.
  destruct (cube_of_zero r Z) as [O U].
  destruct (calculate_size_score r mass) as [s | e]; cbn [size_law] in L.
  - destruct L as [N _]. exfalso. apply N. split; assumption.
  - destruct L as [_ [[-> _] | [_ X]]]; [reflexivity | congruence].
Qed.

(** Without a mass the size score returns. *)
Lemma size_score_returns_without_mass (r : Q) :
  exists s, calculate_size_score r None = Ok s.
Proof.
  pose proof (size_score_law r None) as L.
  destruct (calculate_size_score r None) as [s | e]; cbn [size_law] in L.
  - exists s. reflexivity.
  - destruct L as [N _]. exfalso. apply N. reflexivity.
Qed.

(** X29. The SEPHI size score raises [ZeroDivisionError] when a mass is
    given and the radius is 0, and it returns for every radius when no
    mass is given. A score that is returned lies in [0, 1], is positive
    exactly for radii from 0.5 up to, but not including, 2 (the broader
    range of the code reaches 2.5), and is 1 exactly at radius 1 with a
    mass that is absent or between 0.7 and 1.5. *)
Theorem sephi_size_score_law (radius : Q) (mass : option Q) :
  (radius == 0 -> mass <> None ->
   calculate_size_score radius mass = Raise ZeroDivisionError)
  /\ (exists s, calculate_size_score radius None = Ok s)
  /\ (forall s, calculate_size_score radius mass = Ok s ->
        0 <= s <= 1
        /\ (0 < s <-> 5 # 10 <= radius < 2)
        /\ (s == 1 <-> radius == 1
                       /\ forall m, mass = Some m -> 7 # 10 <= m <= 15 # 10)).
Proof.
  split; [| split].
  - apply size_score_raises_at_zero.
  - apply size_score_returns_without_mass.
  - intros s E. pose proof (size_score_law radius mass) as L.
    rewrite E in L. cbn [size_law] in L. apply L.
Qed.

(** X30. [calculate_sephi_score] raises [ZeroDivisionError] when a mass is
    given and the radius is 0, and it returns for every input without a
    mass. A result that is returned holds the four component scores under
    their names, each in [0, 1], and an overall score in [0, 1]; the
    overall score is 1 for 288 K, radius 1, a 5778 K star and a period of
    365 days, with a mass that is absent or between 0.7 and 1.5 and a
    stellar age that is absent or between 1 and 10; and an overall score of
    1 needs a temperature within 1 K of 288, a radius within 0.1 of 1, a
    star within 1 K of 5778, a period within a day of 365, and such a mass
    and age. *)
Theorem sephi_score_law (equilibrium_temp radius stellar_temp orbital_period : Q)
    (mass stellar_age : option Q) :
  (radius == 0 -> mass <> None ->
   calculate_sephi_score equilibrium_temp radius stellar_temp orbital_period
                         mass stellar_age = Raise ZeroDivisionError)
  /\ (exists r,
        calculate_sephi_score equilibrium_temp radius stellar_temp orbital_period
                              None stellar_age = Ok r)
  /\ (forall r,
        calculate_sephi_score equilibrium_temp radius stellar_temp orbital_period
                              mass stellar_age = Ok r ->
        map fst (component_scores r) = ["temperature"; "size"; "stellar"; "orbital"]
        /\ Forall (fun cs => 0 <= cs.2 <= 1) (component_scores r)
        /\ 0 <= sephi_score r <= 1
        /\ (equilibrium_temp == 288 -> radius == 1 -> stellar_temp == 5778 ->
            orbital_period == 365 ->
            (forall m, mass = Some m -> 7 # 10 <= m <= 15 # 10) ->
            (forall a, stellar_age = Some a -> 1 <= a <= 10) ->
            sephi_score r == 1)
        /\ (sephi_score r == 1 ->
            287 <= equilibrium_temp <= 289
            /\ 9 # 10 <= radius <= 11 # 10
            /\ 5777 <= stellar_temp <= 5779
            /\ 364 <= orbital_period <= 366
            /\ (forall m, mass = Some m -> 7 # 10 <= m <= 15 # 10)
            /\ (forall a, stellar_age = Some a -> 1 <= a <= 10))).
Proof.
  unfold calculate_sephi_score. cbv zeta.
  split; [| split].
  - intros Z M. rewrite (size_score_raises_at_zero radius mass Z M). reflexivity.
  - destruct (size_score_returns_without_mass radius) as [s ->]. cbn [bind].
    eexists. reflexivity.
  - intro res.
    pose proof (size_score_law radius mass) as S.
    destruct (calculate_size_score radius mass) as [s | e]; cbn [bind];
      [| discriminate].
    destruct S as (N & SB & _ & SO).
    destruct (temperature_score_one equilibrium_temp) as [TB TO].
    destruct (stellar_score_one stellar_temp stellar_age) as [LB LO].
    destruct (orbital_score_one orbital_period) as [OB OO].
    set (t := calculate_temperature_score equilibrium_temp) in *.
    set (l := calculate_stellar_score stellar_temp stellar_age) in *.
    set (o := calculate_orbital_score orbital_period) in *.
    clearbody t l o.
    intros [= <-].
    cbn [sephi_score component_scores map fst].
    change (fold_left _ _ 0)
      with (0 + t * (35 # 100) + s * (25 # 100) + l * (20 # 100) + o * (20 # 100)).
    split; [reflexivity |].
    split; [repeat constructor; cbn [snd]; lra |].
    split; [lra |]. split.
    + intros T1 R1 L1 O1 M A.
      assert (t == 1) by (apply TO; exact T1).
      assert (s == 1) by (apply SO; split; assumption).
      assert (l == 1) by (apply LO; split; assumption).
      assert (o == 1) by (apply OO; exact O1).
      lra.
    + intro X.
      assert (t == 1 /\ s == 1 /\ l == 1 /\ o == 1) as (T1 & S1 & L1 & O1)
        by (repeat split; lra).
      apply TO in T1. apply SO in S1. apply LO in L1. apply OO in O1.
      destruct S1 as [S1 S2]. destruct L1 as [L1 L2].
      repeat split; try assumption; try lra; try (apply S2; assumption);
        apply L2; assumption.
Qed.

End SEPHIMore.
